(** * Conduit: the rolling activity-statistics aggregator

    A shallow embedding of the activity-statistics core of the Conduit
    application: the Swift structs [ActivitySeries] and [ActivityStats], the
    [ConduitManager] actor that owns one [ActivityStats] per relay session,
    the dictionary encoding sent over the React Native bridge, and the zod
    schema that receives it on the TypeScript side.

    Modelling conventions.
    - Swift [Int] and [UInt64] are [Z]; every operation that traps at run time
      (conversion of a negative [Int] to [UInt64], arithmetic overflow,
      division by zero, [removeFirst] on an empty deque, force-unwrapping
      [nil]) returns [None].  A result [Some x] is a call that returns.
    - [Deque<Int>] is [list Z], oldest element first.
    - [TimeInterval] (a [Double] number of seconds) is a rational [Q]; the
      clock read [Date().timeIntervalSinceReferenceDate] is an explicit
      argument [now].  In [msElapsedTime] the difference and the product
      with 1000 are each rounded to the nearest [Double], as [Double]
      arithmetic does.  In [msSinceUpdate] the difference of the two clock
      readings is taken exactly, as [Double] computes it for readings of
      comparable magnitude.
    - A number sent over the bridge reaches JavaScript as the nearest
      [Double].
    - The actor's listener calls are collected as a list of emitted events.
    - [ConduitManager.startConduit] and [ConduitManager.stopConduit] follow
      a method from entry to exit; [Jobs] splits the two methods at their
      [await]s and lets other jobs of the actor run in between. *)

From Stdlib Require Import ZArith QArith Qround Lia Lqa List.
From stdpp Require Import base option list strings pretty gmap.

Local Open Scope Z_scope.

(** ** Swift integer and floating-point primitives *)

Module Swift.

Definition UInt64_max : Z := 2 ^ 64 - 1.
Definition Int_max : Z := 2 ^ 63 - 1.
Definition Int_min : Z := - 2 ^ 63.

(** [UInt64(_: Int)]: traps when the value is negative. *)
Definition UInt64_of_Int (i : Z) : option Z :=
  if decide (0 <= i) then Some i else None.

(** [Int(_: UInt64)]: traps when the value exceeds [Int.max]. *)
Definition Int_of_UInt64 (u : Z) : option Z :=
  if decide (u <= Int_max) then Some u else None.

(** [+] on [UInt64]: traps on overflow. *)
Definition UInt64_add (a b : Z) : option Z :=
  if decide (a + b <= UInt64_max) then Some (a + b) else None.

(** [*] on [UInt64]: traps on overflow. *)
Definition UInt64_mul (a b : Z) : option Z :=
  if decide (a * b <= UInt64_max) then Some (a * b) else None.

(** [/] on [UInt64]: traps on a zero divisor. *)
Definition UInt64_div (a b : Z) : option Z :=
  if decide (b = 0) then None else Some (a / b).

(** [-] on [Int]: traps on overflow. *)
Definition Int_sub (a b : Z) : option Z :=
  if decide (Int_min <= a - b <= Int_max) then Some (a - b) else None.

(** [round(_: Double)]: nearest integer, halfway cases away from zero. *)
Definition round (x : Q) : Z :=
  if Qle_bool 0 x then Qfloor (x + (1 # 2)) else (- Qfloor (- x + (1 # 2)))%Z.

(** [x * 2 ^ k] *)
Definition scale2 (x : Q) (k : Z) : Q :=
  match k with
  | Z0 => x
  | Zpos p => (x * inject_Z (2 ^ Zpos p))%Q
  | Zneg p => (x / inject_Z (2 ^ Zpos p))%Q
  end.

(** The binary exponent of a positive value [x]: the [e] with
    [2 ^ e <= x < 2 ^ (e + 1)]. *)
Definition exponent (x : Q) : Z :=
  let e0 := Z.log2 (Qnum x) - Z.log2 (Z.pos (Qden x)) in
  if Qle_bool 1 (scale2 x (- e0)) then e0 else e0 - 1.

(** The integer nearest to a value, halfway cases to the even one. *)
Definition nearest_even (y : Q) : Z :=
  let f := Qfloor y in
  match (y - inject_Z f ?= 1 # 2)%Q with
  | Lt => f
  | Gt => f + 1
  | Eq => if Z.even f then f else f + 1
  end.

(** The [Double] nearest to a real value: the value rounded to a significand
    of 53 bits, halfway cases to the even significand.  The limits of the
    exponent of a [Double] are not modelled. *)
Definition Double_nearest (x : Q) : Q :=
  match Qnum x with
  | Z0 => 0%Q
  | Zpos _ =>
      let e := exponent x in
      scale2 (inject_Z (nearest_even (scale2 x (52 - e)))) (e - 52)
  | Zneg _ =>
      let e := exponent (- x) in
      (- scale2 (inject_Z (nearest_even (scale2 (- x) (52 - e)))) (e - 52))%Q
  end.

(** [-] on [Double]: the difference, rounded. *)
Definition Double_sub (a b : Q) : Q := Double_nearest (a - b).

(** [*] on [Double]: the product, rounded. *)
Definition Double_mul (a b : Q) : Q := Double_nearest (a * b).

(** [UInt64(_: Double)]: truncates toward zero; traps when the truncated
    value is not representable. *)
Definition UInt64_of_Double (x : Q) : option Z :=
  let t := Z.quot (Qnum x) (Z.pos (Qden x)) in
  if decide (0 <= t <= UInt64_max) then Some t else None.

(** [removeFirst()] on a deque: traps when the deque is empty. *)
Definition removeFirst (d : list Z) : option (list Z) :=
  match d with
  | [] => None
  | _ :: rest => Some rest
  end.

(** [append(_:)] on a deque. *)
Definition append (d : list Z) (x : Z) : list Z := d ++ [x].

(** [Deque(repeating:count:)]: traps on a negative count. *)
Definition Deque_repeating (x : Z) (count : Z) : option (list Z) :=
  if decide (0 <= count) then Some (replicate (Z.to_nat count) x) else None.

End Swift.

(** ** [struct ActivitySeries] *)

Module ActivitySeries.
Import Swift.

Record t : Type := mk {
  msBucketPeriod : Z;
  numBuckets : Z;
  bytesUp : list Z;
  bytesDown : list Z;
  connectingClients : list Z;
  connectedClients : list Z
}.

(** [init(msBucketPeriod:numBuckets:)] *)
Definition init (msBucketPeriod numBuckets : Z) : option t :=
  bd ← Deque_repeating 0 numBuckets;
  bu ← Deque_repeating 0 numBuckets;
  cg ← Deque_repeating 0 numBuckets;
  cd ← Deque_repeating 0 numBuckets;
  Some (mk msBucketPeriod numBuckets bu bd cg cd).

(** [pushDataPoints]: on each channel in turn, drop the oldest element and
    append the new one. *)
Definition pushDataPoints (s : t) (bu bd cg cd : Z) : option t :=
  u ← removeFirst (bytesUp s);
  d ← removeFirst (bytesDown s);
  g ← removeFirst (connectingClients s);
  c ← removeFirst (connectedClients s);
  Some (mk (msBucketPeriod s) (numBuckets s)
           (append u bu) (append d bd) (append g cg) (append c cd)).

(** [(1...n).forEach { _ in pushDataPoints(0, 0, 0, 0) }] *)
Fixpoint pushZeros (n : nat) (s : t) : option t :=
  match n with
  | O => Some s
  | S n' => s' ← pushDataPoints s 0 0 0 0; pushZeros n' s'
  end.

(** The value of the local variable [elapsedBucketCount] once it has been
    clamped from above: [Int(msSinceUpdate / msBucketPeriod) - 1], then
    replaced by [numBuckets] when larger. *)
Definition elapsedBucketCount (s : t) (msSinceUpdate : Z) : option Z :=
  q ← UInt64_div msSinceUpdate (msBucketPeriod s);
  i ← Int_of_UInt64 q;
  e ← Int_sub i 1;
  Some (if decide (e > numBuckets s) then numBuckets s else e).

(** [updateSeries(msSinceUpdate:_:_:_:_:)] *)
Definition updateSeries (s : t) (msSinceUpdate : Z) (bu bd cg cd : Z)
  : option t :=
  e ← elapsedBucketCount s msSinceUpdate;
  s1 ← (if decide (e > 0) then pushZeros (Z.to_nat e) s else Some s);
  pushDataPoints s1 bu bd cg cd.

End ActivitySeries.

(** ** [struct ActivityStats] *)

Module ActivityStats.
Import Swift.

Record t : Type := mk {
  startTime : Q;
  lastUpdate : Q;
  totalBytesUp : Z;
  totalBytesDown : Z;
  currentConnectingClients : Z;
  currentConnectedClients : Z;
  seriesFast : ActivitySeries.t
}.

(** [var msElapsedTime: UInt64 { UInt64((lastUpdate - startTime) * 1000) }] *)
Definition msElapsedTime (s : t) : option Z :=
  UInt64_of_Double
    (Double_mul (Double_sub (lastUpdate s) (startTime s)) (inject_Z 1000)).

(** [init()]: the clock is read once; the other stored properties take
    their default values, [seriesFast] being
    [ActivitySeries(msBucketPeriod: 1000, numBuckets: 288)]. *)
Definition init (now : Q) : option t :=
  series ← ActivitySeries.init 1000 288;
  Some (mk now now 0 0 0 0 series).

(** [let msSinceUpdate = UInt64(round(now - lastUpdate)) * 1000] *)
Definition msSinceUpdate (s : t) (now : Q) : option Z :=
  secs ← UInt64_of_Double (inject_Z (round (now - lastUpdate s)));
  UInt64_mul secs 1000.

(** [update(bytesUp:bytesDown:connectingClients:connectedClients:)] *)
Definition update (s : t) (now : Q)
    (bytesUp bytesDown connectingClients connectedClients : Z) : option t :=
  up ← UInt64_of_Int bytesUp;
  tu ← UInt64_add (totalBytesUp s) up;
  down ← UInt64_of_Int bytesDown;
  td ← UInt64_add (totalBytesDown s) down;
  ms ← msSinceUpdate s now;
  series ← ActivitySeries.updateSeries (seriesFast s) ms
              bytesUp bytesDown connectingClients connectedClients;
  Some (mk (startTime s) now tu td connectingClients connectedClients series).

(** One activity report of the engine together with the clock value read
    when [update] handles it. *)
Record Tick : Type := mkTick {
  now : Q;
  bytesUp : Z;
  bytesDown : Z;
  connectingClients : Z;
  connectedClients : Z
}.

Definition updateTick (s : t) (k : Tick) : option t :=
  update s (now k) (bytesUp k) (bytesDown k)
         (connectingClients k) (connectedClients k).

(** A sequence of [update] calls on one object; a trap aborts the run. *)
Fixpoint updates (s : t) (ks : list Tick) : option t :=
  match ks with
  | [] => Some s
  | k :: ks' => s' ← updateTick s k; updates s' ks'
  end.

End ActivityStats.

(** ** [actor ConduitManager] *)

Module ConduitManager.

Inductive ConduitStatus : Type := starting | started | stopping | stopped.

(** [ConduitParams], as constructed in [ConduitModule.toggleInProxy]. *)
Record ConduitParams : Type := mkParams {
  maxClients : Z;
  limitUpstream : Z;
  limitDownstream : Z;
  privateKey : option string
}.

(** [PsiphonTunnelListener.DynamicConfigs] *)
Record DynamicConfigs : Type := mkConfigs {
  conduitParams : ConduitParams;
  clientVersion : string
}.

(** The mutable part of [PsiphonTunnelListener]. *)
Record PsiphonTunnelListener : Type := mkListener {
  dynamicConfigs : option DynamicConfigs
}.

(** Calls made on [ConduitManager.Listener]. *)
Inductive ListenerCall : Type :=
| onConduitStatusUpdate (status : ConduitStatus) (internetReachable : option bool)
| onInproxyProxyActivity (stats : ActivityStats.t)
| onInproxyMustUpgrade.

(** How an [async throws] method ends. *)
Inductive Outcome : Type :=
| returned
| threw (message : string).

Record t : Type := mk {
  psiphonTunnelListener : option PsiphonTunnelListener;
  psiphonTunnel : option unit;
  conduitStatus : ConduitStatus;
  activityStats : option ActivityStats.t
}.

#[global] Instance ConduitStatus_eq_dec : EqDecision ConduitStatus.
Proof. solve_decision. Defined.

#[global] Instance ConduitParams_eq_dec : EqDecision ConduitParams.
Proof. solve_decision. Defined.

(** [init(listener:)] *)
Definition init : t := mk None None stopped None.

(** [isEqualConduitParams]: [dynamicConfigs?.conduitParams == conduitParams] *)
Definition isEqualConduitParams (l : PsiphonTunnelListener) (p : ConduitParams) : bool :=
  bool_decide (conduitParams <$> dynamicConfigs l = Some p).

(** [setConduitStatus]: [reachable] is the value that
    [psiphonTunnel!.isInternetReachable] reads. *)
Definition setConduitStatus (m : t) (status : ConduitStatus) (reachable : option bool)
  : option (t * list ListenerCall) :=
  _ ← psiphonTunnel m;
  Some (mk (psiphonTunnelListener m) (psiphonTunnel m) status (activityStats m),
        [onConduitStatusUpdate status reachable]).

Definition setActivityStats (m : t) (a : option ActivityStats.t) : t :=
  mk (psiphonTunnelListener m) (psiphonTunnel m) (conduitStatus m) a.

(** [startConduit(_:)].  [version] is the result of [getClientVersion()],
    [success] the result of [psiphonTunnel!.start(forced: false)], [now] the
    clock read by [ActivityStats()], [reach1] and [reach2] the two reads of
    the tunnel's reachability.  The method is followed from entry to exit:
    what other actor methods do while it is suspended at an [await] is not
    part of this function. *)
Definition startConduit (m : t) (params : ConduitParams) (version : string)
    (success : bool) (now : Q) (reach1 reach2 : option bool)
  : option (t * list ListenerCall * Outcome) :=
  if decide (conduitStatus m = starting) then Some (m, [], returned) else
  let m :=
    match psiphonTunnel m with
    | None => mk (Some (mkListener None)) (Some tt) (conduitStatus m) (activityStats m)
    | Some _ => m
    end in
  duplicate ← (if decide (conduitStatus m = started)
               then l ← psiphonTunnelListener m; Some (isEqualConduitParams l params)
               else Some false);
  if duplicate : bool then Some (m, [], returned) else
  '(m, calls1) ← setConduitStatus m starting reach1;
  let m := setActivityStats m None in
  _ ← psiphonTunnelListener m;
  let m := mk (Some (mkListener (Some (mkConfigs params version))))
              (psiphonTunnel m) (conduitStatus m) (activityStats m) in
  if success then
    '(m, calls2) ← setConduitStatus m started reach2;
    stats ← ActivityStats.init now;
    let m := setActivityStats m (Some stats) in
    Some (m, calls1 ++ calls2 ++ [onInproxyProxyActivity stats], returned)
  else
    '(m, calls2) ← setConduitStatus m stopped reach2;
    Some (m, calls1 ++ calls2,
          threw "Failed to start conduit through psiphon tunnel with given parameters.").

(** [stopConduit()] *)
Definition stopConduit (m : t) (reach1 reach2 : option bool)
  : option (t * list ListenerCall) :=
  match conduitStatus m with
  | started =>
      match psiphonTunnel m with
      | None => Some (m, [])
      | Some _ =>
          '(m, calls1) ← setConduitStatus m stopping reach1;
          '(m, calls2) ← setConduitStatus m stopped reach2;
          Some (setActivityStats m None, calls1 ++ calls2)
      end
  | _ => Some (m, [])
  end.

(** [updateActivityStats(connectingClients:connectedClients:bytesUp:bytesDown:)] *)
Definition updateActivityStats (m : t) (now : Q)
    (connectingClients connectedClients bytesUp bytesDown : Z)
  : option (t * list ListenerCall) :=
  match activityStats m with
  | None => Some (m, [])
  | Some stats =>
      stats' ← ActivityStats.update stats now
                 bytesUp bytesDown connectingClients connectedClients;
      Some (setActivityStats m (Some stats'), [onInproxyProxyActivity stats'])
  end.

End ConduitManager.

(** ** The activity-stats payload sent over the bridge *)

Module React.

#[local] Unset Elimination Schemes.

(** Values of the bridge's interchange format.  A dictionary is a list of
    entries with distinct keys, read by key; a number is the whole number
    that the Swift side puts in, and [delivered] below gives the [Double]
    that JavaScript receives for it. *)
Inductive JValue : Type :=
| JNull
| JNumber (n : Z)
| JString (s : string)
| JArray (items : list JValue)
| JObject (entries : list (string * JValue)).

#[local] Set Elimination Schemes.

(** The entry of a dictionary under a key. *)
Fixpoint entry (k : string) (entries : list (string * JValue)) : option JValue :=
  match entries with
  | [] => None
  | (k', v) :: rest => if decide (k' = k) then Some v else entry k rest
  end.

(** The value reached by following a path of keys. *)
Fixpoint field (path : list string) (v : JValue) : option JValue :=
  match path with
  | [] => Some v
  | k :: path' =>
      match v with
      | JObject entries => x ← entry k entries; field path' x
      | _ => None
      end
  end.

(** [struct ReactInProxyActivityStats.DataByPeriod] *)
Record DataByPeriod : Type := mkDataByPeriod {
  numBuckets : Z;
  bytesUp : list Z;
  bytesDown : list Z;
  connectingClients : list Z;
  connectedClients : list Z;
  bucketPeriod : string
}.

(** [struct ReactInProxyActivityStats] *)
Record ReactInProxyActivityStats : Type := mkStats {
  elapsedTime : Z;
  totalBytesUp : Z;
  totalBytesDown : Z;
  currentConnectingClients : Z;
  currentConnectedClients : Z;
  dataByPeriod : DataByPeriod
}.

(** [DataByPeriod.asDictionary] *)
Definition DataByPeriod_asDictionary (d : DataByPeriod) : JValue :=
  JObject
    [(bucketPeriod d,
      JObject
        [("numBuckets", JNumber (numBuckets d));
         ("bytesUp", JArray (JNumber <$> bytesUp d));
         ("bytesDown", JArray (JNumber <$> bytesDown d));
         ("connectingClients", JArray (JNumber <$> connectingClients d));
         ("connectedClients", JArray (JNumber <$> connectedClients d))])].

(** [ReactInProxyActivityStats.asDictionary] *)
Definition asDictionary (r : ReactInProxyActivityStats) : JValue :=
  JObject
    [("elapsedTime", JNumber (elapsedTime r));
     ("totalBytesUp", JNumber (totalBytesUp r));
     ("totalBytesDown", JNumber (totalBytesDown r));
     ("currentConnectingClients", JNumber (currentConnectingClients r));
     ("currentConnectedClients", JNumber (currentConnectedClients r));
     ("dataByPeriod", DataByPeriod_asDictionary (dataByPeriod r))].

(** A number of a dictionary reaches JavaScript as a [Number]: the [Double]
    nearest to it, here as the whole number that this [Double] is. *)
Definition toNumber (n : Z) : Z :=
  Qfloor (Swift.Double_nearest (inject_Z n)).

(** The value that JavaScript receives for a value sent over the bridge. *)
Fixpoint delivered (v : JValue) : JValue :=
  match v with
  | JNumber n => JNumber (toNumber n)
  | JArray items => JArray (delivered <$> items)
  | JObject entries =>
      JObject ((fun kv => let '(k, x) := kv in (k, delivered x)) <$> entries)
  | JNull => JNull
  | JString s => JString s
  end.

(** The payload that [ConduitModule.onInproxyProxyActivity(stats:)] builds
    from an [ActivityStats] value. *)
Definition ofActivityStats (stats : ActivityStats.t)
  : option ReactInProxyActivityStats :=
  elapsed ← ActivityStats.msElapsedTime stats;
  let series := ActivityStats.seriesFast stats in
  Some (mkStats elapsed
          (ActivityStats.totalBytesUp stats)
          (ActivityStats.totalBytesDown stats)
          (ActivityStats.currentConnectingClients stats)
          (ActivityStats.currentConnectedClients stats)
          (mkDataByPeriod
             (ActivitySeries.numBuckets series)
             (ActivitySeries.bytesUp series)
             (ActivitySeries.bytesDown series)
             (ActivitySeries.connectingClients series)
             (ActivitySeries.connectedClients series)
             (pretty (ActivitySeries.msBucketPeriod series) +:+ "ms"))).

End React.

(** ** The receiving schema *)

Module Zod.
Import React.

#[local] Unset Elimination Schemes.

(** The schema constructors that the activity-stats schema uses:
    [z.number()], [z.array(item).length(len)] and [z.object(shape)]. *)
Inductive Schema : Type :=
| number
| array_length (item : Schema) (len : nat)
| object (shape : list (string * Schema)).

#[local] Set Elimination Schemes.

(** [schema.parse(value)]: a number is accepted as it is; an array needs
    the exact length and accepted items; an object needs every key of the
    shape, and the result holds the keys of the shape only (zod's default
    for keys that the shape does not name is to strip them). *)
Fixpoint parse (sc : Schema) (v : JValue) {struct sc} : option JValue :=
  match sc with
  | number =>
      match v with
      | JNumber n => Some (JNumber n)
      | _ => None
      end
  | array_length item len =>
      match v with
      | JArray items =>
          if decide (length items = len)
          then JArray <$> mapM (parse item) items
          else None
      | _ => None
      end
  | object shape =>
      match v with
      | JObject entries =>
          JObject <$>
            (fix fields (sh : list (string * Schema))
               : option (list (string * JValue)) :=
               match sh with
               | [] => Some []
               | (k, s) :: sh' =>
                   x ← entry k entries;
                   y ← parse s x;
                   rest ← fields sh';
                   Some ((k, y) :: rest)
               end) shape
      | _ => None
      end
  end.

Definition InProxyActivityDataByPeriodSchema : Schema :=
  object
    [("bytesUp", array_length number 288);
     ("bytesDown", array_length number 288);
     ("connectingClients", array_length number 288);
     ("connectedClients", array_length number 288)].

Definition InProxyActivityStatsSchema : Schema :=
  object
    [("elapsedTime", number);
     ("totalBytesUp", number);
     ("totalBytesDown", number);
     ("currentConnectingClients", number);
     ("currentConnectedClients", number);
     ("dataByPeriod", object [("1000ms", InProxyActivityDataByPeriodSchema)])].

End Zod.

(** ** [extension ConduitManager: PsiphonTunnelListener.Listener] *)

Module TunnelEvents.
Import ConduitManager.

(** [onInternetReachabilityChanged(_:)]: the listener is told the current
    status with the new reachability. *)
Definition onInternetReachabilityChanged (m : ConduitManager.t) (reachable : bool)
  : option (ConduitManager.t * list ListenerCall) :=
  Some (m, [onConduitStatusUpdate (conduitStatus m) (Some reachable)]).

(** [onInproxyProxyActivity(_:connectedClients:bytesUp:bytesDown:)] *)
Definition onInproxyProxyActivity (m : ConduitManager.t) (now : Q)
    (connectingClients connectedClients bytesUp bytesDown : Z)
  : option (ConduitManager.t * list ListenerCall) :=
  updateActivityStats m now connectingClients connectedClients bytesUp bytesDown.

(** [onInproxyMustUpgrade()]: the listener is told, then the conduit is
    stopped. *)
Definition onInproxyMustUpgrade (m : ConduitManager.t) (reach1 reach2 : option bool)
  : option (ConduitManager.t * list ListenerCall) :=
  '(m', calls) ← stopConduit m reach1 reach2;
  Some (m', ConduitManager.onInproxyMustUpgrade :: calls).

(** What reaches the actor: the two requests of the module and the three
    callbacks of the tunnel, each with the values it reads from outside. *)
Inductive Request : Type :=
| start (params : ConduitParams) (version : string) (success : bool)
        (now : Q) (reach1 reach2 : option bool)
| stop (reach1 reach2 : option bool)
| reachability (reachable : bool)
| activity (now : Q) (connectingClients connectedClients bytesUp bytesDown : Z)
| mustUpgrade (reach1 reach2 : option bool).

Definition handle (m : ConduitManager.t) (r : Request)
  : option (ConduitManager.t * list ListenerCall) :=
  match r with
  | start params version success now reach1 reach2 =>
      '(m', calls, _) ← startConduit m params version success now reach1 reach2;
      Some (m', calls)
  | stop reach1 reach2 => stopConduit m reach1 reach2
  | reachability reachable => onInternetReachabilityChanged m reachable
  | activity now cg cd bu bd => onInproxyProxyActivity m now cg cd bu bd
  | mustUpgrade reach1 reach2 => onInproxyMustUpgrade m reach1 reach2
  end.

(** Requests handled one after the other; the listener calls accumulate. *)
Fixpoint serve (m : ConduitManager.t) (rs : list Request)
  : option (ConduitManager.t * list ListenerCall) :=
  match rs with
  | [] => Some (m, [])
  | r :: rs' =>
      '(m1, calls1) ← handle m r;
      '(m2, calls2) ← serve m1 rs';
      Some (m2, calls1 ++ calls2)
  end.

End TunnelEvents.

(** ** The actor's jobs *)

(** An [async] method of the actor gives the actor up at each [await]: until
    the awaited call returns, the actor runs other jobs, and the rest of the
    method runs as a later job.  [startConduit] awaits the tunnel's [stop()]
    and then its [start(forced:)]; [stopConduit] awaits the tunnel's
    [stop()]. *)
Module Jobs.
Import ConduitManager.

(** What is left to run of a method that is suspended at an [await]. *)
Inductive Continuation : Type :=
| startConduit_after_stop (params : ConduitParams)
| startConduit_after_start
| stopConduit_after_stop.

(** [startConduit(_:)] from its entry to [await psiphonTunnel!.stop()], or
    to its early return. *)
Definition startConduit_enter (m : ConduitManager.t) (params : ConduitParams)
    (reach : option bool)
  : option (ConduitManager.t * list ListenerCall * option Continuation) :=
  if decide (conduitStatus m = starting) then Some (m, [], None) else
  let m :=
    match psiphonTunnel m with
    | None => mk (Some (mkListener None)) (Some tt) (conduitStatus m) (activityStats m)
    | Some _ => m
    end in
  duplicate ← (if decide (conduitStatus m = started)
               then l ← psiphonTunnelListener m; Some (isEqualConduitParams l params)
               else Some false);
  if duplicate : bool then Some (m, [], None) else
  '(m, calls) ← setConduitStatus m starting reach;
  Some (m, calls, Some (startConduit_after_stop params)).

(** [startConduit(_:)] from the return of [psiphonTunnel!.stop()] to
    [await psiphonTunnel!.start(forced: false)]. *)
Definition startConduit_stopped (m : ConduitManager.t) (params : ConduitParams)
    (version : string)
  : option (ConduitManager.t * Continuation) :=
  let m := setActivityStats m None in
  _ ← psiphonTunnelListener m;
  let m := mk (Some (mkListener (Some (mkConfigs params version))))
              (psiphonTunnel m) (conduitStatus m) (activityStats m) in
  _ ← psiphonTunnel m;
  Some (m, startConduit_after_start).

(** [startConduit(_:)] from the return of [psiphonTunnel!.start(forced:)]
    to its end. *)
Definition startConduit_finish (m : ConduitManager.t) (success : bool) (now : Q)
    (reach : option bool)
  : option (ConduitManager.t * list ListenerCall * Outcome) :=
  if success then
    '(m, calls) ← setConduitStatus m started reach;
    stats ← ActivityStats.init now;
    let m := setActivityStats m (Some stats) in
    Some (m, calls ++ [onInproxyProxyActivity stats], returned)
  else
    '(m, calls) ← setConduitStatus m stopped reach;
    Some (m, calls,
          threw "Failed to start conduit through psiphon tunnel with given parameters.").

(** [stopConduit()] from its entry to [await psiphonTunnel.stop()], or to
    its early return. *)
Definition stopConduit_enter (m : ConduitManager.t) (reach : option bool)
  : option (ConduitManager.t * list ListenerCall * option Continuation) :=
  match conduitStatus m with
  | started =>
      match psiphonTunnel m with
      | None => Some (m, [], None)
      | Some _ =>
          '(m, calls) ← setConduitStatus m stopping reach;
          Some (m, calls, Some stopConduit_after_stop)
      end
  | _ => Some (m, [], None)
  end.

(** [stopConduit()] from the return of [psiphonTunnel.stop()] to its end. *)
Definition stopConduit_finish (m : ConduitManager.t) (reach : option bool)
  : option (ConduitManager.t * list ListenerCall) :=
  '(m, calls) ← setConduitStatus m stopped reach;
  Some (setActivityStats m None, calls).

(** The actor: its stored properties and its suspended methods. *)
Record Actor : Type := mkActor {
  manager : ConduitManager.t;
  suspended : list Continuation
}.

Definition init : Actor := mkActor ConduitManager.init [].

(** The jobs that the actor runs, each with the values it reads from
    outside: a method is entered, or the suspended method at a position of
    [suspended] goes on ([version], [success], [now] and [reach] are read by
    the part that uses them), or one of the tasks of the tunnel callbacks
    reaches the actor.  The task of [onInproxyMustUpgrade] first tells the
    listener and then calls [stopConduit] as a job of its own. *)
Inductive Job : Type :=
| startConduit_called (params : ConduitParams) (reach : option bool)
| stopConduit_called (reach : option bool)
| resumed (i : nat) (version : string) (success : bool) (now : Q)
          (reach : option bool)
| updateActivityStats_called (now : Q)
    (connectingClients connectedClients bytesUp bytesDown : Z)
| conduitStatus_read (reachable : bool)
| mustUpgrade_told.

Definition suspend (l : list Continuation) (k : option Continuation)
  : list Continuation :=
  match k with
  | Some k => l ++ [k]
  | None => l
  end.

(** One job.  [None]: the job traps, or it resumes a method that is not
    suspended. *)
Definition step (a : Actor) (j : Job) : option (Actor * list ListenerCall) :=
  match j with
  | startConduit_called params reach =>
      '(m, calls, k) ← startConduit_enter (manager a) params reach;
      Some (mkActor m (suspend (suspended a) k), calls)
  | stopConduit_called reach =>
      '(m, calls, k) ← stopConduit_enter (manager a) reach;
      Some (mkActor m (suspend (suspended a) k), calls)
  | resumed i version success now reach =>
      k ← suspended a !! i;
      let rest := delete i (suspended a) in
      match k with
      | startConduit_after_stop params =>
          '(m, k') ← startConduit_stopped (manager a) params version;
          Some (mkActor m (rest ++ [k']), [])
      | startConduit_after_start =>
          '(m, calls, _) ← startConduit_finish (manager a) success now reach;
          Some (mkActor m rest, calls)
      | stopConduit_after_stop =>
          '(m, calls) ← stopConduit_finish (manager a) reach;
          Some (mkActor m rest, calls)
      end
  | updateActivityStats_called now cg cd bu bd =>
      '(m, calls) ← updateActivityStats (manager a) now cg cd bu bd;
      Some (mkActor m (suspended a), calls)
  | conduitStatus_read reachable =>
      Some (a, [onConduitStatusUpdate (conduitStatus (manager a)) (Some reachable)])
  | mustUpgrade_told =>
      Some (a, [onInproxyMustUpgrade])
  end.

(** Jobs run one after the other; the listener calls accumulate. *)
Fixpoint run (a : Actor) (js : list Job) : option (Actor * list ListenerCall) :=
  match js with
  | [] => Some (a, [])
  | j :: js' =>
      '(a1, calls1) ← step a j;
      '(a2, calls2) ← run a1 js';
      Some (a2, calls1 ++ calls2)
  end.

End Jobs.

(** ** [ConduitModule]: the events sent to JavaScript *)

Module ConduitModule.
Import React.

(** [ReactProxyState.Status] *)
Inductive Status : Type := RUNNING | STOPPED | UNKNOWN.

(** [ReactProxyState.NetworkState] *)
Inductive NetworkState : Type := HAS_INTERNET | NO_INTERNET.

Definition Status_rawValue (s : Status) : string :=
  match s with
  | RUNNING => "RUNNING"
  | STOPPED => "STOPPED"
  | UNKNOWN => "UNKNOWN"
  end.

Definition NetworkState_rawValue (n : NetworkState) : string :=
  match n with
  | HAS_INTERNET => "HAS_INTERNET"
  | NO_INTERNET => "NO_INTERNET"
  end.

(** [struct ReactProxyState] *)
Record ReactProxyState : Type := mkProxyState {
  status : Status;
  networkState : option NetworkState
}.

(** [enum ReactProxyError] *)
Inductive ReactProxyError : Type :=
| inProxyStartFailed
| inProxyRestartFailed
| inProxyMustUpgrade.

(** [enum ConduitEvent] *)
Inductive ConduitEvent : Type :=
| proxyState (s : ReactProxyState)
| proxyError (e : ReactProxyError)
| inProxyActivityStats (r : ReactInProxyActivityStats).

(** [ReactProxyState.asDictionary]; a [nil] value of the dictionary crosses
    the bridge as [null]. *)
Definition ReactProxyState_asDictionary (s : ReactProxyState) : JValue :=
  JObject
    [("status", JString (Status_rawValue (status s)));
     ("networkState",
      match networkState s with
      | Some n => JString (NetworkState_rawValue n)
      | None => JNull
      end)].

(** [ReactProxyError.asDictionary] *)
Definition ReactProxyError_asDictionary (e : ReactProxyError) : JValue :=
  let action :=
    match e with
    | inProxyStartFailed => "inProxyStartFailed"
    | inProxyRestartFailed => "inProxyRestartFailed"
    | inProxyMustUpgrade => "inProxyMustUpgrade"
    end in
  JObject [("action", JString action)].

(** [ConduitEvent.asDictionary] *)
Definition ConduitEvent_asDictionary (e : ConduitEvent) : JValue :=
  match e with
  | proxyState s =>
      JObject [("type", JString "proxyState");
               ("data", ReactProxyState_asDictionary s)]
  | proxyError err =>
      JObject [("type", JString "proxyError");
               ("data", ReactProxyError_asDictionary err)]
  | inProxyActivityStats stats =>
      JObject [("type", JString "inProxyActivityStats");
               ("data", asDictionary stats)]
  end.

(** [onConduitStatusUpdate(_:internetReachable:)] *)
Definition onConduitStatusUpdate (st : ConduitManager.ConduitStatus)
    (internetReachable : option bool) : ConduitEvent :=
  let proxyStatus :=
    match st with
    | ConduitManager.starting | ConduitManager.started => RUNNING
    | ConduitManager.stopping | ConduitManager.stopped => STOPPED
    end in
  let network :=
    match internetReachable with
    | None => None
    | Some true => Some HAS_INTERNET
    | Some false => Some NO_INTERNET
    end in
  proxyState (mkProxyState proxyStatus network).

(** [onInproxyProxyActivity(stats:)] *)
Definition onInproxyProxyActivity (stats : ActivityStats.t) : option ConduitEvent :=
  r ← ofActivityStats stats;
  Some (inProxyActivityStats r).

(** [onInproxyMustUpgrade()] *)
Definition onInproxyMustUpgrade : ConduitEvent := proxyError inProxyMustUpgrade.

(** The module as [ConduitManager.Listener]: the event sent for a call. *)
Definition sendEvent (c : ConduitManager.ListenerCall) : option ConduitEvent :=
  match c with
  | ConduitManager.onConduitStatusUpdate st reachable =>
      Some (onConduitStatusUpdate st reachable)
  | ConduitManager.onInproxyProxyActivity stats => onInproxyProxyActivity stats
  | ConduitManager.onInproxyMustUpgrade => Some onInproxyMustUpgrade
  end.

End ConduitModule.

(** ** The schemas of the events *)

Module ZodEvent.
Import React.

#[local] Unset Elimination Schemes.

(** Schemas built with [z.enum], [.nullable()], [z.object] and [z.union]
    over the schemas of [Zod]. *)
Inductive Schema : Type :=
| plain (sc : Zod.Schema)
| enum (values : list string)
| nullable (inner : Schema)
| object (shape : list (string * Schema))
| union (options : list Schema).

#[local] Set Elimination Schemes.

(** [schema.parse(value)]: an enum accepts the strings it lists; a nullable
    schema accepts [null] and what its inner schema accepts; an object is
    parsed as in [Zod.parse]; a union gives the result of the first option, in
    order, that accepts the value. *)
Fixpoint parse (sc : Schema) (v : JValue) {struct sc} : option JValue :=
  match sc with
  | plain sc' => Zod.parse sc' v
  | enum values =>
      match v with
      | JString s => if decide (s ∈ values) then Some (JString s) else None
      | _ => None
      end
  | nullable inner =>
      match v with
      | JNull => Some JNull
      | _ => parse inner v
      end
  | object shape =>
      match v with
      | JObject entries =>
          JObject <$>
            (fix fields (sh : list (string * Schema))
               : option (list (string * JValue)) :=
               match sh with
               | [] => Some []
               | (k, s) :: sh' =>
                   x ← entry k entries;
                   y ← parse s x;
                   rest ← fields sh';
                   Some ((k, y) :: rest)
               end) shape
      | _ => None
      end
  | union options =>
      (fix first (os : list Schema) : option JValue :=
         match os with
         | [] => None
         | o :: os' =>
             match parse o v with
             | Some r => Some r
             | None => first os'
             end
         end) options
  end.

Definition InProxyStatusEnumSchema : Schema :=
  enum ["RUNNING"; "STOPPED"; "UNKNOWN"].

Definition ProxyStateSchema : Schema :=
  object
    [("status", InProxyStatusEnumSchema);
     ("networkState", nullable (enum ["HAS_INTERNET"; "NO_INTERNET"]))].

Definition ProxyErrorSchema : Schema :=
  object
    [("action",
      enum ["proxyStartFailed"; "proxyRestartFailed"; "inProxyMustUpgrade"])].

Definition InProxyEventSchema : Schema :=
  object
    [("type", enum ["proxyState"; "proxyError"; "inProxyActivityStats"]);
     ("data",
      union [ProxyStateSchema; ProxyErrorSchema;
             plain Zod.InProxyActivityStatsSchema])].

End ZodEvent.

(** ** [class ConduitServiceInteractor] *)

Module ConduitServiceInteractor.

Section Interactor.

(** The bundles that the service sends; their content is not read here. *)
Context {Bundle : Type}.

(** The values of [ProxyState] that the class builds. *)
Inductive ProxyState : Type :=
| ProxyState_unknown
| ProxyState_stopped
| ProxyState_fromBundle (b : Bundle).

(** The two actions of [ConduitService] that the class puts in an intent. *)
Inductive IntentAction : Type :=
| INTENT_ACTION_TOGGLE_IN_PROXY
| INTENT_ACTION_PARAMS_CHANGED.

(** A value put in an intent with [putExtra]. *)
Inductive Extra : Type :=
| IntExtra (n : Z)
| StringExtra (s : string).

(** An intent for [ConduitService]: its action and its extras, in the order
    in which they are put. *)
Record Intent : Type := mkIntent {
  action : IntentAction;
  extras : list (string * Extra)
}.

(** The calls that the class makes on its relays, on the context, on the
    service and on the log. *)
Inductive Call : Type :=
| proxyStateRelay_accept (p : ProxyState)
| proxyActivityStatsRelay_accept (b : Bundle)
| context_bindService
| context_unbindService
| conduitService_registerClient
| conduitService_unregisterClient
| MyLog_e (message : string)
| ContextCompat_registerReceiver
| context_unregisterReceiver
| ContextCompat_startForegroundService (intent : Intent).

Record t : Type := mk {
  conduitService : option unit;
  isStopped : bool;
  isServiceBound : bool
}.

Definition MAX_CLIENTS : string := "maxClients".
Definition LIMIT_UPSTREAM_BYTES : string := "limitUpstreamBytesPerSecond".
Definition LIMIT_DOWNSTREAM_BYTES : string := "limitDownstreamBytesPerSecond".
Definition PROXY_PRIVATE_KEY : string := "proxyPrivateKey".

(** The constructor: fields at their initial values, the receiver
    registered, and the relay primed with [ProxyState.unknown()]. *)
Definition init : t * list Call :=
  (mk None true false,
   [ContextCompat_registerReceiver; proxyStateRelay_accept ProxyState_unknown]).

(** The extras that [toggleInProxy] and [paramsChanged] put in the intent. *)
Definition parameters (maxClients limitUpstreamBytesPerSecond
    limitDownstreamBytesPerSecond : Z) (privateKey : string)
  : list (string * Extra) :=
  [(MAX_CLIENTS, IntExtra maxClients);
   (LIMIT_UPSTREAM_BYTES, IntExtra limitUpstreamBytesPerSecond);
   (LIMIT_DOWNSTREAM_BYTES, IntExtra limitDownstreamBytesPerSecond);
   (PROXY_PRIVATE_KEY, StringExtra privateKey)].

(** [toggleInProxy(context, maxClients, ...)] *)
Definition toggleInProxy (s : t) (maxClients limitUpstreamBytesPerSecond
    limitDownstreamBytesPerSecond : Z) (privateKey : string) : t * list Call :=
  (s, [ContextCompat_startForegroundService
         (mkIntent INTENT_ACTION_TOGGLE_IN_PROXY
            (parameters maxClients limitUpstreamBytesPerSecond
               limitDownstreamBytesPerSecond privateKey))]).

(** [paramsChanged(context, maxClients, ...)] *)
Definition paramsChanged (s : t) (maxClients limitUpstreamBytesPerSecond
    limitDownstreamBytesPerSecond : Z) (privateKey : string) : t * list Call :=
  (s, [ContextCompat_startForegroundService
         (mkIntent INTENT_ACTION_PARAMS_CHANGED
            (parameters maxClients limitUpstreamBytesPerSecond
               limitDownstreamBytesPerSecond privateKey))]).

(** [onDestroy(context)] *)
Definition onDestroy (s : t) : t * list Call :=
  (s, [context_unregisterReceiver]).

(** [bindService(context, intent)] *)
Definition bindService (s : t) : t * list Call :=
  if isServiceBound s then (s, [])
  else (mk (conduitService s) (isStopped s) true, [context_bindService]).

(** [isServiceRunning(context)]: [services] is [None] when there is no
    activity manager, and otherwise the class names of the running
    services. *)
Definition isServiceRunning (services : option (list string)) : bool :=
  match services with
  | None => false
  | Some names =>
      existsb (String.eqb "ca.psiphon.conduit.nativemodule.ConduitService") names
  end.

(** [onStart(context)] *)
Definition onStart (s : t) (services : option (list string)) : t * list Call :=
  let s := mk (conduitService s) false (isServiceBound s) in
  if isServiceRunning services then bindService s
  else (s, [proxyStateRelay_accept ProxyState_stopped]).

(** [onStop(context)]: [throws] tells whether [unregisterClient] raises a
    [RemoteException]. *)
Definition onStop (s : t) (throws : bool) : t * list Call :=
  let calls1 := [proxyStateRelay_accept ProxyState_unknown] in
  let calls2 :=
    match conduitService s with
    | Some _ =>
        conduitService_unregisterClient ::
        (if throws then [MyLog_e "Failed to unregister client"] else [])
    | None => []
    end in
  let calls3 := if isServiceBound s then [context_unbindService] else [] in
  (mk None true false, calls1 ++ calls2 ++ calls3).

(** [serviceConnection.onServiceConnected]: [throws] tells whether
    [registerClient] raises a [RemoteException]. *)
Definition onServiceConnected (s : t) (throws : bool) : t * list Call :=
  (mk (Some tt) (isStopped s) (isServiceBound s),
   conduitService_registerClient ::
   (if throws then [MyLog_e "Failed to register client"] else [])).

(** [serviceConnection.onServiceDisconnected] *)
Definition onServiceDisconnected (s : t) : t * list Call :=
  (mk None (isStopped s) false, [proxyStateRelay_accept ProxyState_stopped]).

(** [broadcastReceiver.onReceive] *)
Definition onReceive (s : t) : t * list Call :=
  if negb (isStopped s) then bindService s else (s, []).

(** [clientCallback.onProxyStateUpdated] *)
Definition onProxyStateUpdated (s : t) (b : Bundle) : t * list Call :=
  (s, [proxyStateRelay_accept (ProxyState_fromBundle b)]).

(** [clientCallback.onProxyActivityStatsUpdated] *)
Definition onProxyActivityStatsUpdated (s : t) (b : Bundle) : t * list Call :=
  (s, [proxyActivityStatsRelay_accept b]).

(** [clientCallback.ping] *)
Definition ping (s : t) : t * list Call := (s, []).

(** The entry points through which the platform and the service reach the
    object. *)
Inductive Event : Type :=
| start (services : option (list string))
| stop (unregisterThrows : bool)
| broadcast
| serviceConnected (registerThrows : bool)
| serviceDisconnected
| proxyStateUpdated (b : Bundle)
| proxyActivityStatsUpdated (b : Bundle)
| pinged
| destroy
| toggle (maxClients limitUpstreamBytesPerSecond limitDownstreamBytesPerSecond : Z)
         (privateKey : string)
| changeParams (maxClients limitUpstreamBytesPerSecond
                limitDownstreamBytesPerSecond : Z) (privateKey : string).

Definition handle (s : t) (e : Event) : t * list Call :=
  match e with
  | start services => onStart s services
  | stop throws => onStop s throws
  | broadcast => onReceive s
  | serviceConnected throws => onServiceConnected s throws
  | serviceDisconnected => onServiceDisconnected s
  | proxyStateUpdated b => onProxyStateUpdated s b
  | proxyActivityStatsUpdated b => onProxyActivityStatsUpdated s b
  | pinged => ping s
  | destroy => onDestroy s
  | toggle maxClients up down key => toggleInProxy s maxClients up down key
  | changeParams maxClients up down key => paramsChanged s maxClients up down key
  end.

(** Events handled one after the other from a state; the calls accumulate. *)
Fixpoint run (s : t) (es : list Event) : t * list Call :=
  match es with
  | [] => (s, [])
  | e :: es' =>
      let '(s1, calls1) := handle s e in
      let '(s2, calls2) := run s1 es' in
      (s2, calls1 ++ calls2)
  end.

End Interactor.

Arguments ProxyState : clear implicits.
Arguments Call : clear implicits.
Arguments Event : clear implicits.

End ConduitServiceInteractor.

(** ** [PsiphonTunnelListener.getPsiphonConfig] *)

Module PsiphonConfig.
Import ConduitManager.

#[local] Unset Elimination Schemes.


#[local] Set Elimination Schemes.



End PsiphonConfig.

(** * Vocabulary of the properties *)

(** All four channels hold exactly [n] buckets. *)
Definition channels_length (n : nat) (s : ActivitySeries.t) : Prop :=
  length (ActivitySeries.bytesUp s) = n /\ length (ActivitySeries.bytesDown s) = n /\
  length (ActivitySeries.connectingClients s) = n /\ length (ActivitySeries.connectedClients s) = n.

(** The invariant of a series: a positive capacity, and every channel
    filled to it. *)
Definition well_formed (s : ActivitySeries.t) : Prop :=
  0 < ActivitySeries.numBuckets s /\ channels_length (Z.to_nat (ActivitySeries.numBuckets s)) s.

(** The series that [init] builds: every bucket of every channel is zero. *)
Definition zero_filled (period n : Z) : ActivitySeries.t :=
  let zeros := replicate (Z.to_nat n) 0 in
  ActivitySeries.mk period n zeros zeros zeros zeros.

(** One drop-oldest, append-newest step on a channel. *)
Definition shift (l : list Z) (x : Z) : list Z := drop 1 l ++ [x].

(** The newest bucket of each channel. *)
Definition newest (s : ActivitySeries.t) (bu bd cg cd : Z) : Prop :=
  last (ActivitySeries.bytesUp s) = Some bu /\
  last (ActivitySeries.bytesDown s) = Some bd /\
  last (ActivitySeries.connectingClients s) = Some cg /\
  last (ActivitySeries.connectedClients s) = Some cd.

(** The object that [ActivityStats()] builds when the clock reads [now]. *)
Definition fresh (now : Q) : ActivityStats.t :=
  ActivityStats.mk now now 0 0 0 0 (zero_filled 1000 288).

(** Both cumulative totals are values of [UInt64]. *)
Definition totals_in_range (s : ActivityStats.t) : Prop :=
  0 <= ActivityStats.totalBytesUp s <= Swift.UInt64_max /\
  0 <= ActivityStats.totalBytesDown s <= Swift.UInt64_max.

(** A report whose byte deltas are not negative. *)
Definition nonneg_bytes (k : ActivityStats.Tick) : Prop :=
  0 <= ActivityStats.bytesUp k /\ 0 <= ActivityStats.bytesDown k.

(** Adding the byte deltas of a report does not overflow the totals. *)
Definition totals_fit (s : ActivityStats.t) (k : ActivityStats.Tick) : Prop :=
  ActivityStats.totalBytesUp s + ActivityStats.bytesUp k <= Swift.UInt64_max /\
  ActivityStats.totalBytesDown s + ActivityStats.bytesDown k <= Swift.UInt64_max.

(** The largest number of whole seconds whose millisecond count is a
    [UInt64]. *)
Definition max_seconds : Z := 18446744073709551.

(** Defensive clamping of a report, were it done: the call returns, and
    the totals and the newest buckets have received the inputs with every
    negative value replaced by zero. *)
Definition clamps_negative_input (s : ActivityStats.t) (k : ActivityStats.Tick) : Prop :=
  exists s',
    ActivityStats.updateTick s k = Some s' /\
    ActivityStats.totalBytesUp s'
    = ActivityStats.totalBytesUp s + Z.max 0 (ActivityStats.bytesUp k) /\
    ActivityStats.totalBytesDown s'
    = ActivityStats.totalBytesDown s + Z.max 0 (ActivityStats.bytesDown k) /\
    newest (ActivityStats.seriesFast s')
      (Z.max 0 (ActivityStats.bytesUp k)) (Z.max 0 (ActivityStats.bytesDown k))
      (Z.max 0 (ActivityStats.connectingClients k))
      (Z.max 0 (ActivityStats.connectedClients k)).

(** The named fields of the wire contract that the receiving schema
    declares, as paths of keys, each with the value that the snapshot has
    for it: the elapsed time (none when [msElapsedTime] traps), the two
    totals, the two client counts, and the four channels of the one-second
    window, oldest bucket first. *)
Definition declared_fields (s : ActivityStats.t)
  : list (list string * option React.JValue) :=
  let series := ActivityStats.seriesFast s in
  [(["elapsedTime"], React.JNumber <$> ActivityStats.msElapsedTime s);
   (["totalBytesUp"], Some (React.JNumber (ActivityStats.totalBytesUp s)));
   (["totalBytesDown"], Some (React.JNumber (ActivityStats.totalBytesDown s)));
   (["currentConnectingClients"],
    Some (React.JNumber (ActivityStats.currentConnectingClients s)));
   (["currentConnectedClients"],
    Some (React.JNumber (ActivityStats.currentConnectedClients s)));
   (["dataByPeriod"; "1000ms"; "bytesUp"],
    Some (React.JArray (React.JNumber <$> ActivitySeries.bytesUp series)));
   (["dataByPeriod"; "1000ms"; "bytesDown"],
    Some (React.JArray (React.JNumber <$> ActivitySeries.bytesDown series)));
   (["dataByPeriod"; "1000ms"; "connectingClients"],
    Some (React.JArray (React.JNumber <$> ActivitySeries.connectingClients series)));
   (["dataByPeriod"; "1000ms"; "connectedClients"],
    Some (React.JArray (React.JNumber <$> ActivitySeries.connectedClients series)))].

(** The bucket count of the one-second window. *)
Definition numBuckets_path : list string :=
  ["dataByPeriod"; "1000ms"; "numBuckets"].

Definition numBuckets_field (s : ActivityStats.t)
  : list string * option React.JValue :=
  (numBuckets_path,
   Some (React.JNumber (ActivitySeries.numBuckets (ActivityStats.seriesFast s)))).

(** The named fields of the wire contract, with their values in the
    snapshot. *)
Definition contract_fields (s : ActivityStats.t)
  : list (list string * option React.JValue) :=
  declared_fields s ++ [numBuckets_field s].

(** What the receiving side decodes from a snapshot: the payload is built
    from the snapshot, encoded as a dictionary, delivered over the bridge and
    parsed with the receiving schema. *)
Definition decode (s : ActivityStats.t) : option React.JValue :=
  r ← React.ofActivityStats s;
  Zod.parse Zod.InProxyActivityStatsSchema (React.delivered (React.asDictionary r)).

(** The snapshot round-trips: it is decoded, and each of the [fields] has
    in the decoded value the value that it has in the snapshot. *)
Definition round_trips (fields : list (list string * option React.JValue))
    (s : ActivityStats.t) : Prop :=
  exists decoded,
    decode s = Some decoded /\
    Forall (fun f => is_Some f.2 /\ React.field f.1 decoded = f.2) fields.

(** A whole number that a [Double] holds exactly, whatever its low bits:
    one of magnitude at most [2 ^ 53]. *)
Definition exact_in_Double (n : Z) : Prop := Z.abs n <= 2 ^ 53.

(** Every number of the snapshot is of magnitude at most [2 ^ 53]. *)
Definition numbers_exact (s : ActivityStats.t) : Prop :=
  let series := ActivityStats.seriesFast s in
  (forall e, ActivityStats.msElapsedTime s = Some e -> exact_in_Double e) /\
  exact_in_Double (ActivityStats.totalBytesUp s) /\
  exact_in_Double (ActivityStats.totalBytesDown s) /\
  exact_in_Double (ActivityStats.currentConnectingClients s) /\
  exact_in_Double (ActivityStats.currentConnectedClients s) /\
  Forall exact_in_Double (ActivitySeries.bytesUp series) /\
  Forall exact_in_Double (ActivitySeries.bytesDown series) /\
  Forall exact_in_Double (ActivitySeries.connectingClients series) /\
  Forall exact_in_Double (ActivitySeries.connectedClients series).

(** The tunnel wrapper and its listener are created together: when the
    manager has the one, it has the other. *)
Definition consistent (m : ConduitManager.t) : Prop :=
  is_Some (ConduitManager.psiphonTunnel m) ->
  is_Some (ConduitManager.psiphonTunnelListener m).

(** A start request that the manager's guards let through: no start is in
    progress, and the request does not repeat the parameters of the session
    that is running. *)
Definition start_accepted (m : ConduitManager.t) (params : ConduitManager.ConduitParams)
  : Prop :=
  ConduitManager.conduitStatus m <> ConduitManager.starting /\
  ~ (ConduitManager.conduitStatus m = ConduitManager.started /\
     exists l, ConduitManager.psiphonTunnelListener m = Some l /\
               ConduitManager.isEqualConduitParams l params = true).

(** The sum of the buckets of a channel. *)
Definition channel_sum (l : list Z) : Z := foldr Z.add 0 l.

(** The byte channels account for no more than the totals: no bucket is
    negative, and the buckets of each byte channel sum to at most the
    matching total. *)
Definition bytes_accounted (s : ActivityStats.t) : Prop :=
  Forall (Z.le 0) (ActivitySeries.bytesUp (ActivityStats.seriesFast s)) /\
  Forall (Z.le 0) (ActivitySeries.bytesDown (ActivityStats.seriesFast s)) /\
  channel_sum (ActivitySeries.bytesUp (ActivityStats.seriesFast s))
    <= ActivityStats.totalBytesUp s /\
  channel_sum (ActivitySeries.bytesDown (ActivityStats.seriesFast s))
    <= ActivityStats.totalBytesDown s.

(** The statistics of the last [onInproxyProxyActivity] call of a log. *)
Definition lastActivity (calls : list ConduitManager.ListenerCall)
  : option ActivityStats.t :=
  last (omap (fun c => match c with
                       | ConduitManager.onInproxyProxyActivity stats => Some stats
                       | _ => None
                       end) calls).

(** The manager between two requests: either a session runs, with its
    tunnel and its statistics, or none does and there are no statistics. *)
Definition between_requests (m : ConduitManager.t) : Prop :=
  consistent m /\
  ((ConduitManager.conduitStatus m = ConduitManager.started /\
    is_Some (ConduitManager.psiphonTunnel m) /\
    is_Some (ConduitManager.activityStats m)) \/
   (ConduitManager.conduitStatus m = ConduitManager.stopped /\
    ConduitManager.activityStats m = None)).

(** A [stopConduit] is suspended. *)
Definition stop_suspended (a : Jobs.Actor) : bool :=
  existsb (fun k => match k with
                    | Jobs.stopConduit_after_stop => true
                    | _ => false
                    end) (Jobs.suspended a).

(** Along the jobs [js] run from [a], no [startConduit] is entered while a
    [stopConduit] is suspended. *)
Fixpoint no_start_during_stop (a : Jobs.Actor) (js : list Jobs.Job) : bool :=
  match js with
  | [] => true
  | j :: js' =>
      match j with
      | Jobs.startConduit_called _ _ => negb (stop_suspended a)
      | _ => true
      end
      && match Jobs.step a j with
         | Some (a', _) => no_start_during_stop a' js'
         | None => true
         end
  end.

(** The actor between two jobs, when no [startConduit] was entered during a
    [stopConduit]: at most one method is suspended.  With none, either a
    session runs and has its statistics, or none runs and there are no
    statistics.  A start that awaits the tunnel's [stop()] has set the status
    to [starting] and left the statistics as they were; a start that awaits
    the tunnel's [start(forced:)] has removed them; a stop that awaits the
    tunnel's [stop()] has set the status to [stopping] and the statistics of
    the session are still there. *)
Definition one_at_a_time (a : Jobs.Actor) : Prop :=
  let m := Jobs.manager a in
  match Jobs.suspended a with
  | [] =>
      (ConduitManager.conduitStatus m = ConduitManager.started /\
       is_Some (ConduitManager.activityStats m)) \/
      (ConduitManager.conduitStatus m = ConduitManager.stopped /\
       ConduitManager.activityStats m = None)
  | [Jobs.startConduit_after_stop _] =>
      ConduitManager.conduitStatus m = ConduitManager.starting
  | [Jobs.startConduit_after_start] =>
      ConduitManager.conduitStatus m = ConduitManager.starting /\
      ConduitManager.activityStats m = None
  | [Jobs.stopConduit_after_stop] =>
      ConduitManager.conduitStatus m = ConduitManager.stopping /\
      is_Some (ConduitManager.activityStats m)
  | _ => False
  end.

(** A started actor has statistics, unless a [startConduit] that has
    removed them is still to finish. *)
Definition started_has_statistics (a : Jobs.Actor) : Prop :=
  ConduitManager.conduitStatus (Jobs.manager a) = ConduitManager.started ->
  is_Some (ConduitManager.activityStats (Jobs.manager a)) \/
  Jobs.startConduit_after_start ∈ Jobs.suspended a.

(** Reading a log of the interactor's calls from the left, every
    [unbindService] finds a [bindService] made since the previous
    [unbindService]; [outstanding] tells whether one is pending at the
    start. *)
Fixpoint unbinds_matched {Bundle : Type} (outstanding : bool)
    (calls : list (ConduitServiceInteractor.Call Bundle)) : bool :=
  match calls with
  | [] => true
  | ConduitServiceInteractor.context_bindService :: rest => unbinds_matched true rest
  | ConduitServiceInteractor.context_unbindService :: rest =>
      outstanding && unbinds_matched false rest
  | _ :: rest => unbinds_matched outstanding rest
  end.

(** The last value given to the proxy-state relay in a log of calls. *)
Definition relayed {Bundle : Type}
    (calls : list (ConduitServiceInteractor.Call Bundle))
  : option (ConduitServiceInteractor.ProxyState Bundle) :=
  last (omap (fun c => match c with
                       | ConduitServiceInteractor.proxyStateRelay_accept p => Some p
                       | _ => None
                       end) calls).

(** * Properties *)

(** ** Deques and the series invariant *)

Section Series.
Import Swift ActivitySeries.

Lemma removeFirst_nonempty (l : list Z) :
  (0 < length l)%nat -> removeFirst l = Some (drop 1 l).
Proof. destruct l as [|x l]; simpl; [lia | reflexivity]. Qed.

Lemma shift_length (l : list Z) (x : Z) :
  (0 < length l)%nat -> length (shift l x) = length l.
Proof.
  intros Hl. unfold shift. rewrite length_app, length_drop. simpl. lia.
Qed.

Lemma shift_last (l : list Z) (x : Z) : last (shift l x) = Some x.
Proof. unfold shift. apply last_snoc. Qed.

Lemma init_zero_filled (period n : Z) :
  0 <= n -> init period n = Some (zero_filled period n).
Proof.
  intros Hn. unfold init, Deque_repeating.
  rewrite decide_True by exact Hn. reflexivity.
Qed.

Lemma zero_filled_length (period n : Z) :
  channels_length (Z.to_nat n) (zero_filled period n).
Proof. unfold channels_length; simpl. rewrite length_replicate. tauto. Qed.

Lemma pushDataPoints_shift (n : nat) (s : ActivitySeries.t) (a b c d : Z) :
  (0 < n)%nat -> channels_length n s ->
  pushDataPoints s a b c d =
    Some (ActivitySeries.mk (msBucketPeriod s) (numBuckets s)
            (shift (bytesUp s) a) (shift (bytesDown s) b)
            (shift (connectingClients s) c) (shift (connectedClients s) d)).
Proof.
  intros Hn (Hu & Hd & Hg & Hc). unfold pushDataPoints.
  rewrite !removeFirst_nonempty by lia. reflexivity.
Qed.

Lemma pushDataPoints_length (n : nat) (s s' : ActivitySeries.t) (a b c d : Z) :
  channels_length n s -> pushDataPoints s a b c d = Some s' ->
  channels_length n s' /\ numBuckets s' = numBuckets s /\
  msBucketPeriod s' = msBucketPeriod s.
Proof.
  intros (Hu & Hd & Hg & Hc) Hp. unfold pushDataPoints in Hp.
  destruct (bytesUp s) as [|u us] eqn:Eu; [discriminate|].
  destruct (bytesDown s) as [|w ws] eqn:Ed; [discriminate|].
  destruct (connectingClients s) as [|g gs] eqn:Eg; [discriminate|].
  destruct (connectedClients s) as [|k ks] eqn:Ec; [discriminate|].
  simpl in Hp. injection Hp as <-. unfold channels_length, append; simpl in *.
  rewrite !length_app; simpl. repeat split; lia.
Qed.

Lemma pushZeros_length (k n : nat) (s s' : ActivitySeries.t) :
  channels_length n s -> pushZeros k s = Some s' ->
  channels_length n s' /\ numBuckets s' = numBuckets s /\
  msBucketPeriod s' = msBucketPeriod s.
Proof.
  revert s. induction k as [|k IH]; intros s Hs Hz; simpl in Hz.
  - injection Hz as <-. tauto.
  - destruct (pushDataPoints s 0 0 0 0) as [s1|] eqn:E1; [|discriminate].
    simpl in Hz.
    destruct (pushDataPoints_length n s s1 0 0 0 0 Hs E1) as (H1 & H2 & H3).
    destruct (IH s1 H1 Hz) as (H4 & H5 & H6).
    split; [exact H4|]. split; congruence.
Qed.

(** [k] zero pushes on a channel of length [n]. *)
Lemma shift_zeros (k : nat) (l : list Z) :
  (0 < length l)%nat ->
  Nat.iter k (fun l => shift l 0) l
  = drop k l ++ replicate (Nat.min k (length l)) 0.
Proof.
  revert l. induction k as [|k IH]; intros l Hl.
  - cbn [Nat.iter nat_rect]. rewrite drop_0, Nat.min_0_l, app_nil_r. reflexivity.
  - rewrite Nat.iter_succ_r, IH by (rewrite shift_length; lia).
    rewrite shift_length by lia. unfold shift.
    destruct (decide (k < length l)%nat) as [Hlt|Hge].
    + replace (Nat.min k (length l)) with k by lia.
      replace (Nat.min (S k) (length l)) with (S k) by lia.
      rewrite drop_app_le by (rewrite length_drop; lia).
      rewrite drop_drop, <- app_assoc.
      replace (1 + k)%nat with (S k) by lia.
      reflexivity.
    + replace (Nat.min (S k) (length l)) with (length l) by lia.
      replace (Nat.min k (length l)) with (length l) by lia.
      rewrite (drop_ge l (S k)) by lia.
      rewrite drop_ge by (rewrite length_app, length_drop; cbn [length]; lia).
      reflexivity.
Qed.

Lemma pushZeros_shift (k n : nat) (s : ActivitySeries.t) :
  (0 < n)%nat -> channels_length n s ->
  pushZeros k s =
    Some (ActivitySeries.mk (msBucketPeriod s) (numBuckets s)
            (Nat.iter k (fun l => shift l 0) (bytesUp s))
            (Nat.iter k (fun l => shift l 0) (bytesDown s))
            (Nat.iter k (fun l => shift l 0) (connectingClients s))
            (Nat.iter k (fun l => shift l 0) (connectedClients s))).
Proof.
  intros Hn. revert s. induction k as [|k IH]; intros s Hs.
  - destruct s; reflexivity.
  - cbn [pushZeros]. rewrite (pushDataPoints_shift n) by assumption.
    cbn [mbind option_bind].
    rewrite IH; [rewrite !Nat.iter_succ_r; reflexivity|].
    destruct Hs as (Hu & Hd & Hg & Hc).
    unfold channels_length; cbn.
    rewrite !shift_length by lia. tauto.
Qed.

(** As many zero pushes as the series has buckets leave it zero-filled. *)
Lemma pushZeros_full (s : ActivitySeries.t) :
  well_formed s ->
  pushZeros (Z.to_nat (numBuckets s)) s
  = Some (zero_filled (msBucketPeriod s) (numBuckets s)).
Proof.
  intros (Hn & Hs).
  rewrite (pushZeros_shift _ (Z.to_nat (numBuckets s))) by (assumption || lia).
  destruct Hs as (Hu & Hd & Hg & Hc).
  rewrite !shift_zeros by lia.
  rewrite Hu, Hd, Hg, Hc, Nat.min_id.
  rewrite !drop_ge by lia. reflexivity.
Qed.

(** The gap count of the source, in closed form. *)
Lemma elapsedBucketCount_value (s : ActivitySeries.t) (ms : Z) :
  0 < msBucketPeriod s -> 0 <= ms -> ms / msBucketPeriod s <= Int_max ->
  elapsedBucketCount s ms
  = Some (Z.min (ms / msBucketPeriod s - 1) (numBuckets s)).
Proof.
  intros Hp Hms Hq. unfold elapsedBucketCount, UInt64_div, Int_of_UInt64, Int_sub.
  rewrite decide_False by lia. cbn [mbind option_bind].
  rewrite decide_True by exact Hq. cbn [mbind option_bind].
  assert (0 <= ms / msBucketPeriod s) by (apply Z.div_pos; lia).
  rewrite decide_True by (unfold Int_min, Int_max in *; lia).
  cbn [mbind option_bind]. f_equal.
  destruct (decide (ms / msBucketPeriod s - 1 > numBuckets s)); lia.
Qed.

End Series.

(** ** Updating a series *)

Section UpdateSeries.
Import Swift ActivitySeries.

Lemma shift_replicate (n : nat) (x : Z) :
  shift (replicate n 0) x = replicate (n - 1) 0 ++ [x].
Proof. unfold shift. rewrite drop_replicate. reflexivity. Qed.

(** Whatever the elapsed time, a call that returns keeps the capacity, the
    period and the length of every channel. *)
Lemma updateSeries_length (n : nat) (s s' : ActivitySeries.t) (ms bu bd cg cd : Z) :
  channels_length n s -> updateSeries s ms bu bd cg cd = Some s' ->
  channels_length n s' /\ numBuckets s' = numBuckets s /\
  msBucketPeriod s' = msBucketPeriod s.
Proof.
  intros Hs Hu. unfold updateSeries in Hu.
  destruct (elapsedBucketCount s ms) as [e|]; [|discriminate].
  cbn [mbind option_bind] in Hu.
  destruct (decide (e > 0)).
  - destruct (pushZeros (Z.to_nat e) s) as [s1|] eqn:Ez; [|discriminate].
    cbn [mbind option_bind] in Hu.
    destruct (pushZeros_length _ n s s1 Hs Ez) as (H1 & H2 & H3).
    destruct (pushDataPoints_length n s1 s' _ _ _ _ H1 Hu) as (H4 & H5 & H6).
    split; [exact H4|]. split; congruence.
  - cbn [mbind option_bind] in Hu.
    exact (pushDataPoints_length n s s' _ _ _ _ Hs Hu).
Qed.

(** The last step of every call is the push of the observed values. *)
Lemma updateSeries_ends_with_push (s s' : ActivitySeries.t) (ms bu bd cg cd : Z) :
  updateSeries s ms bu bd cg cd = Some s' ->
  exists s1, pushDataPoints s1 bu bd cg cd = Some s' /\ newest s' bu bd cg cd.
Proof.
  intros Hu. unfold updateSeries in Hu.
  destruct (elapsedBucketCount s ms) as [e|]; [|discriminate].
  cbn [mbind option_bind] in Hu.
  destruct (if decide (e > 0) then pushZeros (Z.to_nat e) s else Some s)
    as [s1|]; [|discriminate].
  cbn [mbind option_bind] in Hu. exists s1. split; [exact Hu|].
  unfold pushDataPoints in Hu.
  destruct (removeFirst (bytesUp s1)); [|discriminate].
  destruct (removeFirst (bytesDown s1)); [|discriminate].
  destruct (removeFirst (connectingClients s1)); [|discriminate].
  destruct (removeFirst (connectedClients s1)); [|discriminate].
  cbn [mbind option_bind] in Hu. injection Hu as <-.
  unfold newest, append; cbn. rewrite !last_snoc. tauto.
Qed.

(** On a well-formed series a call returns unless the quotient of the
    elapsed time by the period exceeds [Int.max]. *)
Lemma updateSeries_returns (s : ActivitySeries.t) (ms bu bd cg cd : Z) :
  well_formed s -> 0 < msBucketPeriod s -> 0 <= ms ->
  ms / msBucketPeriod s <= Int_max ->
  exists s', updateSeries s ms bu bd cg cd = Some s' /\ well_formed s'.
Proof.
  intros Hw Hp Hms Hq. pose proof Hw as (Hn & Hs).
  assert (Hsome : exists s1,
    (if decide (Z.min (ms / msBucketPeriod s - 1) (numBuckets s) > 0)
     then pushZeros (Z.to_nat (Z.min (ms / msBucketPeriod s - 1) (numBuckets s))) s
     else Some s) = Some s1 /\
    channels_length (Z.to_nat (numBuckets s)) s1 /\
    numBuckets s1 = numBuckets s).
  { destruct (decide _).
    - rewrite (pushZeros_shift _ (Z.to_nat (numBuckets s))) by (assumption || lia).
      eexists. split; [reflexivity|].
      destruct (pushZeros_length
                  (Z.to_nat (Z.min (ms / msBucketPeriod s - 1) (numBuckets s)))
                  _ s _ Hs
                  (pushZeros_shift _ (Z.to_nat (numBuckets s)) s ltac:(lia) Hs))
        as (H1 & H2 & _).
      split; assumption.
    - exists s. split; [reflexivity|]. split; [assumption|reflexivity]. }
  destruct Hsome as (s1 & E1 & L1 & N1).
  unfold updateSeries. rewrite elapsedBucketCount_value by assumption.
  cbn [mbind option_bind]. rewrite E1. cbn [mbind option_bind].
  rewrite (pushDataPoints_shift (Z.to_nat (numBuckets s))) by (assumption || lia).
  eexists. split; [reflexivity|].
  destruct L1 as (Hu & Hd & Hg & Hc).
  unfold well_formed, channels_length; cbn.
  rewrite !shift_length by lia. rewrite N1. tauto.
Qed.

End UpdateSeries.

(** ** Rounding to whole seconds *)

Section Rounding.
Import Swift.
Local Open Scope Q_scope.

Lemma Qfloor_unique (x : Q) (k : Z) :
  inject_Z k <= x -> x < inject_Z (k + 1) -> Qfloor x = k.
Proof.
  intros Hlo Hhi.
  pose proof (Qfloor_le x) as Hfl. pose proof (Qlt_floor x) as Hfu.
  assert (k < Qfloor x + 1)%Z
    by (rewrite Zlt_Qlt; eapply Qle_lt_trans; eassumption).
  assert (Qfloor x < k + 1)%Z
    by (rewrite Zlt_Qlt; eapply Qle_lt_trans; eassumption).
  lia.
Qed.

Lemma round_nonneg (x : Q) : 0 <= x -> round x = Qfloor (x + (1 # 2)).
Proof.
  intros Hx. unfold round.
  apply Qle_bool_iff in Hx. rewrite Hx. reflexivity.
Qed.

(** [round] yields a nearest integer: it is at most half a unit away. *)
Lemma round_nearest (x : Q) :
  0 <= x -> inject_Z (round x) - (1 # 2) <= x /\ x < inject_Z (round x) + (1 # 2).
Proof.
  intros Hx. rewrite round_nonneg by exact Hx.
  pose proof (Qfloor_le (x + (1 # 2))) as Hfl.
  pose proof (Qlt_floor (x + (1 # 2))) as Hfu.
  rewrite inject_Z_plus in Hfu.
  change (inject_Z 1) with 1 in Hfu.
  split; lra.
Qed.


Lemma round_bounds (x : Q) (n : Z) :
  0 <= x -> x <= inject_Z n -> (0 <= round x <= n)%Z.
Proof.
  intros Hx Hn. destruct (round_nearest x Hx) as [Hlo Hhi].
  split.
  - assert (-1 < round x)%Z; [|lia].
    rewrite Zlt_Qlt. change (inject_Z (-1)) with (-1). lra.
  - assert (round x < n + 1)%Z; [|lia].
    rewrite Zlt_Qlt, inject_Z_plus. change (inject_Z 1) with 1. lra.
Qed.

Lemma UInt64_of_Double_whole (r : Z) :
  (0 <= r <= UInt64_max)%Z -> UInt64_of_Double (inject_Z r) = Some r.
Proof.
  intros Hr. unfold UInt64_of_Double. cbn [Qnum Qden inject_Z].
  rewrite Z.quot_1_r. rewrite decide_True by exact Hr. reflexivity.
Qed.

Lemma Qfloor_nonneg_quot (x : Q) :
  0 <= x -> Z.quot (Qnum x) (Z.pos (Qden x)) = Qfloor x.
Proof.
  intros Hx. destruct x as [n d]. cbn [Qnum Qden Qfloor].
  unfold Qle in Hx. cbn in Hx.
  apply Z.quot_div_nonneg; lia.
Qed.

End Rounding.

(** ** Rounding to the nearest [Double] *)

Section Doubles.
Import Swift.
Local Open Scope Q_scope.

Lemma scale2_up (x : Q) (k : Z) :
  (0 <= k)%Z -> scale2 x k == x * inject_Z (2 ^ k).
Proof.
  intros Hk. destruct k as [|p|p]; [|reflexivity|lia].
  cbn [scale2]. change (inject_Z (2 ^ 0)) with 1. ring.
Qed.

Lemma scale2_down (x : Q) (k : Z) :
  (0 <= k)%Z -> scale2 x (- k) == x / inject_Z (2 ^ k).
Proof.
  intros Hk. destruct k as [|p|p]; [|reflexivity|lia].
  cbn [scale2 Z.opp]. change (x == x * 1). ring.
Qed.

Lemma pow2_pos (k : Z) : (0 <= k)%Z -> 0 < inject_Z (2 ^ k).
Proof.
  intros Hk. change 0 with (inject_Z 0). rewrite <- Zlt_Qlt.
  apply Z.pow_pos_nonneg; lia.
Qed.

Lemma Qle_div_mult (a b c : Q) : 0 < c -> a <= b / c -> a * c <= b.
Proof.
  intros Hc Hab.
  assert (Hb : b == b / c * c) by (field; intros H0; rewrite H0 in Hc; discriminate).
  rewrite Hb. apply Qmult_le_compat_r; [exact Hab | apply Qlt_le_weak; exact Hc].
Qed.

(** The exponent is not above the value: [2 ^ exponent x <= x]. *)
Lemma exponent_low (x : Q) : 0 < x -> 1 <= scale2 x (- exponent x).
Proof.
  intros Hx. unfold exponent.
  set (e0 := (Z.log2 (Qnum x) - Z.log2 (Z.pos (Qden x)))%Z).
  destruct (Qle_bool 1 (scale2 x (- e0))) eqn:E.
  - apply Qle_bool_iff. exact E.
  - clear E. destruct x as [n d]. unfold Qlt in Hx. cbn in Hx.
    assert (Hn : (0 < n)%Z) by lia.
    cbn [Qnum Qden] in e0.
    destruct (Z.log2_spec n Hn) as [Ln _].
    destruct (Z.log2_spec (Z.pos d) ltac:(lia)) as [_ Ld].
    pose proof (Z.log2_nonneg n) as L0.
    pose proof (Z.log2_nonneg (Z.pos d)) as M0.
    set (L := Z.log2 n) in *. set (M := Z.log2 (Z.pos d)) in *.
    destruct (Z_le_gt_dec (e0 - 1) 0) as [Hlow|Hhigh].
    + (* scale up by 2 ^ (1 - e0) *)
      replace (- (e0 - 1))%Z with (1 - e0)%Z by lia.
      rewrite scale2_up by lia.
      assert (Hpow : (2 ^ Z.succ M = 2 ^ L * 2 ^ (1 - e0))%Z).
      { rewrite <- Z.pow_add_r by (subst e0; lia). f_equal. subst e0. lia. }
      assert (Hp : (0 < 2 ^ (1 - e0))%Z) by (apply Z.pow_pos_nonneg; lia).
      unfold Qle, Qmult. cbn [Qnum Qden inject_Z].
      rewrite Pos.mul_1_r. nia.
    + (* scale down by 2 ^ (e0 - 1) *)
      rewrite scale2_down by lia.
      assert (Hpow : (2 ^ L = 2 ^ Z.succ M * 2 ^ (e0 - 1))%Z).
      { rewrite <- Z.pow_add_r by (subst e0; lia). f_equal. subst e0. lia. }
      assert (Hp : (0 < 2 ^ (e0 - 1))%Z) by (apply Z.pow_pos_nonneg; lia).
      apply Qle_shift_div_l; [apply pow2_pos; lia|].
      unfold Qle, Qmult. cbn [Qnum Qden inject_Z]. nia.
Qed.

Lemma nearest_even_floor (y : Q) :
  (Qfloor y <= nearest_even y <= Qfloor y + 1)%Z.
Proof.
  unfold nearest_even.
  destruct (y - inject_Z (Qfloor y) ?= 1 # 2); [destruct (Z.even _)| |]; lia.
Qed.

Lemma nearest_even_whole (y : Q) (n : Z) : y == inject_Z n -> nearest_even y = n.
Proof.
  intros Hy. unfold nearest_even.
  assert (Hf : Qfloor y = n) by (rewrite (Qfloor_comp _ _ Hy); apply Qfloor_Z).
  rewrite Hf.
  assert (Hlt : y - inject_Z n < 1 # 2) by (rewrite Hy; ring_simplify; reflexivity).
  assert (E : (y - inject_Z n ?= 1 # 2) = Lt) by (apply Qlt_alt; exact Hlt).
  rewrite E. reflexivity.
Qed.

(** Rounding does not cross the whole numbers around a value below
    [2 ^ 53], and leaves such a whole number as it is. *)
Lemma Double_nearest_between (x : Q) (n : Z) :
  (0 <= n)%Z -> (n + 1 <= 2 ^ 53)%Z ->
  inject_Z n <= x -> x < inject_Z (n + 1) ->
  inject_Z n <= Double_nearest x /\ Double_nearest x <= inject_Z (n + 1) /\
  (x == inject_Z n -> Double_nearest x == inject_Z n).
Proof.
  intros Hn Hmax Hlo Hhi. unfold Double_nearest.
  destruct (Qnum x) as [|p|p] eqn:En.
  - (* the value is 0 *)
    assert (Hx : x == 0) by (unfold Qeq; rewrite En; reflexivity).
    assert (n = 0)%Z as ->.
    { assert (Hle : inject_Z n <= inject_Z 0)
        by (apply (Qle_trans _ x); [exact Hlo | rewrite Hx; discriminate]).
      rewrite <- Zle_Qle in Hle. lia. }
    split; [discriminate|]. split; [discriminate|]. reflexivity.
  - assert (Hpos : 0 < x) by (unfold Qlt; cbn; rewrite En; lia).
    pose proof (exponent_low x Hpos) as Hex.
    set (e := exponent x) in *.
    assert (He : (e <= 52)%Z).
    { destruct (Z_le_gt_dec e 52) as [H|H]; [exact H|exfalso].
      rewrite scale2_down in Hex by lia.
      apply Qle_div_mult in Hex; [|apply pow2_pos; lia].
      rewrite Qmult_1_l in Hex.
      assert (Hbig : inject_Z (2 ^ 53) <= inject_Z (2 ^ e))
        by (rewrite <- Zle_Qle; apply Z.pow_le_mono_r; lia).
      assert (Hsmall : inject_Z (n + 1) <= inject_Z (2 ^ 53))
        by (rewrite <- Zle_Qle; exact Hmax).
      apply (Qlt_irrefl x).
      apply (Qlt_le_trans _ (inject_Z (n + 1))); [exact Hhi|].
      apply (Qle_trans _ (inject_Z (2 ^ 53))); [exact Hsmall|].
      apply (Qle_trans _ (inject_Z (2 ^ e))); assumption. }
    set (P := (2 ^ (52 - e))%Z).
    assert (HP : (0 < P)%Z) by (apply Z.pow_pos_nonneg; lia).
    assert (HPq : 0 < inject_Z P) by (apply pow2_pos; lia).
    assert (Hy : scale2 x (52 - e) == x * inject_Z P)
      by (apply scale2_up; lia).
    set (m := nearest_even (scale2 x (52 - e))).
    assert (Hr : scale2 (inject_Z m) (e - 52) == inject_Z m / inject_Z P).
    { replace (e - 52)%Z with (- (52 - e))%Z by lia. apply scale2_down. lia. }
    pose proof (nearest_even_floor (scale2 x (52 - e))) as Hm. fold m in Hm.
    rewrite (Qfloor_comp _ _ Hy) in Hm.
    assert (Hfloor_lo : (n * P <= Qfloor (x * inject_Z P))%Z).
    { rewrite <- (Qfloor_Z (n * P)). apply Qfloor_resp_le.
      rewrite inject_Z_mult. apply Qmult_le_compat_r; [exact Hlo|].
      apply Qlt_le_weak. exact HPq. }
    assert (Hfloor_hi : (Qfloor (x * inject_Z P) < (n + 1) * P)%Z).
    { rewrite Zlt_Qlt.
      apply (Qle_lt_trans _ (x * inject_Z P)); [apply Qfloor_le|].
      rewrite inject_Z_mult. apply Qmult_lt_compat_r; assumption. }
    rewrite Hr. split; [|split].
    + apply Qle_shift_div_l; [exact HPq|].
      rewrite <- inject_Z_mult, <- Zle_Qle. lia.
    + apply Qle_shift_div_r; [exact HPq|].
      rewrite <- inject_Z_mult, <- Zle_Qle. lia.
    + intros Hwhole.
      assert (Hm' : m = (n * P)%Z).
      { apply nearest_even_whole. rewrite Hy, Hwhole, inject_Z_mult. reflexivity. }
      rewrite Hm', inject_Z_mult. field.
      intros H0. rewrite H0 in HPq. discriminate.
  - exfalso.
    assert (Hneg : x < 0) by (unfold Qlt; cbn; rewrite En; lia).
    assert (0 <= inject_Z n) by (change 0 with (inject_Z 0); rewrite <- Zle_Qle; lia).
    lra.
Qed.

Lemma scale2_nonneg (x : Q) (k : Z) : 0 <= x -> 0 <= scale2 x k.
Proof.
  intros Hx. destruct k as [|p|p]; cbn [scale2].
  - exact Hx.
  - apply Qmult_le_0_compat; [exact Hx|].
    apply Qlt_le_weak, pow2_pos. lia.
  - apply Qle_shift_div_l; [apply pow2_pos; lia|].
    rewrite Qmult_0_l. exact Hx.
Qed.

Lemma Double_nearest_nonneg (x : Q) : 0 <= x -> 0 <= Double_nearest x.
Proof.
  intros Hx. unfold Double_nearest.
  destruct (Qnum x) as [|p|p] eqn:En.
  - discriminate.
  - apply scale2_nonneg.
    change 0 with (inject_Z 0). rewrite <- Zle_Qle.
    pose proof (nearest_even_floor (scale2 x (52 - exponent x))) as Hm.
    assert (0 <= Qfloor (scale2 x (52 - exponent x)))%Z; [|lia].
    change 0%Z with (Qfloor 0). apply Qfloor_resp_le.
    apply scale2_nonneg. exact Hx.
  - exfalso. unfold Qle in Hx. cbn in Hx. rewrite En in Hx. lia.
Qed.

(** Truncating a value between two consecutive whole numbers. *)
Lemma UInt64_of_Double_between (r : Q) (n : Z) :
  (0 <= n)%Z -> (n + 1 <= UInt64_max)%Z ->
  inject_Z n <= r -> r <= inject_Z (n + 1) ->
  (UInt64_of_Double r = Some n \/ UInt64_of_Double r = Some (n + 1)%Z) /\
  (r == inject_Z n -> UInt64_of_Double r = Some n).
Proof.
  intros Hn Hmax Hlo Hhi.
  assert (Hr0 : 0 <= r).
  { apply (Qle_trans _ (inject_Z n)); [|exact Hlo].
    change 0 with (inject_Z 0). rewrite <- Zle_Qle. exact Hn. }
  unfold UInt64_of_Double. rewrite Qfloor_nonneg_quot by exact Hr0.
  destruct (Qlt_le_dec r (inject_Z (n + 1))) as [Hlt|Hge].
  - rewrite (Qfloor_unique r n Hlo Hlt).
    rewrite decide_True by lia. split; [left; reflexivity | reflexivity].
  - assert (Heq : r == inject_Z (n + 1)) by (apply Qle_antisym; assumption).
    rewrite (Qfloor_comp _ _ Heq), Qfloor_Z.
    rewrite decide_True by lia. split; [right; reflexivity|].
    intros Hn'. exfalso. rewrite Hn' in Heq.
    apply (Qlt_irrefl (inject_Z n)). rewrite Heq at 2.
    rewrite <- Zlt_Qlt. lia.
Qed.

End Doubles.

(** ** Updating the statistics *)

Section Stats.
Import Swift ActivityStats.

Lemma init_fresh (now : Q) : ActivityStats.init now = Some (fresh now).
Proof. reflexivity. Qed.

Lemma fresh_well_formed (now : Q) : well_formed (seriesFast (fresh now)).
Proof.
  split; [reflexivity|]. apply (zero_filled_length 1000 288).
Qed.

Lemma msSinceUpdate_value (s : ActivityStats.t) (now : Q) :
  (lastUpdate s <= now)%Q ->
  (now - lastUpdate s <= inject_Z max_seconds)%Q ->
  msSinceUpdate s now = Some (round (now - lastUpdate s) * 1000).
Proof.
  intros Hle Hmax.
  assert (Hx : (0 <= now - lastUpdate s)%Q) by lra.
  pose proof (round_bounds _ _ Hx Hmax) as Hr.
  unfold msSinceUpdate.
  rewrite UInt64_of_Double_whole
    by (unfold max_seconds, UInt64_max in *; lia).
  cbn [mbind option_bind]. unfold UInt64_mul.
  rewrite decide_True by (unfold max_seconds, UInt64_max in *; lia).
  reflexivity.
Qed.


(** What a call that returns has done. *)
Lemma update_inv (s s' : ActivityStats.t) (now : Q) (bu bd cg cd : Z) :
  update s now bu bd cg cd = Some s' ->
  0 <= bu /\ 0 <= bd /\
  totalBytesUp s' = totalBytesUp s + bu /\ totalBytesUp s' <= UInt64_max /\
  totalBytesDown s' = totalBytesDown s + bd /\ totalBytesDown s' <= UInt64_max /\
  currentConnectingClients s' = cg /\ currentConnectedClients s' = cd /\
  startTime s' = startTime s /\ lastUpdate s' = now /\
  exists ms, msSinceUpdate s now = Some ms /\
    ActivitySeries.updateSeries (seriesFast s) ms bu bd cg cd = Some (seriesFast s').
Proof.
  unfold update, UInt64_of_Int, UInt64_add. intros H.
  destruct (decide (0 <= bu)); [|discriminate]. cbn [mbind option_bind] in H.
  destruct (decide (totalBytesUp s + bu <= UInt64_max)); [|discriminate].
  cbn [mbind option_bind] in H.
  destruct (decide (0 <= bd)); [|discriminate]. cbn [mbind option_bind] in H.
  destruct (decide (totalBytesDown s + bd <= UInt64_max)); [|discriminate].
  cbn [mbind option_bind] in H.
  destruct (msSinceUpdate s now) as [ms|]; [|discriminate].
  cbn [mbind option_bind] in H.
  destruct (ActivitySeries.updateSeries (seriesFast s) ms bu bd cg cd)
    as [series|] eqn:Eu; [|discriminate].
  cbn [mbind option_bind] in H. injection H as <-. cbn.
  repeat (split; [assumption || reflexivity|]).
  exists ms. split; [reflexivity | exact Eu].
Qed.

(** When a call returns. *)
Lemma update_returns (s : ActivityStats.t) (now : Q) (bu bd cg cd ms : Z)
    (series : ActivitySeries.t) :
  0 <= bu -> 0 <= bd ->
  totalBytesUp s + bu <= UInt64_max -> totalBytesDown s + bd <= UInt64_max ->
  msSinceUpdate s now = Some ms ->
  ActivitySeries.updateSeries (seriesFast s) ms bu bd cg cd = Some series ->
  update s now bu bd cg cd
  = Some (ActivityStats.mk (startTime s) now
            (totalBytesUp s + bu) (totalBytesDown s + bd) cg cd series).
Proof.
  intros Hu Hd Hfu Hfd Hms Hser. unfold update, UInt64_of_Int, UInt64_add.
  rewrite (decide_True _ _ Hu). cbn [mbind option_bind].
  rewrite (decide_True _ _ Hfu). cbn [mbind option_bind].
  rewrite (decide_True _ _ Hd). cbn [mbind option_bind].
  rewrite (decide_True _ _ Hfd). cbn [mbind option_bind].
  rewrite Hms. cbn [mbind option_bind]. rewrite Hser. reflexivity.
Qed.

(** The lengths of the channels are kept by any run of calls. *)
Lemma updates_length (n : nat) (ks : list Tick) (s s' : ActivityStats.t) :
  channels_length n (seriesFast s) -> updates s ks = Some s' ->
  channels_length n (seriesFast s') /\
  ActivitySeries.numBuckets (seriesFast s') = ActivitySeries.numBuckets (seriesFast s) /\
  ActivitySeries.msBucketPeriod (seriesFast s')
  = ActivitySeries.msBucketPeriod (seriesFast s).
Proof.
  revert s. induction ks as [|k ks IH]; intros s Hs Hrun; cbn [updates] in Hrun.
  - injection Hrun as <-. tauto.
  - destruct (updateTick s k) as [s1|] eqn:E1; [|discriminate].
    cbn [mbind option_bind] in Hrun.
    apply update_inv in E1.
    destruct E1 as (_ & _ & _ & _ & _ & _ & _ & _ & _ & _ & ms & _ & Hser).
    destruct (updateSeries_length n _ _ _ _ _ _ _ Hs Hser) as (H1 & H2 & H3).
    destruct (IH s1 H1 Hrun) as (H4 & H5 & H6).
    split; [exact H4|]. split; congruence.
Qed.

(** The totals never decrease along a run of calls. *)
Lemma updates_totals (ks : list Tick) (s s' : ActivityStats.t) :
  updates s ks = Some s' ->
  totalBytesUp s <= totalBytesUp s' /\ totalBytesDown s <= totalBytesDown s' /\
  (totals_in_range s -> totals_in_range s').
Proof.
  revert s. induction ks as [|k ks IH]; intros s Hrun; cbn [updates] in Hrun.
  - injection Hrun as <-. split; [lia|]. split; [lia|tauto].
  - destruct (updateTick s k) as [s1|] eqn:E1; [|discriminate].
    cbn [mbind option_bind] in Hrun.
    apply update_inv in E1.
    destruct E1 as (Hu & Hd & Tu & Mu & Td & Md & _).
    destruct (IH s1 Hrun) as (H1 & H2 & H3).
    split; [lia|]. split; [lia|].
    intros (Ru & Rd). apply H3. unfold totals_in_range. lia.
Qed.

End Stats.

(** ** Calls that return *)

Section Progress.
Import Swift ActivityStats.

(** Less than two periods of elapsed time: the observed values are pushed
    and nothing else. *)
Lemma updateSeries_no_gap (s : ActivitySeries.t) (ms bu bd cg cd : Z) :
  0 < ActivitySeries.msBucketPeriod s ->
  0 <= ms < 2 * ActivitySeries.msBucketPeriod s ->
  ActivitySeries.updateSeries s ms bu bd cg cd
  = ActivitySeries.pushDataPoints s bu bd cg cd.
Proof.
  intros Hp Hms.
  assert (Hq : 0 <= ms / ActivitySeries.msBucketPeriod s <= 1).
  { split; [apply Z.div_pos; lia|].
    assert (ms / ActivitySeries.msBucketPeriod s < 2); [|lia].
    apply Z.div_lt_upper_bound; lia. }
  unfold ActivitySeries.updateSeries, ActivitySeries.elapsedBucketCount,
    UInt64_div, Int_of_UInt64, Int_sub.
  rewrite decide_False by lia. cbn [mbind option_bind].
  rewrite decide_True by (unfold Int_max; lia). cbn [mbind option_bind].
  rewrite decide_True by (unfold Int_min, Int_max; lia).
  cbn [mbind option_bind].
  destruct (decide (_ > ActivitySeries.numBuckets s)).
  - rewrite decide_False by lia. reflexivity.
  - rewrite decide_False by lia. reflexivity.
Qed.

Lemma shift_twice (l : list Z) (a b : Z) :
  (2 <= length l)%nat -> shift (shift l a) b = drop 2 l ++ [a; b].
Proof.
  intros Hl. unfold shift.
  rewrite drop_app_le by (rewrite length_drop; lia).
  rewrite drop_drop, <- app_assoc. reflexivity.
Qed.

(** A report with non-negative byte deltas that the totals can absorb,
    handled no earlier than the previous one, is accepted. *)
Lemma updateTick_returns (s : ActivityStats.t) (k : Tick) :
  well_formed (seriesFast s) ->
  ActivitySeries.msBucketPeriod (seriesFast s) = 1000 ->
  nonneg_bytes k -> totals_fit s k ->
  (lastUpdate s <= now k)%Q ->
  (now k - lastUpdate s <= inject_Z max_seconds)%Q ->
  exists s', updateTick s k = Some s' /\ well_formed (seriesFast s') /\
    ActivitySeries.msBucketPeriod (seriesFast s') = 1000.
Proof.
  intros Hw Hp (Hu & Hd) (Hfu & Hfd) Hle Hmax.
  assert (Hx : (0 <= now k - lastUpdate s)%Q) by lra.
  pose proof (round_bounds _ _ Hx Hmax) as Hr.
  destruct (updateSeries_returns (seriesFast s)
              (round (now k - lastUpdate s) * 1000)
              (bytesUp k) (bytesDown k) (connectingClients k) (connectedClients k))
    as (series & Hser & Hw'); try assumption; try lia.
  { rewrite Hp, Z.div_mul by lia.
    unfold max_seconds, Int_max in *. lia. }
  exists (ActivityStats.mk (startTime s) (now k)
            (totalBytesUp s + bytesUp k) (totalBytesDown s + bytesDown k)
            (connectingClients k) (connectedClients k) series).
  split; [|split; [exact Hw'|]].
  - unfold updateTick.
    apply (update_returns s (now k) _ _ _ _
             (round (now k - lastUpdate s) * 1000)); try assumption.
    apply msSinceUpdate_value; assumption.
  - cbn. destruct Hw as (_ & Hlen).
    destruct (updateSeries_length _ _ _ _ _ _ _ _ Hlen Hser) as (_ & _ & H3).
    congruence.
Qed.

End Progress.

(** * The rolling series *)

(** C1.  Zero-gap fill.  On a zero-filled series of 5 buckets with a period
    of 1000 ms, one [updateSeries] call with [msSinceUpdate = 3000] and the
    values (10, 20, 1, 2) computes a gap count of 3000 / 1000 - 1 = 2, makes
    exactly two zero pushes and then one push of the observed values; every
    channel keeps its length 5 and the last three buckets of [bytesUp] are
    0, 0, 10.  On a series with arbitrary old buckets [u1 .. u5] the result is
    [u4; u5; 0; 0; 10]: the two zero pushes drop the two oldest buckets and
    the push of the observation drops the next one. *)
Theorem zero_gap_fill :
  let s0 := zero_filled 1000 5 in
  let r := ActivitySeries.mk 1000 5 [0; 0; 0; 0; 10] [0; 0; 0; 0; 20]
                             [0; 0; 0; 0; 1] [0; 0; 0; 0; 2] in
  ActivitySeries.init 1000 5 = Some s0 /\
  ActivitySeries.elapsedBucketCount s0 3000 = Some 2 /\
  ActivitySeries.updateSeries s0 3000 10 20 1 2
  = (s1 ← ActivitySeries.pushDataPoints s0 0 0 0 0;
     s2 ← ActivitySeries.pushDataPoints s1 0 0 0 0;
     ActivitySeries.pushDataPoints s2 10 20 1 2) /\
  ActivitySeries.updateSeries s0 3000 10 20 1 2 = Some r /\
  channels_length 5 r /\
  drop 2 (ActivitySeries.bytesUp r) = [0; 0; 10] /\
  forall u1 u2 u3 u4 u5 : Z,
    ActivitySeries.bytesUp <$>
      ActivitySeries.updateSeries
        (ActivitySeries.mk 1000 5 [u1; u2; u3; u4; u5]
           [0; 0; 0; 0; 0] [0; 0; 0; 0; 0] [0; 0; 0; 0; 0])
        3000 10 20 1 2
    = Some [u4; u5; 0; 0; 10].
Proof.
  cbv zeta. repeat split.
Qed.

(** C2.  Clamped overflow of the gap.  When the elapsed time implies more
    gap buckets than the series has ([msSinceUpdate / msBucketPeriod - 1 >
    numBuckets]), the gap count is clamped to [numBuckets]; the call gives
    the series that pushing the observation on a freshly initialised series
    gives: every bucket of every channel is 0 except the newest, which holds
    the observed values. *)
Theorem clamped_gap_overflow (s : ActivitySeries.t) (ms bu bd cg cd : Z) :
  well_formed s ->
  0 < ActivitySeries.msBucketPeriod s ->
  0 <= ms ->
  ms / ActivitySeries.msBucketPeriod s <= Swift.Int_max ->
  ms / ActivitySeries.msBucketPeriod s - 1 > ActivitySeries.numBuckets s ->
  let period := ActivitySeries.msBucketPeriod s in
  let n := ActivitySeries.numBuckets s in
  let zeros := replicate (Z.to_nat n - 1) 0 in
  ActivitySeries.elapsedBucketCount s ms = Some n /\
  ActivitySeries.updateSeries s ms bu bd cg cd
  = (z ← ActivitySeries.init period n;
     ActivitySeries.pushDataPoints z bu bd cg cd) /\
  ActivitySeries.updateSeries s ms bu bd cg cd
  = Some (ActivitySeries.mk period n
            (zeros ++ [bu]) (zeros ++ [bd]) (zeros ++ [cg]) (zeros ++ [cd])).
Proof.
  intros Hw Hp Hms Hq Hgap period n zeros. pose proof Hw as (Hn & Hlen).
  assert (He : ActivitySeries.elapsedBucketCount s ms = Some n).
  { rewrite elapsedBucketCount_value by assumption. f_equal. subst n. lia. }
  assert (Hrun : ActivitySeries.updateSeries s ms bu bd cg cd
                 = ActivitySeries.pushDataPoints (zero_filled period n) bu bd cg cd).
  { unfold ActivitySeries.updateSeries. rewrite He. cbn [mbind option_bind].
    rewrite decide_True by (subst n; lia).
    subst n period. rewrite pushZeros_full by exact Hw. reflexivity. }
  split; [exact He|]. split.
  - rewrite Hrun, init_zero_filled by (subst n; lia). reflexivity.
  - rewrite Hrun.
    rewrite (pushDataPoints_shift (Z.to_nat n))
      by (try apply zero_filled_length; subst n; lia).
    unfold zero_filled.
    cbn [ActivitySeries.bytesUp ActivitySeries.bytesDown
         ActivitySeries.connectingClients ActivitySeries.connectedClients
         ActivitySeries.msBucketPeriod ActivitySeries.numBuckets].
    rewrite !shift_replicate. reflexivity.
Qed.

Lemma clamped_gap_overflow_witness :
  ActivitySeries.updateSeries
    (ActivitySeries.mk 1000 3 [4; 5; 6] [7; 8; 9] [1; 1; 2] [0; 1; 1])
    5000 10 20 1 2
  = Some (ActivitySeries.mk 1000 3 [0; 0; 10] [0; 0; 20] [0; 0; 1] [0; 0; 2]).
Proof.
  apply (clamped_gap_overflow
           (ActivitySeries.mk 1000 3 [4; 5; 6] [7; 8; 9] [1; 1; 2] [0; 1; 1])
           5000 10 20 1 2).
  - unfold well_formed, channels_length; cbn. repeat split; lia.
  - cbn; lia.
  - lia.
  - vm_compute. discriminate.
  - vm_compute. reflexivity.
Defined.

(** * The statistics object *)

(** C3.  Fixed-length invariant.  The object that [ActivityStats()] builds
    has four zero-filled channels of length 288, and after every sequence of
    [update] calls that return, the capacity is still 288 and all four
    channels have length exactly 288; a push on such a series returns, drops
    exactly the oldest bucket of each channel and appends exactly one
    bucket. *)
Theorem fixed_length_invariant
    (now : Q) (ks : list ActivityStats.Tick) (s0 s : ActivityStats.t) :
  ActivityStats.init now = Some s0 ->
  ActivityStats.updates s0 ks = Some s ->
  ActivityStats.seriesFast s0 = zero_filled 1000 288 /\
  channels_length 288 (ActivityStats.seriesFast s0) /\
  ActivitySeries.numBuckets (ActivityStats.seriesFast s) = 288 /\
  channels_length 288 (ActivityStats.seriesFast s) /\
  (forall a b c d : Z,
    let series := ActivityStats.seriesFast s in
    exists series',
      ActivitySeries.pushDataPoints series a b c d = Some series' /\
      ActivitySeries.bytesUp series' = drop 1 (ActivitySeries.bytesUp series) ++ [a] /\
      ActivitySeries.bytesDown series' = drop 1 (ActivitySeries.bytesDown series) ++ [b] /\
      ActivitySeries.connectingClients series'
      = drop 1 (ActivitySeries.connectingClients series) ++ [c] /\
      ActivitySeries.connectedClients series'
      = drop 1 (ActivitySeries.connectedClients series) ++ [d] /\
      channels_length 288 series') /\
  (forall k : ActivityStats.Tick,
     nonneg_bytes k -> totals_fit s k ->
     (ActivityStats.lastUpdate s <= ActivityStats.now k)%Q ->
     (ActivityStats.now k - ActivityStats.lastUpdate s <= inject_Z max_seconds)%Q ->
     exists s',
       ActivityStats.updateTick s k = Some s' /\
       channels_length 288 (ActivityStats.seriesFast s')).
Proof.
  intros Hinit Hrun. rewrite init_fresh in Hinit. injection Hinit as <-.
  pose proof (zero_filled_length 1000 288) as H0.
  change (Z.to_nat 288) with 288%nat in H0.
  destruct (updates_length 288 ks (fresh now) s H0 Hrun) as (Hlen & Hn & Hp).
  cbn in Hn, Hp.
  split; [reflexivity|]. split; [exact H0|]. split; [exact Hn|].
  split; [exact Hlen|].
  split; [|
    intros k Hnn Hfit Hle Hmax;
    destruct (updateTick_returns s k) as (s' & Hup & (_ & Hlen') & _);
      [ split; [rewrite Hn; lia | rewrite Hn; exact Hlen]
      | rewrite Hp; reflexivity | assumption .. |];
    exists s'; split; [exact Hup|];
    apply update_inv in Hup;
    destruct Hup as (_ & _ & _ & _ & _ & _ & _ & _ & _ & _ & ms & _ & Hser);
    exact (proj1 (updateSeries_length 288 _ _ _ _ _ _ _ Hlen Hser)) ].
  intros a b c d series. subst series. eexists.
  split; [apply (pushDataPoints_shift 288); [lia | exact Hlen]|].
  cbn [ActivitySeries.bytesUp ActivitySeries.bytesDown
       ActivitySeries.connectingClients ActivitySeries.connectedClients].
  repeat (split; [reflexivity|]).
  destruct Hlen as (Hu & Hd & Hg & Hc).
  unfold channels_length.
  cbn [ActivitySeries.bytesUp ActivitySeries.bytesDown
       ActivitySeries.connectingClients ActivitySeries.connectedClients].
  rewrite !shift_length by lia. tauto.
Qed.

Lemma fixed_length_invariant_witness :
  exists s,
    ActivityStats.updates (fresh 0)
      [ActivityStats.mkTick 1 100 200 1 0;
       ActivityStats.mkTick (400 # 1) 0 0 0 0;
       ActivityStats.mkTick (801 # 2) 7 9 2 1] = Some s /\
    channels_length 288 (ActivityStats.seriesFast s).
Proof.
  eexists. split; [vm_compute; reflexivity|].
  eapply (fixed_length_invariant 0
            [ActivityStats.mkTick 1 100 200 1 0;
             ActivityStats.mkTick (400 # 1) 0 0 0 0;
             ActivityStats.mkTick (801 # 2) 7 9 2 1] (fresh 0)).
  - reflexivity.
  - vm_compute. reflexivity.
Defined.

(** C6.  Monotonic totals.  Along every sequence of [update] calls with
    non-negative byte deltas, [totalBytesUp] and [totalBytesDown] never
    decrease: each call adds its deltas to the totals, which stay values of
    [UInt64]; no call resets them. *)
Theorem monotonic_totals (ks : list ActivityStats.Tick) (s s' : ActivityStats.t) :
  Forall nonneg_bytes ks ->
  ActivityStats.updates s ks = Some s' ->
  ActivityStats.totalBytesUp s <= ActivityStats.totalBytesUp s' /\
  ActivityStats.totalBytesDown s <= ActivityStats.totalBytesDown s' /\
  ActivityStats.totalBytesUp s' - ActivityStats.totalBytesUp s
  = foldr (fun k acc => ActivityStats.bytesUp k + acc) 0 ks /\
  ActivityStats.totalBytesDown s' - ActivityStats.totalBytesDown s
  = foldr (fun k acc => ActivityStats.bytesDown k + acc) 0 ks /\
  (totals_in_range s -> totals_in_range s').
Proof.
  intros Hnn Hrun.
  destruct (updates_totals ks s s' Hrun) as (Hu & Hd & Hr).
  split; [exact Hu|]. split; [exact Hd|].
  split; [|split; [|exact Hr]].
  - clear Hnn Hu Hd Hr. revert s Hrun.
    induction ks as [|k ks IH]; intros s Hrun; cbn [ActivityStats.updates] in Hrun.
    + injection Hrun as <-. cbn. lia.
    + destruct (ActivityStats.updateTick s k) as [s1|] eqn:E1; [|discriminate].
      cbn [mbind option_bind] in Hrun. apply update_inv in E1.
      destruct E1 as (_ & _ & Tu & _).
      specialize (IH s1 Hrun). cbn [foldr]. lia.
  - clear Hnn Hu Hd Hr. revert s Hrun.
    induction ks as [|k ks IH]; intros s Hrun; cbn [ActivityStats.updates] in Hrun.
    + injection Hrun as <-. cbn. lia.
    + destruct (ActivityStats.updateTick s k) as [s1|] eqn:E1; [|discriminate].
      cbn [mbind option_bind] in Hrun. apply update_inv in E1.
      destruct E1 as (_ & _ & _ & _ & Td & _).
      specialize (IH s1 Hrun). cbn [foldr]. lia.
Qed.

Lemma monotonic_totals_witness :
  exists s',
    ActivityStats.updates (fresh 0)
      [ActivityStats.mkTick 1 100 200 1 0;
       ActivityStats.mkTick 2 0 50 1 1;
       ActivityStats.mkTick 3 25 0 0 1] = Some s' /\
    0 <= ActivityStats.totalBytesUp s' /\ 0 <= ActivityStats.totalBytesDown s'.
Proof.
  eexists. split; [vm_compute; reflexivity|].
  pose proof (monotonic_totals
                [ActivityStats.mkTick 1 100 200 1 0;
                 ActivityStats.mkTick 2 0 50 1 1;
                 ActivityStats.mkTick 3 25 0 0 1] (fresh 0)) as H.
  edestruct H as (Hu & Hd & _).
  - repeat constructor; cbn; lia.
  - vm_compute. reflexivity.
  - split; [exact Hu | exact Hd].
Defined.

(** C7.  Sub-period collapse.  Every [update] call that returns ends with
    the push of its observed values, which become the newest bucket of
    every channel.  Two calls in quick succession, each less than a second
    and a half after the previous update so that the gap count is not
    positive, push exactly one bucket each: the first pushes its values on
    the old series, the second on the result, and every channel ends as the
    old one without its two oldest buckets, followed by the two new ones. *)
Theorem sub_period_collapse :
  (forall (s s' : ActivityStats.t) (now : Q) (bu bd cg cd : Z),
     ActivityStats.update s now bu bd cg cd = Some s' ->
     exists series,
       ActivitySeries.pushDataPoints series bu bd cg cd
       = Some (ActivityStats.seriesFast s') /\
       newest (ActivityStats.seriesFast s') bu bd cg cd) /\
  (forall (s : ActivityStats.t) (k1 k2 : ActivityStats.Tick),
     let old := ActivityStats.seriesFast s in
     well_formed old ->
     2 <= ActivitySeries.numBuckets old ->
     ActivitySeries.msBucketPeriod old = 1000 ->
     nonneg_bytes k1 -> nonneg_bytes k2 ->
     ActivityStats.totalBytesUp s + ActivityStats.bytesUp k1
       + ActivityStats.bytesUp k2 <= Swift.UInt64_max ->
     ActivityStats.totalBytesDown s + ActivityStats.bytesDown k1
       + ActivityStats.bytesDown k2 <= Swift.UInt64_max ->
     (ActivityStats.lastUpdate s <= ActivityStats.now k1)%Q ->
     (ActivityStats.now k1 - ActivityStats.lastUpdate s < 3 # 2)%Q ->
     (ActivityStats.now k1 <= ActivityStats.now k2)%Q ->
     (ActivityStats.now k2 - ActivityStats.now k1 < 3 # 2)%Q ->
     exists s1 s2,
       ActivityStats.updateTick s k1 = Some s1 /\
       ActivityStats.updateTick s1 k2 = Some s2 /\
       ActivitySeries.pushDataPoints old
         (ActivityStats.bytesUp k1) (ActivityStats.bytesDown k1)
         (ActivityStats.connectingClients k1) (ActivityStats.connectedClients k1)
       = Some (ActivityStats.seriesFast s1) /\
       ActivitySeries.pushDataPoints (ActivityStats.seriesFast s1)
         (ActivityStats.bytesUp k2) (ActivityStats.bytesDown k2)
         (ActivityStats.connectingClients k2) (ActivityStats.connectedClients k2)
       = Some (ActivityStats.seriesFast s2) /\
       ActivitySeries.bytesUp (ActivityStats.seriesFast s2)
       = drop 2 (ActivitySeries.bytesUp old)
         ++ [ActivityStats.bytesUp k1; ActivityStats.bytesUp k2] /\
       ActivitySeries.bytesDown (ActivityStats.seriesFast s2)
       = drop 2 (ActivitySeries.bytesDown old)
         ++ [ActivityStats.bytesDown k1; ActivityStats.bytesDown k2] /\
       ActivitySeries.connectingClients (ActivityStats.seriesFast s2)
       = drop 2 (ActivitySeries.connectingClients old)
         ++ [ActivityStats.connectingClients k1; ActivityStats.connectingClients k2] /\
       ActivitySeries.connectedClients (ActivityStats.seriesFast s2)
       = drop 2 (ActivitySeries.connectedClients old)
         ++ [ActivityStats.connectedClients k1; ActivityStats.connectedClients k2]).
Proof.
  split.
  - intros s s' now bu bd cg cd Hup. apply update_inv in Hup.
    destruct Hup as (_ & _ & _ & _ & _ & _ & _ & _ & _ & _ & ms & _ & Hser).
    exact (updateSeries_ends_with_push _ _ _ _ _ _ _ Hser).
  - intros s k1 k2 old Hw Hn Hp (Hu1 & Hd1) (Hu2 & Hd2) Hfu Hfd Ht1 Hj1 Ht2 Hj2.
    pose proof Hw as (_ & Hlen).
    set (n := Z.to_nat (ActivitySeries.numBuckets old)) in *.
    assert (Hn2 : (2 <= n)%nat) by (subst n; lia).
    (* the rounded elapsed time of a call made less than 1.5 s later *)
    assert (Hround : forall x : Q, (0 <= x)%Q -> (x < 3 # 2)%Q ->
                                   0 <= Swift.round x * 1000 < 2 * 1000).
    { intros x Hx0 Hx1. destruct (round_nearest x Hx0) as [Hlo Hhi].
      pose proof (round_bounds x 2 Hx0 ltac:(change (inject_Z 2) with 2%Q; lra)).
      assert (Swift.round x < 2); [|lia].
      rewrite Zlt_Qlt. change (inject_Z 2) with 2%Q. lra. }
    assert (Hms : forall (st : ActivityStats.t) (t : Q),
              (ActivityStats.lastUpdate st <= t)%Q ->
              (t - ActivityStats.lastUpdate st < 3 # 2)%Q ->
              exists ms, ActivityStats.msSinceUpdate st t = Some ms /\
                         0 <= ms < 2 * 1000).
    { intros st t Hle Hlt. eexists. split.
      - apply msSinceUpdate_value; [exact Hle|].
        unfold max_seconds.
        change (inject_Z 18446744073709551) with (18446744073709551 # 1)%Q. lra.
      - apply Hround; lra. }
    (* first call *)
    destruct (Hms s (ActivityStats.now k1) Ht1 Hj1) as (ms1 & Hms1 & Hb1).
    pose proof (pushDataPoints_shift n old
                  (ActivityStats.bytesUp k1) (ActivityStats.bytesDown k1)
                  (ActivityStats.connectingClients k1)
                  (ActivityStats.connectedClients k1) ltac:(lia) Hlen) as Hpush1.
    eexists. eexists.
    split.
    { unfold ActivityStats.updateTick.
      eapply update_returns; try eassumption; try lia.
      rewrite updateSeries_no_gap by (fold old; rewrite Hp; lia).
      exact Hpush1. }
    (* second call *)
    destruct (Hms (ActivityStats.mk (ActivityStats.startTime s) (ActivityStats.now k1)
                     (ActivityStats.totalBytesUp s + ActivityStats.bytesUp k1)
                     (ActivityStats.totalBytesDown s + ActivityStats.bytesDown k1)
                     (ActivityStats.connectingClients k1)
                     (ActivityStats.connectedClients k1)
                     (ActivitySeries.mk (ActivitySeries.msBucketPeriod old)
                        (ActivitySeries.numBuckets old)
                        (shift (ActivitySeries.bytesUp old) (ActivityStats.bytesUp k1))
                        (shift (ActivitySeries.bytesDown old) (ActivityStats.bytesDown k1))
                        (shift (ActivitySeries.connectingClients old)
                           (ActivityStats.connectingClients k1))
                        (shift (ActivitySeries.connectedClients old)
                           (ActivityStats.connectedClients k1))))
                  (ActivityStats.now k2) Ht2 Hj2) as (ms2 & Hms2 & Hb2).
    destruct Hlen as (Lu & Ld & Lg & Lc).
    assert (Hpush2 :
      ActivitySeries.pushDataPoints
        (ActivitySeries.mk (ActivitySeries.msBucketPeriod old)
           (ActivitySeries.numBuckets old)
           (shift (ActivitySeries.bytesUp old) (ActivityStats.bytesUp k1))
           (shift (ActivitySeries.bytesDown old) (ActivityStats.bytesDown k1))
           (shift (ActivitySeries.connectingClients old)
              (ActivityStats.connectingClients k1))
           (shift (ActivitySeries.connectedClients old)
              (ActivityStats.connectedClients k1)))
        (ActivityStats.bytesUp k2) (ActivityStats.bytesDown k2)
        (ActivityStats.connectingClients k2) (ActivityStats.connectedClients k2)
      = Some (ActivitySeries.mk (ActivitySeries.msBucketPeriod old)
                (ActivitySeries.numBuckets old)
                (drop 2 (ActivitySeries.bytesUp old)
                   ++ [ActivityStats.bytesUp k1; ActivityStats.bytesUp k2])
                (drop 2 (ActivitySeries.bytesDown old)
                   ++ [ActivityStats.bytesDown k1; ActivityStats.bytesDown k2])
                (drop 2 (ActivitySeries.connectingClients old)
                   ++ [ActivityStats.connectingClients k1;
                       ActivityStats.connectingClients k2])
                (drop 2 (ActivitySeries.connectedClients old)
                   ++ [ActivityStats.connectedClients k1;
                       ActivityStats.connectedClients k2]))).
    { rewrite (pushDataPoints_shift n).
      - cbn [ActivitySeries.bytesUp ActivitySeries.bytesDown
             ActivitySeries.connectingClients ActivitySeries.connectedClients
             ActivitySeries.msBucketPeriod ActivitySeries.numBuckets].
        rewrite !shift_twice by lia. reflexivity.
      - lia.
      - unfold channels_length.
        cbn [ActivitySeries.bytesUp ActivitySeries.bytesDown
             ActivitySeries.connectingClients ActivitySeries.connectedClients].
        rewrite !shift_length by lia. tauto. }
    split.
    { unfold ActivityStats.updateTick.
      eapply update_returns; try eassumption;
        cbn [ActivityStats.totalBytesUp ActivityStats.totalBytesDown
             ActivityStats.seriesFast]; try lia.
      rewrite updateSeries_no_gap
        by (cbn [ActivitySeries.msBucketPeriod]; fold old; rewrite Hp; lia).
      exact Hpush2. }
    cbn [ActivityStats.seriesFast].
    split; [exact Hpush1|]. split; [exact Hpush2|].
    cbn [ActivitySeries.bytesUp ActivitySeries.bytesDown
         ActivitySeries.connectingClients ActivitySeries.connectedClients].
    repeat split.
Qed.

Lemma sub_period_collapse_witness :
  (exists s1 s2,
     ActivityStats.updateTick (fresh 0) (ActivityStats.mkTick (1 # 10) 10 20 1 2) = Some s1 /\
     ActivityStats.updateTick s1 (ActivityStats.mkTick (2 # 10) 30 40 3 4) = Some s2 /\
     ActivitySeries.bytesUp (ActivityStats.seriesFast s2)
     = drop 2 (ActivitySeries.bytesUp (ActivityStats.seriesFast (fresh 0))) ++ [10; 30]) /\
  (exists series s',
     ActivityStats.update (fresh 0) 1 5 6 7 8 = Some s' /\
     ActivitySeries.pushDataPoints series 5 6 7 8 = Some (ActivityStats.seriesFast s')).
Proof.
  destruct sub_period_collapse as [Hgen Htwo]. split.
  - destruct (Htwo (fresh 0)
                (ActivityStats.mkTick (1 # 10) 10 20 1 2)
                (ActivityStats.mkTick (2 # 10) 30 40 3 4))
      as (s1 & s2 & H1 & H2 & _ & _ & Hup & _).
    + apply fresh_well_formed.
    + cbn; lia.
    + reflexivity.
    + split; cbn; lia.
    + split; cbn; lia.
    + vm_compute; discriminate.
    + vm_compute; discriminate.
    + vm_compute; discriminate.
    + vm_compute; reflexivity.
    + vm_compute; discriminate.
    + vm_compute; reflexivity.
    + exists s1, s2. split; [exact H1|]. split; [exact H2 | exact Hup].
  - destruct (ActivityStats.update (fresh 0) 1 5 6 7 8) as [s'|] eqn:E.
    + destruct (Hgen (fresh 0) s' 1%Q 5 6 7 8 E) as (series & Hpush & _).
      exists series, s'. split; [reflexivity | exact Hpush].
    + vm_compute in E. discriminate.
Defined.



(** C4 as the specification states it fails: a report with a negative byte
    delta is not clamped, the call traps. *)
Lemma negative_bytes_trap :
  ~ clamps_negative_input (fresh 0) (ActivityStats.mkTick 1 (-1) 0 0 0).
Proof.
  intros (s' & Hup & _). vm_compute in Hup. discriminate.
Qed.

(** C4, amended.  [update] clamps nothing.  A call with [bytesUp < 0] or
    [bytesDown < 0] traps, in the conversion to [UInt64].  A call that
    returns has added [bytesUp] and [bytesDown] as given to the totals and
    has stored and pushed all four inputs unchanged, negative client counts
    included. *)
Theorem negative_input_not_clamped (s : ActivityStats.t) (k : ActivityStats.Tick) :
  (ActivityStats.bytesUp k < 0 \/ ActivityStats.bytesDown k < 0 ->
   ActivityStats.updateTick s k = None) /\
  (forall s' : ActivityStats.t,
     ActivityStats.updateTick s k = Some s' ->
     ActivityStats.totalBytesUp s'
     = ActivityStats.totalBytesUp s + ActivityStats.bytesUp k /\
     ActivityStats.totalBytesDown s'
     = ActivityStats.totalBytesDown s + ActivityStats.bytesDown k /\
     ActivityStats.currentConnectingClients s' = ActivityStats.connectingClients k /\
     ActivityStats.currentConnectedClients s' = ActivityStats.connectedClients k /\
     newest (ActivityStats.seriesFast s')
       (ActivityStats.bytesUp k) (ActivityStats.bytesDown k)
       (ActivityStats.connectingClients k) (ActivityStats.connectedClients k)).
Proof.
  split.
  - intros Hneg.
    destruct (ActivityStats.updateTick s k) as [s'|] eqn:E; [|reflexivity].
    apply update_inv in E. destruct E as (Hu & Hd & _). lia.
  - intros s' Hup. apply update_inv in Hup.
    destruct Hup as (_ & _ & Tu & _ & Td & _ & Cg & Cd & _ & _ & ms & _ & Hser).
    destruct (updateSeries_ends_with_push _ _ _ _ _ _ _ Hser) as (_ & _ & Hnew).
    tauto.
Qed.

Lemma negative_input_not_clamped_witness :
  ActivityStats.updateTick (fresh 0) (ActivityStats.mkTick 1 (-1) 0 0 0) = None /\
  exists s',
    ActivityStats.updateTick (fresh 0) (ActivityStats.mkTick 1 5 6 (-3) (-4)) = Some s' /\
    ActivityStats.currentConnectingClients s' = -3 /\
    newest (ActivityStats.seriesFast s') 5 6 (-3) (-4).
Proof.
  split.
  - apply (negative_input_not_clamped (fresh 0) (ActivityStats.mkTick 1 (-1) 0 0 0)).
    left. cbn. lia.
  - destruct (ActivityStats.updateTick (fresh 0) (ActivityStats.mkTick 1 5 6 (-3) (-4)))
      as [s'|] eqn:E.
    + exists s'. split; [reflexivity|].
      destruct (negative_input_not_clamped (fresh 0)
                  (ActivityStats.mkTick 1 5 6 (-3) (-4))) as [_ H].
      destruct (H s' E) as (_ & _ & Hg & _ & Hnew).
      split; [exact Hg | exact Hnew].
    + vm_compute in E. discriminate.
Defined.

(** * The wire format *)

Section Wire.
Import React Zod.

Lemma entry_here (k : string) (v : JValue) (rest : list (string * JValue)) :
  entry k ((k, v) :: rest) = Some v.
Proof. cbn [entry]. rewrite decide_True by reflexivity. reflexivity. Qed.

Lemma entry_skip (k k' : string) (v : JValue) (rest : list (string * JValue)) :
  k' <> k -> entry k ((k', v) :: rest) = entry k rest.
Proof. intros Hne. cbn [entry]. rewrite decide_False by exact Hne. reflexivity. Qed.

Lemma mapM_numbers (f : JValue -> option JValue) (l : list Z) :
  (forall n, f (JNumber n) = Some (JNumber n)) ->
  mapM f (JNumber <$> l) = Some (JNumber <$> l).
Proof.
  intros Hf. induction l as [|x l IH]; [reflexivity|].
  cbn [fmap list_fmap mapM]. rewrite Hf. cbn [mbind option_bind].
  change (list_fmap Z JValue JNumber l) with (JNumber <$> l).
  rewrite IH. reflexivity.
Qed.

Lemma parse_series (l : list Z) :
  length l = 288%nat ->
  parse (array_length number 288) (JArray (JNumber <$> l))
  = Some (JArray (JNumber <$> l)).
Proof.
  intros Hl. cbn [parse]. rewrite length_fmap, decide_True by exact Hl.
  rewrite mapM_numbers by reflexivity. reflexivity.
Qed.

(** The payload of a one-second window of 288 buckets parses to the
    encoded dictionary without its [numBuckets] entry. *)
Lemma parse_asDictionary (e tu td cg cd n : Z) (u d g c : list Z) :
  length u = 288%nat -> length d = 288%nat ->
  length g = 288%nat -> length c = 288%nat ->
  parse InProxyActivityStatsSchema
    (asDictionary (mkStats e tu td cg cd (mkDataByPeriod n u d g c "1000ms")))
  = Some (JObject
            [("elapsedTime", JNumber e);
             ("totalBytesUp", JNumber tu);
             ("totalBytesDown", JNumber td);
             ("currentConnectingClients", JNumber cg);
             ("currentConnectedClients", JNumber cd);
             ("dataByPeriod",
              JObject
                [("1000ms",
                  JObject
                    [("bytesUp", JArray (JNumber <$> u));
                     ("bytesDown", JArray (JNumber <$> d));
                     ("connectingClients", JArray (JNumber <$> g));
                     ("connectedClients", JArray (JNumber <$> c))])])]).
Proof.
  intros Hu Hd Hg Hc.
  unfold InProxyActivityStatsSchema, InProxyActivityDataByPeriodSchema,
    asDictionary, DataByPeriod_asDictionary.
  cbn [parse bucketPeriod numBuckets bytesUp bytesDown connectingClients
       connectedClients elapsedTime totalBytesUp totalBytesDown
       currentConnectingClients currentConnectedClients dataByPeriod].
  repeat first
    [ rewrite entry_here
    | rewrite entry_skip by discriminate
    | rewrite length_fmap
    | rewrite decide_True by assumption
    | rewrite mapM_numbers by reflexivity
    | progress cbn [mbind option_bind fmap option_fmap option_map] ].
  reflexivity.
Qed.

(** A whole number of magnitude at most [2 ^ 53] arrives as it is. *)
Lemma toNumber_exact (n : Z) : exact_in_Double n -> toNumber n = n.
Proof.
  unfold exact_in_Double, toNumber. intros Hn.
  assert (Hpos : forall m, 0 <= m <= 2 ^ 53 ->
                 (Swift.Double_nearest (inject_Z m) == inject_Z m)%Q).
  { intros m Hm. destruct (Z.eq_dec m (2 ^ 53)) as [->|Hne].
    - vm_compute. reflexivity.
    - apply (Double_nearest_between (inject_Z m) m); try lia.
      + apply Qle_refl.
      + rewrite <- Zlt_Qlt. lia.
      + reflexivity. }
  destruct n as [|p|p].
  - reflexivity.
  - rewrite (Qfloor_comp _ _ (Hpos (Z.pos p) ltac:(lia))). apply Qfloor_Z.
  - change (Swift.Double_nearest (inject_Z (Z.neg p)))
      with (- Swift.Double_nearest (inject_Z (Z.pos p)))%Q.
    rewrite (Qfloor_comp _ (- inject_Z (Z.pos p))%Q).
    + change (- inject_Z (Z.pos p))%Q with (inject_Z (Z.neg p)). apply Qfloor_Z.
    + rewrite (Hpos (Z.pos p)) by lia. reflexivity.
Qed.

Lemma fmap_toNumber_exact (l : list Z) :
  Forall exact_in_Double l -> toNumber <$> l = l.
Proof.
  induction 1 as [|n l Hn _ IH]; [reflexivity|].
  cbn [fmap list_fmap]. rewrite (toNumber_exact n Hn).
  change (list_fmap Z Z toNumber l) with (toNumber <$> l).
  rewrite IH. reflexivity.
Qed.

Lemma delivered_numbers (l : list Z) :
  delivered (JArray (JNumber <$> l)) = JArray (JNumber <$> (toNumber <$> l)).
Proof.
  cbn [delivered]. f_equal.
  induction l as [|n l IH]; [reflexivity|].
  cbn [fmap list_fmap delivered]. f_equal. exact IH.
Qed.

(** Delivering the encoded payload gives the encoding of the payload with
    every number delivered. *)
Lemma delivered_asDictionary (e tu td cg cd n : Z) (u d g c : list Z) (p : string) :
  delivered (asDictionary (mkStats e tu td cg cd (mkDataByPeriod n u d g c p)))
  = asDictionary
      (mkStats (toNumber e) (toNumber tu) (toNumber td) (toNumber cg) (toNumber cd)
         (mkDataByPeriod (toNumber n) (toNumber <$> u) (toNumber <$> d)
            (toNumber <$> g) (toNumber <$> c) p)).
Proof.
  unfold asDictionary, DataByPeriod_asDictionary.
  cbn [bucketPeriod numBuckets bytesUp bytesDown connectingClients
       connectedClients elapsedTime totalBytesUp totalBytesDown
       currentConnectingClients currentConnectedClients dataByPeriod].
  pose proof (delivered_numbers u) as Hu. pose proof (delivered_numbers d) as Hd.
  pose proof (delivered_numbers g) as Hg. pose proof (delivered_numbers c) as Hc.
  cbn [delivered fmap list_fmap] in Hu, Hd, Hg, Hc |- *.
  injection Hu as Hu. injection Hd as Hd. injection Hg as Hg. injection Hc as Hc.
  rewrite Hu, Hd, Hg, Hc. reflexivity.
Qed.

End Wire.

(** Reading a field of an explicit dictionary. *)
Ltac lookup_field :=
  cbn [React.field React.asDictionary React.DataByPeriod_asDictionary
       React.bucketPeriod React.numBuckets React.bytesUp React.bytesDown
       React.connectingClients React.connectedClients React.elapsedTime
       React.totalBytesUp React.totalBytesDown React.currentConnectingClients
       React.currentConnectedClients React.dataByPeriod];
  repeat first
    [ rewrite entry_here
    | rewrite entry_skip by discriminate
    | progress cbn [mbind option_bind React.field React.entry] ];
  reflexivity.

(** C5 as the specification states it fails, in two ways.  The encoder
    emits [numBuckets], the receiving schema does not declare it, and parsing
    strips it: already the snapshot of a new session does not round-trip.
    And a number arrives as the nearest [Double]: after one report of
    [2 ^ 53 + 1] bytes sent, the snapshot's total is [2 ^ 53 + 1] and the
    decoded total is [2 ^ 53]. *)
Lemma round_trip_loses_fields :
  ~ round_trips (contract_fields (fresh 0)) (fresh 0) /\
  exists s decoded,
    ActivityStats.updates (fresh 0)
      [ActivityStats.mkTick 1 (2 ^ 53 + 1) 0 0 0] = Some s /\
    decode s = Some decoded /\
    ActivityStats.totalBytesUp s = 2 ^ 53 + 1 /\
    React.field ["totalBytesUp"] decoded = Some (React.JNumber (2 ^ 53)) /\
    ~ round_trips (declared_fields s) s.
Proof.
  split.
  - intros (decoded & Hdec & Hfields).
    vm_compute in Hdec. injection Hdec as <-.
    unfold contract_fields in Hfields.
    apply Forall_app in Hfields. destruct Hfields as [_ Hnum].
    apply Forall_cons in Hnum. destruct Hnum as [[_ Hnum] _].
    vm_compute in Hnum. discriminate.
  - destruct (ActivityStats.updates (fresh 0)
                [ActivityStats.mkTick 1 (2 ^ 53 + 1) 0 0 0]) as [s|] eqn:E;
      [|vm_compute in E; discriminate].
    vm_compute in E. injection E as <-.
    eexists. eexists. split; [reflexivity|].
    split; [vm_compute; reflexivity|].
    split; [vm_compute; reflexivity|].
    split; [vm_compute; reflexivity|].
    intros (decoded & Hdec & Hfields).
    vm_compute in Hdec. injection Hdec as <-.
    apply Forall_cons in Hfields. destruct Hfields as [_ Hfields].
    apply Forall_cons in Hfields. destruct Hfields as [[_ Hup] _].
    vm_compute in Hup. discriminate.
Qed.

(** C5, amended.  For the statistics of a session, after any sequence of
    [update] calls, when the payload can be built the receiving side decodes
    it, and every field that the schema declares (the elapsed time, the two
    totals, the two client counts and the four sequences of 288 buckets
    under ["1000ms"], oldest bucket first) has in the decoded value the
    [Double] nearest to the value that it has in the snapshot.  When every
    number of the snapshot is of magnitude at most [2 ^ 53], that is the
    snapshot's value itself.  The encoded [numBuckets], 288, is not declared
    by the schema and is absent from the decoded value. *)
Theorem schema_fields_round_trip
    (now : Q) (ks : list ActivityStats.Tick) (s0 s : ActivityStats.t)
    (r : React.ReactInProxyActivityStats) :
  ActivityStats.init now = Some s0 ->
  ActivityStats.updates s0 ks = Some s ->
  React.ofActivityStats s = Some r ->
  exists decoded,
    decode s = Some decoded /\
    Forall (fun f => is_Some f.2 /\
                     React.field f.1 decoded = React.delivered <$> f.2)
           (declared_fields s) /\
    (numbers_exact s -> round_trips (declared_fields s) s) /\
    React.field numBuckets_path (React.asDictionary r) = Some (React.JNumber 288) /\
    React.field numBuckets_path decoded = None.
Proof.
  intros Hinit Hrun Hr. rewrite init_fresh in Hinit. injection Hinit as <-.
  pose proof (zero_filled_length 1000 288) as H0.
  change (Z.to_nat 288) with 288%nat in H0.
  destruct (updates_length 288 ks (fresh now) s H0 Hrun)
    as ((Hu & Hd & Hg & Hc) & Hn & Hp).
  cbn in Hn, Hp.
  unfold round_trips, decode, declared_fields, numbers_exact.
  unfold React.ofActivityStats in Hr |- *.
  destruct (ActivityStats.msElapsedTime s) as [e|]; [|discriminate].
  cbn [mbind option_bind] in Hr |- *. rewrite Hn, Hp in Hr |- *.
  change (pretty 1000 +:+ "ms") with "1000ms" in Hr |- *.
  injection Hr as <-.
  rewrite delivered_asDictionary.
  pose proof (parse_asDictionary (React.toNumber e)
                (React.toNumber (ActivityStats.totalBytesUp s))
                (React.toNumber (ActivityStats.totalBytesDown s))
                (React.toNumber (ActivityStats.currentConnectingClients s))
                (React.toNumber (ActivityStats.currentConnectedClients s))
                (React.toNumber 288)
                (React.toNumber <$> ActivitySeries.bytesUp (ActivityStats.seriesFast s))
                (React.toNumber <$> ActivitySeries.bytesDown (ActivityStats.seriesFast s))
                (React.toNumber <$> ActivitySeries.connectingClients (ActivityStats.seriesFast s))
                (React.toNumber <$> ActivitySeries.connectedClients (ActivityStats.seriesFast s)))
    as Hparse.
  rewrite !length_fmap in Hparse. specialize (Hparse Hu Hd Hg Hc).
  eexists. split; [exact Hparse|].
  split; [|split; [|split]].
  - repeat (apply Forall_cons; split;
            [split; [eexists; reflexivity|];
             cbn [fst snd fmap option_fmap option_map];
             rewrite ?delivered_numbers; cbn [React.delivered]; lookup_field|]).
    apply Forall_nil. exact I.
  - intros (He & Htu & Htd & Hcg & Hcd & Hbu & Hbd & Hsg & Hsd).
    eexists. split; [exact Hparse|].
    rewrite (toNumber_exact e) by (apply He; reflexivity).
    rewrite !toNumber_exact by assumption.
    rewrite !fmap_toNumber_exact by assumption.
    repeat (apply Forall_cons; split;
            [split; [eexists; reflexivity | cbn [fst snd]; lookup_field]|]).
    apply Forall_nil. exact I.
  - unfold numBuckets_path. lookup_field.
  - unfold numBuckets_path. lookup_field.
Qed.

Lemma schema_fields_round_trip_witness :
  exists s decoded,
    ActivityStats.updates (fresh 0) [ActivityStats.mkTick (5 # 2) 5 6 7 8] = Some s /\
    decode s = Some decoded /\
    React.field ["totalBytesUp"] decoded = Some (React.JNumber 5).
Proof.
  destruct (ActivityStats.updates (fresh 0) [ActivityStats.mkTick (5 # 2) 5 6 7 8])
    as [s|] eqn:E; [|vm_compute in E; discriminate].
  destruct (React.ofActivityStats s) as [r|] eqn:Er;
    [|vm_compute in E; injection E as <-; vm_compute in Er; discriminate].
  destruct (schema_fields_round_trip 0 [ActivityStats.mkTick (5 # 2) 5 6 7 8]
              (fresh 0) s r eq_refl E Er) as (decoded & Hdec & Hfields & _).
  exists s, decoded. split; [reflexivity|]. split; [exact Hdec|].
  apply Forall_cons in Hfields. destruct Hfields as [_ Hfields].
  apply Forall_cons in Hfields. destruct Hfields as [[_ Hup] _].
  vm_compute in E. injection E as <-.
  exact Hup.
Defined.

(** * The session manager *)

Section Manager.
Import ConduitManager.

Lemma setConduitStatus_value (m : ConduitManager.t) (status : ConduitStatus)
    (reachable : option bool) :
  is_Some (psiphonTunnel m) ->
  setConduitStatus m status reachable
  = Some (ConduitManager.mk (psiphonTunnelListener m) (psiphonTunnel m) status
            (activityStats m),
          [onConduitStatusUpdate status reachable]).
Proof.
  intros [u Hu]. unfold setConduitStatus. rewrite Hu. reflexivity.
Qed.

(** An accepted start request whose tunnel start succeeds. *)
Lemma startConduit_success (m : ConduitManager.t) (params : ConduitParams)
    (version : string) (now : Q) (reach1 reach2 : option bool) :
  consistent m -> start_accepted m params ->
  startConduit m params version true now reach1 reach2
  = Some (ConduitManager.mk
            (Some (mkListener (Some (mkConfigs params version))))
            (Some (default tt (psiphonTunnel m))) started (Some (fresh now)),
          [onConduitStatusUpdate starting reach1;
           onConduitStatusUpdate started reach2;
           onInproxyProxyActivity (fresh now)],
          returned).
Proof.
  intros Hc (Hst & Hdup). unfold startConduit.
  rewrite decide_False by exact Hst.
  destruct m as [l t st a]. cbn in *.
  destruct t as [[]|].
  - destruct (Hc ltac:(eauto)) as [l' Hl]. cbn in Hl. subst l.
    cbn. destruct (decide (st = started)) as [->|Hne].
    + destruct (isEqualConduitParams l' params) eqn:Eq.
      * exfalso. apply Hdup. split; [reflexivity|].
        exists l'. split; [reflexivity | exact Eq].
      * reflexivity.
    + reflexivity.
  - cbn. destruct (decide (st = started)) as [->|Hne].
    + cbn. unfold isEqualConduitParams. cbn.
      rewrite bool_decide_eq_false_2 by discriminate. reflexivity.
    + reflexivity.
Qed.

(** An accepted start request whose tunnel start fails. *)
Lemma startConduit_failure (m : ConduitManager.t) (params : ConduitParams)
    (version : string) (now : Q) (reach1 reach2 : option bool) :
  consistent m -> start_accepted m params ->
  exists m' calls message,
    startConduit m params version false now reach1 reach2
    = Some (m', calls, threw message) /\
    conduitStatus m' = stopped /\ activityStats m' = None.
Proof.
  intros Hc (Hst & Hdup). unfold startConduit.
  rewrite decide_False by exact Hst.
  destruct m as [l t st a]. cbn in *.
  destruct t as [[]|].
  - destruct (Hc ltac:(eauto)) as [l' Hl]. cbn in Hl. subst l.
    cbn. destruct (decide (st = started)) as [->|Hne].
    + destruct (isEqualConduitParams l' params) eqn:Eq.
      * exfalso. apply Hdup. split; [reflexivity|].
        exists l'. split; [reflexivity | exact Eq].
      * do 3 eexists. split; [reflexivity|]. split; reflexivity.
    + do 3 eexists. split; [reflexivity|]. split; reflexivity.
  - cbn. destruct (decide (st = started)) as [->|Hne].
    + cbn. unfold isEqualConduitParams. cbn.
      rewrite bool_decide_eq_false_2 by discriminate.
      do 3 eexists. split; [reflexivity|]. split; reflexivity.
    + do 3 eexists. split; [reflexivity|]. split; reflexivity.
Qed.

(** Stopping a running session. *)
Lemma stopConduit_started (m : ConduitManager.t) (reach1 reach2 : option bool) :
  conduitStatus m = started -> is_Some (psiphonTunnel m) ->
  stopConduit m reach1 reach2
  = Some (ConduitManager.mk (psiphonTunnelListener m) (psiphonTunnel m) stopped None,
          [onConduitStatusUpdate stopping reach1;
           onConduitStatusUpdate stopped reach2]).
Proof.
  intros Hst [u Hu]. destruct m as [l t st a]. cbn in Hst, Hu. subst st t.
  reflexivity.
Qed.


(** The manager's operations keep the tunnel wrapper and its listener
    together. *)
Lemma consistent_init : consistent ConduitManager.init.
Proof. intros [u Hu]. discriminate. Qed.

Lemma startConduit_consistent (m m' : ConduitManager.t) (params : ConduitParams)
    (version : string) (success : bool) (now : Q) (reach1 reach2 : option bool)
    (calls : list ListenerCall) (outcome : Outcome) :
  consistent m ->
  startConduit m params version success now reach1 reach2
  = Some (m', calls, outcome) ->
  consistent m'.
Proof.
  intros Hc Hstart. unfold startConduit in Hstart.
  destruct (decide (conduitStatus m = starting)).
  { injection Hstart as <- _ _. exact Hc. }
  destruct m as [l t st a]. cbn in *.
  assert (Hl : t <> None -> is_Some l).
  { intros Ht. apply Hc. destruct t; [eauto | contradiction]. }
  destruct t as [[]|]; cbn in Hstart.
  - destruct (Hl ltac:(discriminate)) as [l' ->]. cbn in Hstart.
    destruct (decide (st = started)); cbn in Hstart;
      [destruct (isEqualConduitParams l' params); cbn in Hstart|];
      try (injection Hstart as <- _ _; intros _; eauto; fail);
      destruct success; cbn in Hstart; injection Hstart as <- _ _;
      intros _; cbn; eauto.
  - destruct (decide (st = started)); cbn in Hstart;
      [destruct (isEqualConduitParams _ params); cbn in Hstart|];
      try (injection Hstart as <- _ _; intros _; cbn; eauto; fail);
      destruct success; cbn in Hstart; injection Hstart as <- _ _;
      intros _; cbn; eauto.
Qed.

Lemma stopConduit_consistent (m m' : ConduitManager.t) (reach1 reach2 : option bool)
    (calls : list ListenerCall) :
  consistent m -> stopConduit m reach1 reach2 = Some (m', calls) -> consistent m'.
Proof.
  intros Hc Hstop. destruct m as [l t st a]. unfold stopConduit in Hstop.
  cbn in Hstop.
  destruct st; try (injection Hstop as <- _; exact Hc).
  destruct t as [[]|]; cbn in Hstop; injection Hstop as <- _; exact Hc.
Qed.

Lemma updateActivityStats_consistent (m m' : ConduitManager.t) (now : Q)
    (cg cd bu bd : Z) (calls : list ListenerCall) :
  consistent m -> updateActivityStats m now cg cd bu bd = Some (m', calls) ->
  consistent m'.
Proof.
  intros Hc Hup. unfold updateActivityStats in Hup.
  destruct (activityStats m) as [stats|].
  - destruct (ActivityStats.update stats now bu bd cg cd); [|discriminate].
    cbn in Hup. injection Hup as <- _. exact Hc.
  - injection Hup as <- _. exact Hc.
Qed.

End Manager.

Lemma msElapsedTime_fresh (now : Q) :
  ActivityStats.msElapsedTime (fresh now) = Some 0.
Proof.
  unfold ActivityStats.msElapsedTime, Swift.Double_mul, Swift.Double_sub.
  cbn [fresh ActivityStats.lastUpdate ActivityStats.startTime].
  assert (Hnum : Qnum (now - now) = 0).
  { destruct now as [a b]. unfold Qminus, Qplus, Qopp. cbn [Qnum Qden]. lia. }
  unfold Swift.Double_nearest at 2. rewrite Hnum. reflexivity.
Qed.

(** C9.  Session lifecycle of the statistics.  Whenever an accepted start
    request succeeds, the manager holds a new [ActivityStats] built by
    [ActivityStats()] at that moment, whatever it held before: both totals
    and both client counts are 0, [startTime] equals [lastUpdate] so the
    elapsed time is 0, and the series has 288 zero-filled buckets of
    1000 ms; this object is what the listener is told.  Stopping the running
    session leaves the manager without statistics, as does a manager that
    has just been created. *)
Theorem session_stats_lifecycle :
  (forall (m : ConduitManager.t) (params : ConduitManager.ConduitParams)
          (version : string) (now : Q) (reach1 reach2 : option bool),
     consistent m -> start_accepted m params ->
     exists m' calls stats,
       ConduitManager.startConduit m params version true now reach1 reach2
       = Some (m', calls, ConduitManager.returned) /\
       ConduitManager.conduitStatus m' = ConduitManager.started /\
       ConduitManager.activityStats m' = Some stats /\
       last calls = Some (ConduitManager.onInproxyProxyActivity stats) /\
       ActivityStats.init now = Some stats /\
       ActivityStats.totalBytesUp stats = 0 /\
       ActivityStats.totalBytesDown stats = 0 /\
       ActivityStats.currentConnectingClients stats = 0 /\
       ActivityStats.currentConnectedClients stats = 0 /\
       ActivityStats.startTime stats = now /\
       ActivityStats.lastUpdate stats = ActivityStats.startTime stats /\
       ActivityStats.msElapsedTime stats = Some 0 /\
       ActivityStats.seriesFast stats
       = ActivitySeries.mk 1000 288 (replicate 288 0) (replicate 288 0)
                           (replicate 288 0) (replicate 288 0)) /\
  (forall (m : ConduitManager.t) (reach1 reach2 : option bool),
     ConduitManager.conduitStatus m = ConduitManager.started ->
     is_Some (ConduitManager.psiphonTunnel m) ->
     exists m' calls,
       ConduitManager.stopConduit m reach1 reach2 = Some (m', calls) /\
       ConduitManager.conduitStatus m' = ConduitManager.stopped /\
       ConduitManager.activityStats m' = None) /\
  ConduitManager.activityStats ConduitManager.init = None.
Proof.
  split; [|split].
  - intros m params version now reach1 reach2 Hc Hacc.
    do 3 eexists. split; [apply startConduit_success; assumption|].
    cbn [ConduitManager.conduitStatus ConduitManager.activityStats].
    split; [reflexivity|]. split; [reflexivity|]. split; [reflexivity|].
    split; [apply init_fresh|].
    repeat (split; [reflexivity|]).
    split; [apply msElapsedTime_fresh | reflexivity].
  - intros m reach1 reach2 Hst Ht. do 2 eexists.
    split; [apply stopConduit_started; assumption|]. split; reflexivity.
  - reflexivity.
Qed.

Lemma session_stats_lifecycle_witness :
  exists m1 calls1 stats m2 calls2,
    ConduitManager.startConduit ConduitManager.init
      (ConduitManager.mkParams 10 1000 2000 None) "1" true (7 # 2) (Some true) (Some true)
    = Some (m1, calls1, ConduitManager.returned) /\
    ConduitManager.activityStats m1 = Some stats /\
    ActivityStats.totalBytesUp stats = 0 /\
    ConduitManager.stopConduit m1 None None = Some (m2, calls2) /\
    ConduitManager.activityStats m2 = None.
Proof.
  destruct session_stats_lifecycle as (Hstart & Hstop & _).
  destruct (Hstart ConduitManager.init (ConduitManager.mkParams 10 1000 2000 None)
              "1" (7 # 2)%Q (Some true) (Some true))
    as (m1 & calls1 & stats & H1 & Hst & Hstats & _ & Hinit & Hup & _).
  - intros [u Hu]. cbn in Hu. discriminate.
  - split; [cbn; discriminate|]. intros [Hs _]. cbn in Hs. discriminate.
  - destruct (Hstop m1 None None Hst) as (m2 & calls2 & H2 & _ & Hnone).
    + vm_compute in H1. injection H1 as <- _. cbn. eauto.
    + exists m1, calls1, stats, m2, calls2. tauto.
Defined.



(** * Further properties of the series and of the statistics *)

Section Window.
Import Swift ActivitySeries.

Lemma elapsedBucketCount_le (s : ActivitySeries.t) (ms e : Z) :
  elapsedBucketCount s ms = Some e -> e <= numBuckets s.
Proof.
  unfold elapsedBucketCount. intros H.
  destruct (UInt64_div ms (msBucketPeriod s)) as [q|]; [|discriminate].
  cbn [mbind option_bind] in H.
  destruct (Int_of_UInt64 q) as [i|]; [|discriminate].
  cbn [mbind option_bind] in H.
  destruct (Int_sub i 1) as [e0|]; [|discriminate].
  cbn [mbind option_bind] in H. injection H as <-.
  destruct (decide (e0 > numBuckets s)); lia.
Qed.

Lemma shift_window (l : list Z) (k : nat) (x : Z) :
  (0 < length l)%nat -> (k <= length l)%nat ->
  shift (drop k l ++ replicate k 0) x = drop (S k) (l ++ replicate k 0 ++ [x]).
Proof.
  intros Hl Hk. unfold shift.
  destruct (decide (k < length l)%nat) as [Hlt|Hge].
  - rewrite drop_app_le by (rewrite length_drop; lia).
    rewrite drop_drop, <- app_assoc.
    rewrite (drop_app_le l) by lia.
    replace (k + 1)%nat with (S k) by lia. reflexivity.
  - assert (k = length l) as -> by lia.
    rewrite drop_all, app_nil_l.
    rewrite (drop_app_ge l) by lia.
    replace (S (length l) - length l)%nat with 1%nat by lia.
    rewrite drop_app_le by (rewrite length_replicate; lia). reflexivity.
Qed.

End Window.

(** X1.  The window after a call.  On a well-formed series, when the gap
    count of a call is [e], the call returns, and every channel becomes the
    old channel, followed by one zero per gap bucket and by the observed
    value, without its [e + 1] oldest entries (without the oldest one when
    [e] is not positive): the window always holds the newest [numBuckets]
    entries of that history. *)
Theorem updateSeries_window (s : ActivitySeries.t) (ms e bu bd cg cd : Z) :
  well_formed s ->
  ActivitySeries.elapsedBucketCount s ms = Some e ->
  let k := Z.to_nat e in
  ActivitySeries.updateSeries s ms bu bd cg cd
  = Some (ActivitySeries.mk
            (ActivitySeries.msBucketPeriod s) (ActivitySeries.numBuckets s)
            (drop (S k) (ActivitySeries.bytesUp s ++ replicate k 0 ++ [bu]))
            (drop (S k) (ActivitySeries.bytesDown s ++ replicate k 0 ++ [bd]))
            (drop (S k) (ActivitySeries.connectingClients s ++ replicate k 0 ++ [cg]))
            (drop (S k) (ActivitySeries.connectedClients s ++ replicate k 0 ++ [cd]))).
Proof.
  intros Hw He k. pose proof Hw as (Hn & Hlen).
  pose proof (elapsedBucketCount_le s ms e He) as Hle.
  pose proof Hlen as (Lu & Ld & Lg & Lc).
  set (n := Z.to_nat (ActivitySeries.numBuckets s)) in *.
  assert (Hk : (k <= n)%nat) by (subst k n; lia).
  assert (Hzeros :
    (if decide (e > 0) then ActivitySeries.pushZeros (Z.to_nat e) s else Some s)
    = Some (ActivitySeries.mk
              (ActivitySeries.msBucketPeriod s) (ActivitySeries.numBuckets s)
              (drop k (ActivitySeries.bytesUp s) ++ replicate k 0)
              (drop k (ActivitySeries.bytesDown s) ++ replicate k 0)
              (drop k (ActivitySeries.connectingClients s) ++ replicate k 0)
              (drop k (ActivitySeries.connectedClients s) ++ replicate k 0))).
  { destruct (decide (e > 0)).
    - rewrite (pushZeros_shift _ n) by (assumption || lia). fold k.
      rewrite !shift_zeros by lia.
      rewrite Lu, Ld, Lg, Lc.
      replace (Nat.min k n) with k by lia. reflexivity.
    - replace k with 0%nat by (subst k; lia).
      rewrite !drop_0. cbn [replicate]. rewrite !app_nil_r.
      destruct s; reflexivity. }
  unfold ActivitySeries.updateSeries. rewrite He. cbn [mbind option_bind].
  rewrite Hzeros. cbn [mbind option_bind].
  rewrite (pushDataPoints_shift n).
  - cbn [ActivitySeries.bytesUp ActivitySeries.bytesDown
         ActivitySeries.connectingClients ActivitySeries.connectedClients
         ActivitySeries.msBucketPeriod ActivitySeries.numBuckets].
    rewrite !shift_window by lia. reflexivity.
  - lia.
  - unfold channels_length.
    cbn [ActivitySeries.bytesUp ActivitySeries.bytesDown
         ActivitySeries.connectingClients ActivitySeries.connectedClients].
    rewrite !length_app, !length_drop, !length_replicate. lia.
Qed.

Lemma updateSeries_window_witness :
  ActivitySeries.updateSeries
    (ActivitySeries.mk 1000 4 [1; 2; 3; 4] [5; 6; 7; 8] [1; 0; 1; 0] [2; 2; 3; 3])
    3500 9 10 1 4
  = Some (ActivitySeries.mk 1000 4 [4; 0; 0; 9] [8; 0; 0; 10] [0; 0; 0; 1] [3; 0; 0; 4]).
Proof.
  apply (updateSeries_window
           (ActivitySeries.mk 1000 4 [1; 2; 3; 4] [5; 6; 7; 8] [1; 0; 1; 0] [2; 2; 3; 3])
           3500 2 9 10 1 4).
  - unfold well_formed, channels_length; cbn. repeat split; lia.
  - vm_compute. reflexivity.
Defined.

Section Accounting.
Import Swift ActivitySeries.

Lemma channel_sum_app (l1 l2 : list Z) :
  channel_sum (l1 ++ l2) = channel_sum l1 + channel_sum l2.
Proof.
  unfold channel_sum. induction l1 as [|x l1 IH]; cbn [app foldr]; lia.
Qed.

Lemma shift_nonneg (l : list Z) (x : Z) :
  Forall (Z.le 0) l -> 0 <= x -> Forall (Z.le 0) (shift l x).
Proof.
  intros Hl Hx. unfold shift. apply Forall_app. split.
  - apply Forall_drop. exact Hl.
  - apply Forall_cons. split; [exact Hx | apply Forall_nil; exact I].
Qed.

Lemma shift_sum (l : list Z) (x : Z) :
  Forall (Z.le 0) l -> channel_sum (shift l x) <= channel_sum l + x.
Proof.
  intros Hl. unfold shift. rewrite channel_sum_app.
  destruct l as [|h t].
  - cbn. lia.
  - apply Forall_cons in Hl. destruct Hl as [Hh _].
    rewrite skipn_cons, drop_0. unfold channel_sum. cbn [foldr]. lia.
Qed.

Lemma pushDataPoints_bytes (s s' : ActivitySeries.t) (a b c d : Z) :
  pushDataPoints s a b c d = Some s' ->
  bytesUp s' = shift (bytesUp s) a /\ bytesDown s' = shift (bytesDown s) b.
Proof.
  unfold pushDataPoints. intros H.
  destruct (bytesUp s) as [|u us]; [discriminate|].
  destruct (bytesDown s) as [|w ws]; [discriminate|].
  destruct (removeFirst (connectingClients s)); [|discriminate].
  destruct (removeFirst (connectedClients s)); [|discriminate].
  cbn in H. injection H as <-. split; reflexivity.
Qed.

(** One push of non-negative byte values keeps the byte channels
    non-negative and raises their sums by at most the pushed values. *)
Lemma pushDataPoints_accounted (s s' : ActivitySeries.t) (a b c d : Z) :
  0 <= a -> 0 <= b ->
  Forall (Z.le 0) (bytesUp s) -> Forall (Z.le 0) (bytesDown s) ->
  pushDataPoints s a b c d = Some s' ->
  Forall (Z.le 0) (bytesUp s') /\ Forall (Z.le 0) (bytesDown s') /\
  channel_sum (bytesUp s') <= channel_sum (bytesUp s) + a /\
  channel_sum (bytesDown s') <= channel_sum (bytesDown s) + b.
Proof.
  intros Ha Hb Hu Hd Hp. apply pushDataPoints_bytes in Hp.
  destruct Hp as [-> ->].
  repeat split; auto using shift_nonneg, shift_sum.
Qed.

Lemma pushZeros_accounted (k : nat) (s s' : ActivitySeries.t) :
  Forall (Z.le 0) (bytesUp s) -> Forall (Z.le 0) (bytesDown s) ->
  pushZeros k s = Some s' ->
  Forall (Z.le 0) (bytesUp s') /\ Forall (Z.le 0) (bytesDown s') /\
  channel_sum (bytesUp s') <= channel_sum (bytesUp s) /\
  channel_sum (bytesDown s') <= channel_sum (bytesDown s).
Proof.
  revert s. induction k as [|k IH]; intros s Hu Hd Hz; cbn [pushZeros] in Hz.
  - injection Hz as <-. repeat split; (assumption || lia).
  - destruct (pushDataPoints s 0 0 0 0) as [s1|] eqn:E1; [|discriminate].
    cbn [mbind option_bind] in Hz.
    destruct (pushDataPoints_accounted s s1 0 0 0 0) as (H1 & H2 & H3 & H4);
      try assumption; try lia.
    destruct (IH s1 H1 H2 Hz) as (H5 & H6 & H7 & H8).
    repeat split; (assumption || lia).
Qed.

Lemma updateSeries_accounted (s s' : ActivitySeries.t) (ms a b c d : Z) :
  0 <= a -> 0 <= b ->
  Forall (Z.le 0) (bytesUp s) -> Forall (Z.le 0) (bytesDown s) ->
  updateSeries s ms a b c d = Some s' ->
  Forall (Z.le 0) (bytesUp s') /\ Forall (Z.le 0) (bytesDown s') /\
  channel_sum (bytesUp s') <= channel_sum (bytesUp s) + a /\
  channel_sum (bytesDown s') <= channel_sum (bytesDown s) + b.
Proof.
  intros Ha Hb Hu Hd Hup. unfold updateSeries in Hup.
  destruct (elapsedBucketCount s ms) as [e|]; [|discriminate].
  cbn [mbind option_bind] in Hup.
  destruct (if decide (e > 0) then pushZeros (Z.to_nat e) s else Some s)
    as [s1|] eqn:E1; [|discriminate].
  cbn [mbind option_bind] in Hup.
  assert (H1 : Forall (Z.le 0) (bytesUp s1) /\ Forall (Z.le 0) (bytesDown s1) /\
               channel_sum (bytesUp s1) <= channel_sum (bytesUp s) /\
               channel_sum (bytesDown s1) <= channel_sum (bytesDown s)).
  { destruct (decide (e > 0)).
    - exact (pushZeros_accounted _ s s1 Hu Hd E1).
    - injection E1 as <-. repeat split; (assumption || lia). }
  destruct H1 as (H1 & H2 & H3 & H4).
  destruct (pushDataPoints_accounted s1 s' a b c d Ha Hb H1 H2 Hup)
    as (H5 & H6 & H7 & H8).
  repeat split; (assumption || lia).
Qed.

Lemma updates_accounted (ks : list ActivityStats.Tick) (s s' : ActivityStats.t) :
  bytes_accounted s -> ActivityStats.updates s ks = Some s' -> bytes_accounted s'.
Proof.
  revert s. induction ks as [|k ks IH]; intros s Hs Hrun;
    cbn [ActivityStats.updates] in Hrun.
  - injection Hrun as <-. exact Hs.
  - destruct (ActivityStats.updateTick s k) as [s1|] eqn:E1; [|discriminate].
    cbn [mbind option_bind] in Hrun. apply (IH s1); [|exact Hrun].
    apply update_inv in E1.
    destruct E1 as (Hu & Hd & Tu & _ & Td & _ & _ & _ & _ & _ & ms & _ & Hser).
    destruct Hs as (A1 & A2 & A3 & A4).
    destruct (updateSeries_accounted _ _ _ _ _ _ _ Hu Hd A1 A2 Hser)
      as (B1 & B2 & B3 & B4).
    unfold bytes_accounted. repeat split; (assumption || lia).
Qed.

End Accounting.

(** X2.  The window never exceeds the totals.  After every sequence of
    [update] calls on a new [ActivityStats], no bucket of [bytesUp] or
    [bytesDown] is negative, and the buckets of each of these channels sum to
    at most the matching cumulative total. *)
Theorem window_within_totals
    (now : Q) (ks : list ActivityStats.Tick) (s0 s : ActivityStats.t) :
  ActivityStats.init now = Some s0 ->
  ActivityStats.updates s0 ks = Some s ->
  bytes_accounted s.
Proof.
  intros Hinit Hrun. rewrite init_fresh in Hinit. injection Hinit as <-.
  apply (updates_accounted ks (fresh now)); [|exact Hrun].
  unfold bytes_accounted, fresh, zero_filled.
  cbn [ActivityStats.seriesFast ActivitySeries.bytesUp ActivitySeries.bytesDown
       ActivityStats.totalBytesUp ActivityStats.totalBytesDown].
  assert (Hz : forall n, Forall (Z.le 0) (replicate n 0) /\
                         channel_sum (replicate n 0) = 0).
  { induction n as [|n [IH1 IH2]].
    - split; [apply Forall_nil; exact I | reflexivity].
    - split.
      + cbn [replicate]. apply Forall_cons. split; [lia | exact IH1].
      + cbn [replicate]. unfold channel_sum in *. cbn [foldr]. lia. }
  destruct (Hz (Z.to_nat 288)) as [H1 H2].
  rewrite H2. repeat split; (assumption || lia).
Qed.

Lemma window_within_totals_witness :
  exists s,
    ActivityStats.updates (fresh 0)
      [ActivityStats.mkTick 1 100 200 1 0;
       ActivityStats.mkTick (300 # 1) 40 50 2 1] = Some s /\
    bytes_accounted s.
Proof.
  eexists. split; [vm_compute; reflexivity|].
  eapply (window_within_totals 0
            [ActivityStats.mkTick 1 100 200 1 0;
             ActivityStats.mkTick (300 # 1) 40 50 2 1] (fresh 0)).
  - reflexivity.
  - vm_compute. reflexivity.
Defined.

Section Clock.
Import Swift.
Local Open Scope Q_scope.



Lemma updates_app (ks1 ks2 : list ActivityStats.Tick) (s : ActivityStats.t) :
  ActivityStats.updates s (ks1 ++ ks2)
  = (s1 ← ActivityStats.updates s ks1; ActivityStats.updates s1 ks2).
Proof.
  revert s. induction ks1 as [|k ks1 IH]; intros s; [reflexivity|].
  cbn [app ActivityStats.updates].
  destruct (ActivityStats.updateTick s k) as [s1|]; [|reflexivity].
  cbn [mbind option_bind]. apply IH.
Qed.

Lemma updates_startTime (ks : list ActivityStats.Tick) (s s' : ActivityStats.t) :
  ActivityStats.updates s ks = Some s' ->
  ActivityStats.startTime s' = ActivityStats.startTime s.
Proof.
  revert s. induction ks as [|k ks IH]; intros s Hrun;
    cbn [ActivityStats.updates] in Hrun.
  - injection Hrun as <-. reflexivity.
  - destruct (ActivityStats.updateTick s k) as [s1|] eqn:E1; [|discriminate].
    cbn [mbind option_bind] in Hrun. apply update_inv in E1.
    destruct E1 as (_ & _ & _ & _ & _ & _ & _ & _ & Hst & _).
    rewrite (IH s1 Hrun). exact Hst.
Qed.

End Clock.



(** X4.  Elapsed time of a session.  After any sequence of [update] calls
    on a new [ActivityStats], [startTime] is still the time of creation and
    [lastUpdate] is the clock reading of the last call.  When that reading is
    not before the creation, let [ms] be 1000 times the [Double] difference
    of the two, and [F] its whole part.  As long as [F] is below [2 ^ 53],
    [msElapsedTime] is [F] or [F + 1]: the product is rounded to a [Double]
    before it is truncated, and that can reach the next whole number.  It is
    [F] when [ms] is a whole number. *)
Theorem elapsed_time_of_session
    (t0 : Q) (ks : list ActivityStats.Tick) (k : ActivityStats.Tick)
    (s0 s : ActivityStats.t) :
  ActivityStats.init t0 = Some s0 ->
  ActivityStats.updates s0 (ks ++ [k]) = Some s ->
  ActivityStats.startTime s = t0 /\
  ActivityStats.lastUpdate s = ActivityStats.now k /\
  ((t0 <= ActivityStats.now k)%Q ->
   let ms := (Swift.Double_sub (ActivityStats.now k) t0 * inject_Z 1000)%Q in
   Qfloor ms + 1 <= 2 ^ 53 ->
   (ActivityStats.msElapsedTime s = Some (Qfloor ms) \/
    ActivityStats.msElapsedTime s = Some (Qfloor ms + 1)) /\
   ((ms == inject_Z (Qfloor ms))%Q ->
    ActivityStats.msElapsedTime s = Some (Qfloor ms))).
Proof.
  intros Hinit Hrun. rewrite init_fresh in Hinit. injection Hinit as <-.
  pose proof (updates_startTime _ _ _ Hrun) as Hst. cbn in Hst.
  rewrite updates_app in Hrun.
  destruct (ActivityStats.updates (fresh t0) ks) as [s1|]; [|discriminate].
  cbn [mbind option_bind ActivityStats.updates] in Hrun.
  destruct (ActivityStats.updateTick s1 k) as [s2|] eqn:E; [|discriminate].
  cbn [mbind option_bind] in Hrun. injection Hrun as ->.
  apply update_inv in E.
  destruct E as (_ & _ & _ & _ & _ & _ & _ & _ & _ & Hlast & _).
  split; [exact Hst|]. split; [exact Hlast|].
  intros Hle ms Hfit.
  unfold ActivityStats.msElapsedTime, Swift.Double_mul.
  rewrite Hst, Hlast. fold ms.
  assert (Hd : (0 <= Swift.Double_sub (ActivityStats.now k) t0)%Q).
  { apply Double_nearest_nonneg. lra. }
  assert (Hms : (0 <= ms)%Q).
  { apply Qmult_le_0_compat; [exact Hd | discriminate]. }
  assert (HF : 0 <= Qfloor ms).
  { change 0 with (Qfloor 0). apply Qfloor_resp_le. exact Hms. }
  destruct (Double_nearest_between ms (Qfloor ms) HF Hfit
              (Qfloor_le ms) (Qlt_floor ms)) as (Hlo & Hhi & Hwhole).
  assert (Hmax : Qfloor ms + 1 <= Swift.UInt64_max).
  { transitivity (2 ^ 53); [exact Hfit|]. vm_compute. discriminate. }
  destruct (UInt64_of_Double_between _ (Qfloor ms) HF Hmax Hlo Hhi)
    as [Hcases Hexact].
  split; [exact Hcases|].
  intros Hw. apply Hexact, Hwhole, Hw.
Qed.

Lemma elapsed_time_of_session_witness :
  exists s,
    ActivityStats.updates (fresh 800000000)
      ([] ++ [ActivityStats.mkTick (6784218856589099 # 8388608) 7 8 1 2])
    = Some s /\
    (ActivityStats.msElapsedTime s = Some 8741910050 \/
     ActivityStats.msElapsedTime s = Some (8741910050 + 1)).
Proof.
  destruct (ActivityStats.updates (fresh 800000000)
              ([] ++ [ActivityStats.mkTick (6784218856589099 # 8388608) 7 8 1 2]))
    as [s|] eqn:E; [|vm_compute in E; discriminate].
  exists s. split; [reflexivity|].
  destruct (elapsed_time_of_session 800000000 []
              (ActivityStats.mkTick (6784218856589099 # 8388608) 7 8 1 2)
              (fresh 800000000) s eq_refl E) as (_ & _ & H).
  destruct (H ltac:(vm_compute; discriminate) ltac:(vm_compute; discriminate))
    as [H1 _].
  exact H1.
Defined.

(** The rounded product does reach the next whole number: a session created
    at 800000000 s and last updated 8741910.051 s later (at the [Double]
    nearest to 808741910.051) lasted 8741910050 whole milliseconds, and
    [msElapsedTime] is 8741910051. *)
Example elapsed_time_rounds_up :
  exists s,
    ActivityStats.updates (fresh 800000000)
      [ActivityStats.mkTick (6784218856589099 # 8388608) 7 8 1 2] = Some s /\
    Qfloor ((ActivityStats.lastUpdate s - ActivityStats.startTime s)
            * inject_Z 1000) = 8741910050 /\
    ActivityStats.msElapsedTime s = Some 8741910051.
Proof.
  eexists. split; [vm_compute; reflexivity|].
  split; vm_compute; reflexivity.
Qed.

(** * Further properties of the session manager *)

Section Requests.
Import ConduitManager.

(** The three ways in which a start request ends, between two requests. *)
Lemma startConduit_cases (m m' : ConduitManager.t) (params : ConduitParams)
    (version : string) (success : bool) (now : Q) (reach1 reach2 : option bool)
    (calls : list ListenerCall) (outcome : Outcome) :
  between_requests m ->
  startConduit m params version success now reach1 reach2 = Some (m', calls, outcome) ->
  (m' = m /\ calls = [] /\ outcome = returned) \/
  (success = true /\ conduitStatus m' = started /\
   is_Some (psiphonTunnel m') /\ activityStats m' = Some (fresh now) /\
   calls = [onConduitStatusUpdate starting reach1;
            onConduitStatusUpdate started reach2;
            onInproxyProxyActivity (fresh now)]) \/
  (success = false /\ conduitStatus m' = stopped /\ activityStats m' = None /\
   calls = [onConduitStatusUpdate starting reach1;
            onConduitStatusUpdate stopped reach2]).
Proof.
  intros (Hc & Hinv) Hstart.
  assert (Hst : conduitStatus m <> starting).
  { destruct Hinv as [(-> & _)|(-> & _)]; discriminate. }
  assert (Hdec : (conduitStatus m = started /\
                  exists l, psiphonTunnelListener m = Some l /\
                            isEqualConduitParams l params = true) \/
                 ~ (conduitStatus m = started /\
                    exists l, psiphonTunnelListener m = Some l /\
                              isEqualConduitParams l params = true)).
  { destruct (decide (conduitStatus m = started)) as [Hs|Hs];
      [|right; tauto].
    destruct (psiphonTunnelListener m) as [l|] eqn:El.
    - destruct (isEqualConduitParams l params) eqn:Eq.
      + left. eauto.
      + right. intros (_ & l' & Hl' & Heq'). congruence.
    - right. intros (_ & l' & Hl' & _). discriminate. }
  destruct Hdec as [Hdup|Hnew].
  - left. destruct Hdup as (Hs & l & Hl & Heq).
    destruct Hinv as [(_ & [u Hu] & _)|(Hs' & _)]; [|congruence].
    unfold startConduit in Hstart.
    rewrite decide_False in Hstart by exact Hst.
    rewrite Hu in Hstart. rewrite decide_True in Hstart by exact Hs.
    rewrite Hl in Hstart. cbn [mbind option_bind] in Hstart.
    rewrite Heq in Hstart. injection Hstart as <- <- <-. tauto.
  - right. destruct success.
    + left. rewrite startConduit_success in Hstart by (assumption || (split; assumption)).
      injection Hstart as <- <- _. cbn. repeat split; eauto.
    + right.
      destruct (startConduit_failure m params version now reach1 reach2 Hc
                  (conj Hst Hnew)) as (m1 & calls1 & msg & H1 & Hs1 & Ha1).
      pose proof H1 as H1'. rewrite Hstart in H1'. injection H1' as -> -> _.
      repeat split; try assumption.
      clear Hstart. unfold startConduit in H1.
      rewrite decide_False in H1 by exact Hst.
      destruct m as [l t st a]. cbn in *.
      destruct t as [[]|]; cbn in H1.
      * destruct (Hc ltac:(eauto)) as [l' Hl]. cbn in Hl. subst l. cbn in H1.
        destruct (decide (st = started)); cbn in H1;
          [destruct (isEqualConduitParams l' params) eqn:Eq; cbn in H1|].
        -- exfalso. apply Hnew. split; [assumption|]. eauto.
        -- injection H1 as _ <- _. reflexivity.
        -- injection H1 as _ <- _. reflexivity.
      * destruct (decide (st = started)); cbn in H1.
        -- destruct Hinv as [(_ & [u Hu] & _)|(Hs' & _)]; congruence.
        -- injection H1 as _ <- _. reflexivity.
Qed.

Lemma stopConduit_cases (m m' : ConduitManager.t) (reach1 reach2 : option bool)
    (calls : list ListenerCall) :
  between_requests m ->
  stopConduit m reach1 reach2 = Some (m', calls) ->
  (m' = m /\ calls = [] /\ conduitStatus m = stopped) \/
  (conduitStatus m = started /\ conduitStatus m' = stopped /\
   activityStats m' = None /\
   psiphonTunnel m' = psiphonTunnel m /\
   psiphonTunnelListener m' = psiphonTunnelListener m /\
   calls = [onConduitStatusUpdate stopping reach1;
            onConduitStatusUpdate stopped reach2]).
Proof.
  intros (Hc & [(Hs & Ht & _)|(Hs & _)]) Hstop.
  - right. rewrite stopConduit_started in Hstop by assumption.
    injection Hstop as <- <-. cbn. tauto.
  - left. unfold stopConduit in Hstop. rewrite Hs in Hstop.
    injection Hstop as <- <-. tauto.
Qed.

Lemma handle_between_requests (m m' : ConduitManager.t) (r : TunnelEvents.Request)
    (calls : list ListenerCall) :
  between_requests m -> TunnelEvents.handle m r = Some (m', calls) ->
  between_requests m'.
Proof.
  intros Hinv Hh. pose proof Hinv as (Hc & Hcase).
  destruct r as [params version success now r1 r2|r1 r2|reachable
                |now cg cd bu bd|r1 r2]; cbn [TunnelEvents.handle] in Hh.
  - destruct (startConduit m params version success now r1 r2)
      as [[[m1 calls1] o]|] eqn:E; [|discriminate].
    cbn in Hh. injection Hh as <- <-.
    pose proof (startConduit_consistent _ _ _ _ _ _ _ _ _ _ Hc E) as Hc'.
    destruct (startConduit_cases _ _ _ _ _ _ _ _ _ _ Hinv E)
      as [(-> & _)|[(_ & Hs & Ht & Ha & _)|(_ & Hs & Ha & _)]].
    + exact Hinv.
    + split; [exact Hc'|]. left. rewrite Ha. eauto.
    + split; [exact Hc'|]. right. tauto.
  - pose proof (stopConduit_consistent _ _ _ _ _ Hc Hh) as Hc'.
    destruct (stopConduit_cases _ _ _ _ _ Hinv Hh)
      as [(-> & _)|(_ & Hs & Ha & _)].
    + exact Hinv.
    + split; [exact Hc'|]. right. tauto.
  - unfold TunnelEvents.onInternetReachabilityChanged in Hh.
    injection Hh as <- _. exact Hinv.
  - unfold TunnelEvents.onInproxyProxyActivity in Hh.
    pose proof (updateActivityStats_consistent _ _ _ _ _ _ _ _ Hc Hh) as Hc'.
    unfold updateActivityStats in Hh.
    destruct (activityStats m) as [stats|] eqn:Ea.
    + destruct (ActivityStats.update stats now bu bd cg cd) as [stats'|];
        [|discriminate].
      cbn in Hh. injection Hh as <- _.
      split; [exact Hc'|].
      destruct Hcase as [(Hs & Ht & _)|(_ & Hn)]; [|congruence].
      left. cbn. eauto.
    + injection Hh as <- _. exact Hinv.
  - unfold TunnelEvents.onInproxyMustUpgrade in Hh.
    destruct (stopConduit m r1 r2) as [[m1 calls1]|] eqn:E; [|discriminate].
    cbn in Hh. injection Hh as <- _.
    pose proof (stopConduit_consistent _ _ _ _ _ Hc E) as Hc'.
    destruct (stopConduit_cases _ _ _ _ _ Hinv E)
      as [(-> & _)|(_ & Hs & Ha & _)].
    + exact Hinv.
    + split; [exact Hc'|]. right. tauto.
Qed.

Lemma serve_between_requests (rs : list TunnelEvents.Request)
    (m m' : ConduitManager.t) (calls : list ListenerCall) :
  between_requests m -> TunnelEvents.serve m rs = Some (m', calls) ->
  between_requests m'.
Proof.
  revert m calls. induction rs as [|r rs IH]; intros m calls Hinv Hs;
    cbn [TunnelEvents.serve] in Hs.
  - injection Hs as <- _. exact Hinv.
  - destruct (TunnelEvents.handle m r) as [[m1 calls1]|] eqn:E1; [|discriminate].
    cbn in Hs.
    destruct (TunnelEvents.serve m1 rs) as [[m2 calls2]|] eqn:E2; [|discriminate].
    cbn in Hs. injection Hs as <- _.
    exact (IH m1 calls2 (handle_between_requests _ _ _ _ Hinv E1) E2).
Qed.

Lemma init_between_requests : between_requests ConduitManager.init.
Proof. split; [apply consistent_init|]. right. split; reflexivity. Qed.

End Requests.

Section JobSteps.
Import ConduitManager Jobs.

Lemma setConduitStatus_inv (m m' : ConduitManager.t) (status : ConduitStatus)
    (reachable : option bool) (calls : list ListenerCall) :
  setConduitStatus m status reachable = Some (m', calls) ->
  conduitStatus m' = status /\ activityStats m' = activityStats m.
Proof.
  unfold setConduitStatus. destruct (psiphonTunnel m); [|discriminate].
  cbn [mbind option_bind]. intros [= <- _]. split; reflexivity.
Qed.

Lemma startConduit_enter_inv (m m' : ConduitManager.t) (params : ConduitParams)
    (reach : option bool) (calls : list ListenerCall) (k : option Continuation) :
  startConduit_enter m params reach = Some (m', calls, k) ->
  activityStats m' = activityStats m /\
  match k with
  | None => conduitStatus m' = conduitStatus m
  | Some k =>
      k = startConduit_after_stop params /\
      conduitStatus m <> starting /\ conduitStatus m' = starting
  end.
Proof.
  unfold startConduit_enter.
  destruct (decide (conduitStatus m = starting)) as [|Hns].
  { intros [= <- _ <-]. split; reflexivity. }
  set (m1 := match psiphonTunnel m with
             | None => _
             | Some _ => m
             end).
  assert (Hm1 : conduitStatus m1 = conduitStatus m /\
                activityStats m1 = activityStats m)
    by (subst m1; destruct (psiphonTunnel m); split; reflexivity).
  destruct Hm1 as [Hs1 Ha1]. clearbody m1.
  destruct (if decide (conduitStatus m1 = started)
            then l ← psiphonTunnelListener m1; Some (isEqualConduitParams l params)
            else Some false) as [[|]|]; cbn [mbind option_bind];
    [ | |discriminate].
  - intros [= <- _ <-]. split; assumption.
  - destruct (setConduitStatus m1 starting reach) as [[m2 calls2]|] eqn:E;
      [|discriminate].
    cbn [mbind option_bind]. intros [= <- _ <-].
    apply setConduitStatus_inv in E. destruct E as [Hs2 Ha2].
    split; [congruence|]. split; [reflexivity|]. split; assumption.
Qed.

Lemma startConduit_stopped_inv (m m' : ConduitManager.t) (params : ConduitParams)
    (version : string) (k : Continuation) :
  startConduit_stopped m params version = Some (m', k) ->
  k = startConduit_after_start /\
  conduitStatus m' = conduitStatus m /\ activityStats m' = None.
Proof.
  unfold startConduit_stopped.
  destruct (psiphonTunnelListener (setActivityStats m None)); [|discriminate].
  cbn [mbind option_bind psiphonTunnel setActivityStats].
  destruct (psiphonTunnel m); [|discriminate].
  cbn [mbind option_bind]. intros [= <- <-]. repeat split.
Qed.

Lemma startConduit_finish_inv (m m' : ConduitManager.t) (success : bool) (now : Q)
    (reach : option bool) (calls : list ListenerCall) (outcome : Outcome) :
  startConduit_finish m success now reach = Some (m', calls, outcome) ->
  if success
  then conduitStatus m' = started /\ is_Some (activityStats m')
  else conduitStatus m' = stopped /\ activityStats m' = activityStats m.
Proof.
  unfold startConduit_finish. destruct success.
  - destruct (setConduitStatus m started reach) as [[m1 calls1]|] eqn:E;
      [|discriminate].
    cbn [mbind option_bind]. rewrite init_fresh. cbn [mbind option_bind].
    intros [= <- _ _]. apply setConduitStatus_inv in E. destruct E as [Hs _].
    split; [exact Hs | eexists; reflexivity].
  - destruct (setConduitStatus m stopped reach) as [[m1 calls1]|] eqn:E;
      [|discriminate].
    cbn [mbind option_bind]. intros [= <- _ _].
    apply setConduitStatus_inv in E. exact E.
Qed.

Lemma stopConduit_enter_inv (m m' : ConduitManager.t) (reach : option bool)
    (calls : list ListenerCall) (k : option Continuation) :
  stopConduit_enter m reach = Some (m', calls, k) ->
  activityStats m' = activityStats m /\
  match k with
  | None => conduitStatus m' = conduitStatus m
  | Some k =>
      k = stopConduit_after_stop /\
      conduitStatus m = started /\ conduitStatus m' = stopping
  end.
Proof.
  unfold stopConduit_enter.
  destruct (conduitStatus m) eqn:Hs;
    try (intros [= <- _ <-]; split; [reflexivity | exact Hs]).
  destruct (psiphonTunnel m).
  - destruct (setConduitStatus m stopping reach) as [[m1 calls1]|] eqn:E;
      [|discriminate].
    cbn [mbind option_bind]. intros [= <- _ <-].
    apply setConduitStatus_inv in E. destruct E as [Hs1 Ha1].
    split; [exact Ha1|]. split; [reflexivity|]. split; [reflexivity | exact Hs1].
  - intros [= <- _ <-]. split; [reflexivity | exact Hs].
Qed.

Lemma stopConduit_finish_inv (m m' : ConduitManager.t) (reach : option bool)
    (calls : list ListenerCall) :
  stopConduit_finish m reach = Some (m', calls) ->
  conduitStatus m' = stopped /\ activityStats m' = None.
Proof.
  unfold stopConduit_finish.
  destruct (setConduitStatus m stopped reach) as [[m1 calls1]|] eqn:E;
    [|discriminate].
  cbn [mbind option_bind]. intros [= <- _].
  apply setConduitStatus_inv in E. destruct E as [Hs _].
  split; [exact Hs | reflexivity].
Qed.

Lemma updateActivityStats_inv (m m' : ConduitManager.t) (now : Q)
    (cg cd bu bd : Z) (calls : list ListenerCall) :
  updateActivityStats m now cg cd bu bd = Some (m', calls) ->
  conduitStatus m' = conduitStatus m /\
  (is_Some (activityStats m') <-> is_Some (activityStats m)) /\
  (activityStats m = None -> activityStats m' = None).
Proof.
  unfold updateActivityStats. destruct (activityStats m) as [stats|] eqn:Ha.
  - destruct (ActivityStats.update stats now bu bd cg cd) as [stats'|];
      [|discriminate].
    cbn [mbind option_bind]. intros [= <- _].
    split; [reflexivity|]. split; [|discriminate].
    split; intros _; eexists; reflexivity.
  - intros [= <- _]. rewrite Ha. repeat split; auto.
Qed.

(** An uninterrupted run of the parts of [startConduit] is the method
    followed from entry to exit. *)
Lemma startConduit_parts (m : ConduitManager.t) (params : ConduitParams)
    (version : string) (success : bool) (now : Q) (reach1 reach2 : option bool) :
  startConduit m params version success now reach1 reach2
  = '(m1, calls1, k) ← startConduit_enter m params reach1;
    match k with
    | None => Some (m1, calls1, returned)
    | Some _ =>
        '(m2, _) ← startConduit_stopped m1 params version;
        '(m3, calls2, outcome) ← startConduit_finish m2 success now reach2;
        Some (m3, calls1 ++ calls2, outcome)
    end.
Proof.
  unfold startConduit, startConduit_enter.
  destruct (decide (conduitStatus m = starting)); [reflexivity|].
  set (m1 := match psiphonTunnel m with
             | None => _
             | Some _ => m
             end). clearbody m1.
  destruct (if decide (conduitStatus m1 = started)
            then l ← psiphonTunnelListener m1; Some (isEqualConduitParams l params)
            else Some false) as [[|]|]; cbn [mbind option_bind];
    [reflexivity| |reflexivity].
  destruct (setConduitStatus m1 starting reach1) as [[m2 calls1]|] eqn:E;
    [|reflexivity].
  cbn [mbind option_bind]. unfold startConduit_stopped.
  destruct (psiphonTunnelListener (setActivityStats m2 None)); [|reflexivity].
  cbn [mbind option_bind].
  assert (Ht : psiphonTunnel (setActivityStats m2 None) = Some tt).
  { unfold setConduitStatus in E. destruct (psiphonTunnel m1) as [[]|] eqn:Ht;
      [|discriminate].
    cbn [mbind option_bind] in E. injection E as <- _. reflexivity. }
  cbn [psiphonTunnel] in Ht |- *. rewrite Ht.
  cbn [mbind option_bind]. unfold startConduit_finish.
  destruct success.
  - destruct (setConduitStatus _ started reach2) as [[m3 calls2]|]; [|reflexivity].
    cbn [mbind option_bind].
    destruct (ActivityStats.init now); [|reflexivity].
    cbn [mbind option_bind]. reflexivity.
  - destruct (setConduitStatus _ stopped reach2) as [[m3 calls2]|]; reflexivity.
Qed.

(** An uninterrupted run of the parts of [stopConduit] is the method
    followed from entry to exit. *)
Lemma stopConduit_parts (m : ConduitManager.t) (reach1 reach2 : option bool) :
  stopConduit m reach1 reach2
  = '(m1, calls1, k) ← stopConduit_enter m reach1;
    match k with
    | None => Some (m1, calls1)
    | Some _ =>
        '(m2, calls2) ← stopConduit_finish m1 reach2;
        Some (m2, calls1 ++ calls2)
    end.
Proof.
  unfold stopConduit, stopConduit_enter.
  destruct (conduitStatus m); try reflexivity.
  destruct (psiphonTunnel m); [|reflexivity].
  destruct (setConduitStatus m stopping reach1) as [[m1 calls1]|]; [|reflexivity].
  cbn [mbind option_bind]. unfold stopConduit_finish.
  destruct (setConduitStatus m1 stopped reach2) as [[m2 calls2]|]; reflexivity.
Qed.

Lemma step_started_has_statistics (a a' : Actor) (j : Job)
    (calls : list ListenerCall) :
  started_has_statistics a -> step a j = Some (a', calls) ->
  started_has_statistics a'.
Proof.
  destruct a as [m susp]. unfold started_has_statistics.
  cbn [manager suspended]. intros Hinv.
  destruct j as [params reach|reach|i version success now reach
                |now cg cd bu bd|reachable|]; cbn [step manager suspended].
  - destruct (startConduit_enter m params reach) as [[[m1 calls1] k]|] eqn:E;
      [|discriminate].
    cbn [mbind option_bind]. intros [= <- _]. cbn [manager suspended].
    apply startConduit_enter_inv in E. destruct E as [Ha Hk].
    destruct k as [k|].
    + destruct Hk as (_ & _ & Hs). rewrite Hs. discriminate.
    + cbn [suspend]. rewrite Ha, Hk. exact Hinv.
  - destruct (stopConduit_enter m reach) as [[[m1 calls1] k]|] eqn:E;
      [|discriminate].
    cbn [mbind option_bind]. intros [= <- _]. cbn [manager suspended].
    apply stopConduit_enter_inv in E. destruct E as [Ha Hk].
    destruct k as [k|].
    + destruct Hk as (_ & _ & Hs). rewrite Hs. discriminate.
    + cbn [suspend]. rewrite Ha, Hk. exact Hinv.
  - destruct (susp !! i) as [k|]; [|discriminate].
    cbn [mbind option_bind]. destruct k as [params| |].
    + destruct (startConduit_stopped m params version) as [[m1 k']|] eqn:E;
        [|discriminate].
      cbn [mbind option_bind]. intros [= <- _]. cbn [manager suspended].
      apply startConduit_stopped_inv in E. destruct E as (-> & _ & _).
      intros _. right. apply elem_of_app. right.
      apply elem_of_cons. left. reflexivity.
    + destruct (startConduit_finish m success now reach)
        as [[[m1 calls1] outcome]|] eqn:E; [|discriminate].
      cbn [mbind option_bind]. intros [= <- _]. cbn [manager suspended].
      apply startConduit_finish_inv in E. destruct success.
      * intros _. left. apply E.
      * destruct E as [Hs _]. rewrite Hs. discriminate.
    + destruct (stopConduit_finish m reach) as [[m1 calls1]|] eqn:E;
        [|discriminate].
      cbn [mbind option_bind]. intros [= <- _]. cbn [manager suspended].
      apply stopConduit_finish_inv in E. destruct E as [Hs _].
      rewrite Hs. discriminate.
  - destruct (updateActivityStats m now cg cd bu bd) as [[m1 calls1]|] eqn:E;
      [|discriminate].
    cbn [mbind option_bind]. intros [= <- _]. cbn [manager suspended].
    apply updateActivityStats_inv in E. destruct E as (Hs & Hiff & _).
    rewrite Hs, Hiff. exact Hinv.
  - intros [= <- _]. exact Hinv.
  - intros [= <- _]. exact Hinv.
Qed.

Lemma step_one_at_a_time (a a' : Actor) (j : Job) (calls : list ListenerCall) :
  one_at_a_time a ->
  match j with
  | startConduit_called _ _ => stop_suspended a = false
  | _ => True
  end ->
  step a j = Some (a', calls) ->
  one_at_a_time a'.
Proof.
  destruct a as [m susp]. unfold one_at_a_time, stop_suspended.
  cbn [manager suspended]. intros Hinv Hok.
  destruct j as [params reach|reach|i version success now reach
                |now cg cd bu bd|reachable|]; cbn [step manager suspended].
  - (* startConduit is entered *)
    destruct (startConduit_enter m params reach) as [[[m1 calls1] k]|] eqn:E;
      [|discriminate].
    cbn [mbind option_bind]. intros [= <- _]. cbn [manager suspended].
    apply startConduit_enter_inv in E. destruct E as [Ha Hk].
    destruct k as [k|]; cbn [suspend].
    + destruct Hk as (-> & Hns & Hs).
      destruct susp as [|[p| |] [|k2 rest]]; cbn [app];
        [ exact Hs
        | contradiction
        | contradiction
        | destruct Hinv as [Hs0 _]; contradiction
        | contradiction
        | cbn in Hok; discriminate
        | contradiction ].
    + rewrite Ha, Hk. exact Hinv.
  - (* stopConduit is entered *)
    destruct (stopConduit_enter m reach) as [[[m1 calls1] k]|] eqn:E;
      [|discriminate].
    cbn [mbind option_bind]. intros [= <- _]. cbn [manager suspended].
    apply stopConduit_enter_inv in E. destruct E as [Ha Hk].
    destruct k as [k|]; cbn [suspend].
    + destruct Hk as (-> & Hst & Hs).
      destruct susp as [|[p| |] [|k2 rest]]; cbn [app];
        [ | congruence
          | contradiction
          | destruct Hinv as [Hs0 _]; congruence
          | contradiction
          | destruct Hinv as [Hs0 _]; congruence
          | contradiction ].
      destruct Hinv as [[_ Hsome]|[Hstop _]]; [|congruence].
      split; [exact Hs | rewrite Ha; exact Hsome].
    + rewrite Ha, Hk. exact Hinv.
  - (* a suspended method goes on *)
    destruct susp as [|k [|k2 rest]].
    + discriminate.
    + destruct i as [|i]; [|discriminate]. cbn [lookup list_lookup mbind option_bind].
      cbn [delete list_delete app].
      destruct k as [params| |].
      * destruct (startConduit_stopped m params version) as [[m1 k']|] eqn:E;
          [|discriminate].
        cbn [mbind option_bind]. intros [= <- _]. cbn [manager suspended].
        apply startConduit_stopped_inv in E. destruct E as (-> & Hs & Ha).
        split; [congruence | exact Ha].
      * destruct (startConduit_finish m success now reach)
          as [[[m1 calls1] outcome]|] eqn:E; [|discriminate].
        cbn [mbind option_bind]. intros [= <- _]. cbn [manager suspended].
        apply startConduit_finish_inv in E. destruct Hinv as [_ Hnone].
        destruct success.
        -- left. exact E.
        -- right. destruct E as [Hs Ha]. split; [exact Hs | congruence].
      * destruct (stopConduit_finish m reach) as [[m1 calls1]|] eqn:E;
          [|discriminate].
        cbn [mbind option_bind]. intros [= <- _]. cbn [manager suspended].
        apply stopConduit_finish_inv in E. right. exact E.
    + destruct k; contradiction.
  - (* a report *)
    destruct (updateActivityStats m now cg cd bu bd) as [[m1 calls1]|] eqn:E;
      [|discriminate].
    cbn [mbind option_bind]. intros [= <- _]. cbn [manager suspended].
    apply updateActivityStats_inv in E. destruct E as (Hs & Hiff & Hnone).
    destruct susp as [|[p| |] [|k2 rest]];
      [ | congruence
        | contradiction
        | destruct Hinv as [Hst Ha]; split; [congruence | apply Hnone, Ha]
        | contradiction
        | rewrite Hs, Hiff; exact Hinv
        | contradiction ].
    rewrite Hs, Hiff.
    destruct Hinv as [Hl|[Hst Ha]]; [left; exact Hl|].
    right. split; [exact Hst | apply Hnone, Ha].
  - intros [= <- _]. exact Hinv.
  - intros [= <- _]. exact Hinv.
Qed.

Lemma run_started_has_statistics (js : list Job) (a a' : Actor)
    (calls : list ListenerCall) :
  started_has_statistics a -> run a js = Some (a', calls) ->
  started_has_statistics a'.
Proof.
  revert a calls. induction js as [|j js IH]; intros a calls Hinv Hrun.
  - injection Hrun as <- _. exact Hinv.
  - cbn [run] in Hrun.
    destruct (step a j) as [[a1 calls1]|] eqn:E1; [|discriminate].
    cbn [mbind option_bind] in Hrun.
    destruct (run a1 js) as [[a2 calls2]|] eqn:E2; [|discriminate].
    cbn [mbind option_bind] in Hrun. injection Hrun as <- _.
    exact (IH a1 calls2 (step_started_has_statistics _ _ _ _ Hinv E1) E2).
Qed.

Lemma run_one_at_a_time (js : list Job) (a a' : Actor)
    (calls : list ListenerCall) :
  one_at_a_time a -> no_start_during_stop a js = true ->
  run a js = Some (a', calls) ->
  one_at_a_time a'.
Proof.
  revert a calls. induction js as [|j js IH]; intros a calls Hinv Hok Hrun.
  - injection Hrun as <- _. exact Hinv.
  - cbn [run] in Hrun. cbn [no_start_during_stop] in Hok.
    destruct (step a j) as [[a1 calls1]|] eqn:E1; [|discriminate].
    cbn [mbind option_bind] in Hrun.
    destruct (run a1 js) as [[a2 calls2]|] eqn:E2; [|discriminate].
    cbn [mbind option_bind] in Hrun. injection Hrun as <- _.
    apply andb_prop in Hok. destruct Hok as [Hj Hrest].
    apply (IH a1 calls2); [|exact Hrest|exact E2].
    apply (step_one_at_a_time a a1 j calls1 Hinv); [|exact E1].
    destruct j; try exact I.
    apply negb_true_iff. exact Hj.
Qed.

End JobSteps.

(** X5.  The actor between two jobs.  The methods of the actor give it up
    at their [await]s, and other jobs run in between.  Whatever jobs the
    actor has run since it was created, a started actor has statistics
    unless a [startConduit] that has removed them is still to finish.  When
    no [startConduit] was entered while a [stopConduit] was suspended, at
    most one method is suspended at any time, and: with none suspended, the
    actor holds statistics exactly when its status is [started], and its
    status is [started] or [stopped]; while a stop awaits the tunnel the
    status is [stopping] and the statistics are still there; while a start
    awaits the tunnel the status is [starting], and the statistics are gone
    once the tunnel's [stop()] has returned. *)
Theorem statistics_iff_started
    (js : list Jobs.Job) (a : Jobs.Actor)
    (calls : list ConduitManager.ListenerCall) :
  Jobs.run Jobs.init js = Some (a, calls) ->
  started_has_statistics a /\
  (no_start_during_stop Jobs.init js = true ->
   one_at_a_time a /\
   (Jobs.suspended a = [] ->
    (is_Some (ConduitManager.activityStats (Jobs.manager a))
     <-> ConduitManager.conduitStatus (Jobs.manager a) = ConduitManager.started) /\
    (ConduitManager.conduitStatus (Jobs.manager a) = ConduitManager.started \/
     ConduitManager.conduitStatus (Jobs.manager a) = ConduitManager.stopped))).
Proof.
  intros Hrun. split.
  - apply (run_started_has_statistics js Jobs.init a calls); [|exact Hrun].
    intros Hs. discriminate.
  - intros Hok.
    assert (Hinv : one_at_a_time a).
    { apply (run_one_at_a_time js Jobs.init a calls); [|exact Hok|exact Hrun].
      right. split; reflexivity. }
    split; [exact Hinv|].
    intros Hnone. unfold one_at_a_time in Hinv. rewrite Hnone in Hinv.
    destruct Hinv as [[Hs Ha]|[Hs Ha]].
    + split; [tauto | left; exact Hs].
    + split; [|right; exact Hs].
      rewrite Ha, Hs. split; [intros [x Hx]|]; discriminate.
Qed.

Lemma statistics_iff_started_witness :
  exists a calls,
    Jobs.run Jobs.init
      [Jobs.startConduit_called (ConduitManager.mkParams 10 1000 2000 None) (Some true);
       Jobs.updateActivityStats_called 1 1 0 10 20;
       Jobs.startConduit_called (ConduitManager.mkParams 20 1000 2000 None) None;
       Jobs.stopConduit_called None;
       Jobs.resumed 0 "1" true 0 None;
       Jobs.conduitStatus_read false;
       Jobs.resumed 0 "1" true 2 (Some true);
       Jobs.updateActivityStats_called 3 1 1 100 200;
       Jobs.mustUpgrade_told;
       Jobs.stopConduit_called (Some true);
       Jobs.updateActivityStats_called 4 1 1 100 200]
    = Some (a, calls) /\
    Jobs.suspended a = [Jobs.stopConduit_after_stop] /\
    ConduitManager.conduitStatus (Jobs.manager a) = ConduitManager.stopping /\
    is_Some (ConduitManager.activityStats (Jobs.manager a)).
Proof.
  destruct (Jobs.run Jobs.init
      [Jobs.startConduit_called (ConduitManager.mkParams 10 1000 2000 None) (Some true);
       Jobs.updateActivityStats_called 1 1 0 10 20;
       Jobs.startConduit_called (ConduitManager.mkParams 20 1000 2000 None) None;
       Jobs.stopConduit_called None;
       Jobs.resumed 0 "1" true 0 None;
       Jobs.conduitStatus_read false;
       Jobs.resumed 0 "1" true 2 (Some true);
       Jobs.updateActivityStats_called 3 1 1 100 200;
       Jobs.mustUpgrade_told;
       Jobs.stopConduit_called (Some true);
       Jobs.updateActivityStats_called 4 1 1 100 200]) as [[a calls]|] eqn:E.
  - exists a, calls. split; [reflexivity|].
    destruct (statistics_iff_started _ _ _ E) as (_ & Hinv).
    destruct (Hinv ltac:(vm_compute; reflexivity)) as [Hone _].
    assert (Hs : Jobs.suspended a = [Jobs.stopConduit_after_stop])
      by (vm_compute in E; injection E as <- _; reflexivity).
    split; [exact Hs|].
    unfold one_at_a_time in Hone. rewrite Hs in Hone. exact Hone.
  - vm_compute in E. discriminate.
Defined.

(** A [startConduit] entered while a [stopConduit] is suspended gets through
    the guards, and the two methods then write over each other: here the
    actor ends with nothing suspended, stopped, and with the statistics of a
    session. *)
Example stopped_with_statistics :
  exists a calls,
    Jobs.run Jobs.init
      [Jobs.startConduit_called (ConduitManager.mkParams 10 1000 2000 None) None;
       Jobs.resumed 0 "1" true 0 None;
       Jobs.resumed 0 "1" true 1 None;
       Jobs.stopConduit_called None;
       Jobs.startConduit_called (ConduitManager.mkParams 20 1000 2000 None) None;
       Jobs.resumed 0 "1" true 0 None;
       Jobs.startConduit_called (ConduitManager.mkParams 30 1000 2000 None) None;
       Jobs.resumed 0 "1" true 0 None;
       Jobs.resumed 0 "1" true 0 None;
       Jobs.resumed 1 "1" true 5 None;
       Jobs.resumed 0 "1" false 0 None]
    = Some (a, calls) /\
    Jobs.suspended a = [] /\
    ConduitManager.conduitStatus (Jobs.manager a) = ConduitManager.stopped /\
    ConduitManager.activityStats (Jobs.manager a) = Some (fresh 5).
Proof.
  eexists. eexists. split; [vm_compute; reflexivity|].
  split; [reflexivity|]. split; reflexivity.
Qed.



Section Shown.
Import ConduitManager.

Lemma lastActivity_app (a b : list ListenerCall) :
  lastActivity (a ++ b)
  = match lastActivity b with Some x => Some x | None => lastActivity a end.
Proof. unfold lastActivity. rewrite omap_app. apply last_app. Qed.

(** What one request does to the statistics and to the log. *)
Lemma handle_shown (m m' : ConduitManager.t) (r : TunnelEvents.Request)
    (calls : list ListenerCall) (stats : ActivityStats.t) :
  between_requests m -> TunnelEvents.handle m r = Some (m', calls) ->
  activityStats m' = Some stats ->
  lastActivity calls = Some stats \/
  (lastActivity calls = None /\ activityStats m = Some stats).
Proof.
  intros Hinv Hh Ha.
  destruct r as [params version success now r1 r2|r1 r2|reachable
                |now cg cd bu bd|r1 r2]; cbn [TunnelEvents.handle] in Hh.
  - destruct (startConduit m params version success now r1 r2)
      as [[[m1 calls1] o]|] eqn:E; [|discriminate].
    cbn in Hh. injection Hh as <- <-.
    destruct (startConduit_cases _ _ _ _ _ _ _ _ _ _ Hinv E)
      as [(-> & -> & _)|[(_ & _ & _ & Ha' & ->)|(_ & _ & Ha' & _)]].
    + right. split; [reflexivity | exact Ha].
    + left. rewrite Ha' in Ha. injection Ha as <-. reflexivity.
    + congruence.
  - destruct (stopConduit_cases _ _ _ _ _ Hinv Hh)
      as [(-> & -> & _)|(_ & _ & Ha' & _)].
    + right. split; [reflexivity | exact Ha].
    + congruence.
  - unfold TunnelEvents.onInternetReachabilityChanged in Hh.
    injection Hh as <- <-. right. split; [reflexivity | exact Ha].
  - unfold TunnelEvents.onInproxyProxyActivity, updateActivityStats in Hh.
    destruct (activityStats m) as [old|] eqn:Ea.
    + destruct (ActivityStats.update old now bu bd cg cd) as [stats'|];
        [|discriminate].
      cbn in Hh. injection Hh as <- <-. cbn in Ha. injection Ha as <-.
      left. reflexivity.
    + injection Hh as <- <-. congruence.
  - unfold TunnelEvents.onInproxyMustUpgrade in Hh.
    destruct (stopConduit m r1 r2) as [[m1 calls1]|] eqn:E; [|discriminate].
    cbn in Hh. injection Hh as <- <-.
    destruct (stopConduit_cases _ _ _ _ _ Hinv E)
      as [(-> & -> & _)|(_ & _ & Ha' & _)].
    + right. split; [reflexivity | exact Ha].
    + congruence.
Qed.

Lemma serve_shown (rs : list TunnelEvents.Request) (m m' : ConduitManager.t)
    (before calls : list ListenerCall) :
  between_requests m ->
  (forall stats, activityStats m = Some stats -> lastActivity before = Some stats) ->
  TunnelEvents.serve m rs = Some (m', calls) ->
  forall stats, activityStats m' = Some stats ->
                lastActivity (before ++ calls) = Some stats.
Proof.
  revert m before calls.
  induction rs as [|r rs IH]; intros m before calls Hinv Hbefore Hs stats Ha;
    cbn [TunnelEvents.serve] in Hs.
  - injection Hs as <- <-. rewrite app_nil_r. auto.
  - destruct (TunnelEvents.handle m r) as [[m1 calls1]|] eqn:E1; [|discriminate].
    cbn in Hs.
    destruct (TunnelEvents.serve m1 rs) as [[m2 calls2]|] eqn:E2; [|discriminate].
    cbn in Hs. injection Hs as <- <-.
    rewrite app_assoc.
    apply (IH m1 (before ++ calls1) calls2); try assumption.
    + exact (handle_between_requests _ _ _ _ Hinv E1).
    + intros stats1 Ha1. rewrite lastActivity_app.
      destruct (handle_shown _ _ _ _ _ Hinv E1 Ha1) as [->|(-> & Hold)];
        [reflexivity | auto].
Qed.

End Shown.

(** X7.  The listener has the current statistics.  Whatever requests and
    tunnel callbacks the actor has handled since it was created, if it holds
    statistics, they are the ones of the last [onInproxyProxyActivity] call it
    made on its listener. *)
Theorem listener_has_current_statistics
    (rs : list TunnelEvents.Request) (m : ConduitManager.t)
    (calls : list ConduitManager.ListenerCall) (stats : ActivityStats.t) :
  TunnelEvents.serve ConduitManager.init rs = Some (m, calls) ->
  ConduitManager.activityStats m = Some stats ->
  lastActivity calls = Some stats.
Proof.
  intros Hs Ha.
  apply (serve_shown rs ConduitManager.init m [] calls init_between_requests);
    [discriminate | exact Hs | exact Ha].
Qed.

Lemma listener_has_current_statistics_witness :
  exists m calls stats,
    TunnelEvents.serve ConduitManager.init
      [TunnelEvents.start (ConduitManager.mkParams 10 1000 2000 None) "1" true 2
         (Some true) (Some true);
       TunnelEvents.activity 3 1 1 100 200;
       TunnelEvents.reachability false]
    = Some (m, calls) /\
    ConduitManager.activityStats m = Some stats /\
    ActivityStats.totalBytesUp stats = 100 /\
    lastActivity calls = Some stats.
Proof.
  destruct (TunnelEvents.serve ConduitManager.init
      [TunnelEvents.start (ConduitManager.mkParams 10 1000 2000 None) "1" true 2
         (Some true) (Some true);
       TunnelEvents.activity 3 1 1 100 200;
       TunnelEvents.reachability false]) as [[m calls]|] eqn:E.
  - destruct (ConduitManager.activityStats m) as [stats|] eqn:Ea.
    + exists m, calls, stats. split; [reflexivity|]. split; [exact Ea|].
      split.
      * vm_compute in E. injection E as <- _. vm_compute in Ea.
        injection Ea as <-. reflexivity.
      * exact (listener_has_current_statistics _ m calls stats E Ea).
    + vm_compute in E. injection E as <- _. vm_compute in Ea. discriminate.
  - vm_compute in E. discriminate.
Defined.

(** * Properties of the events sent to JavaScript *)

(** X8.  Status events pass the event schema unchanged.  Whatever the
    status and the reachability that the manager reports, the event that the
    module sends parses with [InProxyEventSchema] to itself.  Its status is
    "RUNNING" exactly for [starting] and [started] and "STOPPED" otherwise, so
    never "UNKNOWN"; its network state is [null] exactly when the
    reachability is unknown. *)
Theorem status_event_round_trip
    (st : ConduitManager.ConduitStatus) (reachable : option bool) :
  let ev := ConduitModule.ConduitEvent_asDictionary
              (ConduitModule.onConduitStatusUpdate st reachable) in
  ZodEvent.parse ZodEvent.InProxyEventSchema ev = Some ev /\
  React.field ["type"] ev = Some (React.JString "proxyState") /\
  React.field ["data"; "status"] ev
  = Some (React.JString
            (if bool_decide (st = ConduitManager.starting \/
                             st = ConduitManager.started)
             then "RUNNING" else "STOPPED")) /\
  React.field ["data"; "networkState"] ev
  = Some (match reachable with
          | None => React.JNull
          | Some true => React.JString "HAS_INTERNET"
          | Some false => React.JString "NO_INTERNET"
          end).
Proof.
  destruct st, reachable as [[]|]; vm_compute; repeat split.
Qed.

(** X9.  Which error events pass the schemas.  Of the three error events
    that the module can send, only [inProxyMustUpgrade] is accepted by
    [ProxyErrorSchema] and by [InProxyEventSchema], and it parses to itself;
    the actions "inProxyStartFailed" and "inProxyRestartFailed" that the
    module encodes are not among the actions that the schema lists, so these
    two events are rejected. *)
Theorem error_event_accepted_iff_must_upgrade (e : ConduitModule.ReactProxyError) :
  let data := ConduitModule.ReactProxyError_asDictionary e in
  let ev := ConduitModule.ConduitEvent_asDictionary (ConduitModule.proxyError e) in
  (is_Some (ZodEvent.parse ZodEvent.ProxyErrorSchema data)
   <-> e = ConduitModule.inProxyMustUpgrade) /\
  (is_Some (ZodEvent.parse ZodEvent.InProxyEventSchema ev)
   <-> e = ConduitModule.inProxyMustUpgrade) /\
  (e = ConduitModule.inProxyMustUpgrade ->
   ZodEvent.parse ZodEvent.InProxyEventSchema ev = Some ev) /\
  (e <> ConduitModule.inProxyMustUpgrade ->
   ZodEvent.parse ZodEvent.InProxyEventSchema ev = None).
Proof.
  destruct e; cbv zeta; vm_compute;
    repeat split; try discriminate; try congruence; eauto;
    try (intros [x Hx]; discriminate).
Qed.

Lemma error_event_accepted_iff_must_upgrade_witness :
  ZodEvent.parse ZodEvent.InProxyEventSchema
    (ConduitModule.ConduitEvent_asDictionary
       (ConduitModule.proxyError ConduitModule.inProxyStartFailed)) = None /\
  ZodEvent.parse ZodEvent.InProxyEventSchema
    (ConduitModule.ConduitEvent_asDictionary
       (ConduitModule.proxyError ConduitModule.inProxyMustUpgrade))
  = Some (ConduitModule.ConduitEvent_asDictionary
            (ConduitModule.proxyError ConduitModule.inProxyMustUpgrade)).
Proof.
  split.
  - apply (error_event_accepted_iff_must_upgrade ConduitModule.inProxyStartFailed).
    discriminate.
  - apply (error_event_accepted_iff_must_upgrade ConduitModule.inProxyMustUpgrade).
    reflexivity.
Defined.

(** The payload of the statistics of a session is accepted by
    [InProxyActivityStatsSchema]. *)
Lemma session_payload_parses
    (now : Q) (ks : list ActivityStats.Tick) (s0 s : ActivityStats.t)
    (r : React.ReactInProxyActivityStats) :
  ActivityStats.init now = Some s0 ->
  ActivityStats.updates s0 ks = Some s ->
  React.ofActivityStats s = Some r ->
  exists decoded,
    Zod.parse Zod.InProxyActivityStatsSchema (React.asDictionary r) = Some decoded.
Proof.
  intros Hinit Hrun Hr. rewrite init_fresh in Hinit. injection Hinit as <-.
  pose proof (zero_filled_length 1000 288) as H0.
  change (Z.to_nat 288) with 288%nat in H0.
  destruct (updates_length 288 ks (fresh now) s H0 Hrun)
    as ((Hu & Hd & Hg & Hc) & Hn & Hp).
  cbn in Hn, Hp.
  unfold React.ofActivityStats in Hr.
  destruct (ActivityStats.msElapsedTime s) as [e|]; [|discriminate].
  cbn [mbind option_bind] in Hr. rewrite Hn, Hp in Hr.
  change (pretty 1000 +:+ "ms") with "1000ms" in Hr.
  injection Hr as <-.
  eexists. apply parse_asDictionary; assumption.
Qed.

Section EventWire.
Import React.

(** The statistics payload lacks the keys that the two other schemas of
    the union require. *)
Lemma parse_activity_event (r : ReactInProxyActivityStats) (decoded : JValue) :
  Zod.parse Zod.InProxyActivityStatsSchema (asDictionary r) = Some decoded ->
  ZodEvent.parse ZodEvent.InProxyEventSchema
    (ConduitModule.ConduitEvent_asDictionary (ConduitModule.inProxyActivityStats r))
  = Some (JObject [("type", JString "inProxyActivityStats"); ("data", decoded)]).
Proof.
  intros Hdec.
  unfold ZodEvent.InProxyEventSchema, ZodEvent.ProxyStateSchema,
    ZodEvent.ProxyErrorSchema, ZodEvent.InProxyStatusEnumSchema,
    ConduitModule.ConduitEvent_asDictionary.
  cbn [ZodEvent.parse].
  rewrite entry_here. cbn [mbind option_bind].
  rewrite decide_True by (repeat constructor).
  cbn [mbind option_bind].
  rewrite entry_skip by discriminate. rewrite entry_here.
  cbn [mbind option_bind].
  unfold asDictionary at 1 2.
  repeat (rewrite entry_skip by discriminate).
  cbn [entry mbind option_bind].
  rewrite Hdec. reflexivity.
Qed.

End EventWire.

(** X10.  Statistics events pass the event schema.  For the statistics of
    a session, after any sequence of [update] calls, the event that the
    module sends parses with [InProxyEventSchema]: the first two schemas of
    the union reject the payload, the third accepts it, and the parsed event
    holds the type and the payload as [InProxyActivityStatsSchema] parses
    it. *)
Theorem activity_event_accepted
    (now : Q) (ks : list ActivityStats.Tick) (s0 s : ActivityStats.t)
    (ev : ConduitModule.ConduitEvent) :
  ActivityStats.init now = Some s0 ->
  ActivityStats.updates s0 ks = Some s ->
  ConduitModule.sendEvent (ConduitManager.onInproxyProxyActivity s) = Some ev ->
  exists r decoded,
    ev = ConduitModule.inProxyActivityStats r /\
    React.ofActivityStats s = Some r /\
    ZodEvent.parse ZodEvent.ProxyStateSchema (React.asDictionary r) = None /\
    ZodEvent.parse ZodEvent.ProxyErrorSchema (React.asDictionary r) = None /\
    Zod.parse Zod.InProxyActivityStatsSchema (React.asDictionary r) = Some decoded /\
    ZodEvent.parse ZodEvent.InProxyEventSchema
      (ConduitModule.ConduitEvent_asDictionary ev)
    = Some (React.JObject
              [("type", React.JString "inProxyActivityStats"); ("data", decoded)]).
Proof.
  intros Hinit Hrun Hev.
  cbn [ConduitModule.sendEvent] in Hev.
  unfold ConduitModule.onInproxyProxyActivity in Hev.
  destruct (React.ofActivityStats s) as [r|] eqn:Er; [|discriminate].
  cbn [mbind option_bind] in Hev. injection Hev as <-.
  destruct (session_payload_parses now ks s0 s r Hinit Hrun Er)
    as (decoded & Hdec).
  exists r, decoded.
  split; [reflexivity|]. split; [reflexivity|].
  split; [|split; [|split; [exact Hdec|]]].
  - unfold React.asDictionary, ZodEvent.ProxyStateSchema.
    cbn [ZodEvent.parse].
    repeat (rewrite entry_skip by discriminate). reflexivity.
  - unfold React.asDictionary, ZodEvent.ProxyErrorSchema.
    cbn [ZodEvent.parse].
    repeat (rewrite entry_skip by discriminate). reflexivity.
  - apply parse_activity_event. exact Hdec.
Qed.

Lemma activity_event_accepted_witness :
  exists s ev decoded,
    ActivityStats.updates (fresh 0) [ActivityStats.mkTick (5 # 2) 5 6 7 8] = Some s /\
    ConduitModule.sendEvent (ConduitManager.onInproxyProxyActivity s) = Some ev /\
    ZodEvent.parse ZodEvent.InProxyEventSchema
      (ConduitModule.ConduitEvent_asDictionary ev)
    = Some (React.JObject
              [("type", React.JString "inProxyActivityStats"); ("data", decoded)]).
Proof.
  destruct (ActivityStats.updates (fresh 0) [ActivityStats.mkTick (5 # 2) 5 6 7 8])
    as [s|] eqn:E; [|vm_compute in E; discriminate].
  destruct (ConduitModule.sendEvent (ConduitManager.onInproxyProxyActivity s))
    as [ev|] eqn:Ev.
  - destruct (activity_event_accepted 0 _ (fresh 0) s ev eq_refl E Ev)
      as (r & decoded & _ & _ & _ & _ & _ & Hparse).
    exists s, ev, decoded. split; [reflexivity|]. split; [exact Ev|].
    exact Hparse.
  - vm_compute in E. injection E as <-. vm_compute in Ev. discriminate.
Defined.

(** * Properties of the service interactor *)

Section InteractorProofs.
Import ConduitServiceInteractor.
Context {Bundle : Type}.

Lemma run_cons (s : ConduitServiceInteractor.t) (e : Event Bundle)
    (es : list (Event Bundle)) :
  run s (e :: es)
  = ((run (handle s e).1 es).1, (handle s e).2 ++ (run (handle s e).1 es).2).
Proof.
  cbn [run]. destruct (handle s e) as [s1 calls1]. cbn [fst snd].
  destruct (run s1 es) as [s2 calls2]. reflexivity.
Qed.

(** Only [onStart] and, when the object is started, the receiver call
    [bindService]; both go through its guard. *)
Lemma handle_binds (s : ConduitServiceInteractor.t) (e : Event Bundle) :
  context_bindService ∈ (handle s e).2 ->
  isServiceBound s = false /\
  ((exists services, e = start services) \/ (e = broadcast /\ isStopped s = false)).
Proof.
  destruct s as [cs st b]. destruct e as [sv|th| |th| |bu|bu| | |mc up dn key|mc up dn key];
    unfold handle, onStart, onStop, onReceive, onServiceConnected,
      onServiceDisconnected, onProxyStateUpdated, onProxyActivityStatsUpdated,
      ping, onDestroy, toggleInProxy, paramsChanged, bindService;
    cbn [isStopped isServiceBound conduitService negb];
    try destruct (isServiceRunning sv); try destruct th;
    destruct cs, st, b; cbn; intros H;
    repeat (apply elem_of_cons in H; destruct H as [H|H]; try discriminate);
    try (apply elem_of_nil in H; contradiction);
    (split; [reflexivity|]);
    first [left; eexists; reflexivity | right; split; reflexivity].
Qed.

(** After an event the connection is marked bound only if it was before or
    the event made the [bindService] call. *)
Lemma handle_bound (s : ConduitServiceInteractor.t) (e : Event Bundle) :
  isServiceBound (handle s e).1 = true ->
  isServiceBound s = true \/ context_bindService ∈ (handle s e).2.
Proof.
  destruct s as [cs st b]. destruct e as [sv|th| |th| |bu|bu| | |mc up dn key|mc up dn key];
    unfold handle, onStart, onStop, onReceive, onServiceConnected,
      onServiceDisconnected, onProxyStateUpdated, onProxyActivityStatsUpdated,
      ping, onDestroy, toggleInProxy, paramsChanged, bindService;
    cbn [isStopped isServiceBound conduitService negb];
    try destruct (isServiceRunning sv); try destruct th;
    destruct cs, st, b; cbn; intros H; try discriminate;
    first [left; reflexivity | right; apply elem_of_cons; left; reflexivity].
Qed.

Lemma handle_stopped (s : ConduitServiceInteractor.t) (e : Event Bundle) :
  isStopped s = true -> (forall services, e <> start services) ->
  isStopped (handle s e).1 = true /\ context_bindService ∉ (handle s e).2.
Proof.
  intros Hs He. split.
  - destruct s as [cs st b]. cbn in Hs. subst st.
    destruct e as [sv|th| |th| |bu|bu| | |mc up dn key|mc up dn key]; try reflexivity.
    exfalso. exact (He sv eq_refl).
  - intros Hin. destruct (handle_binds s e Hin) as (_ & [[sv ->]|[_ Hst]]).
    + exact (He sv eq_refl).
    + congruence.
Qed.

Lemma handle_rebind (s : ConduitServiceInteractor.t) (e : Event Bundle) :
  isServiceBound s = true ->
  (forall throws, e <> stop throws) -> e <> serviceDisconnected ->
  isServiceBound (handle s e).1 = true /\ context_bindService ∉ (handle s e).2.
Proof.
  intros Hb Hstop Hdis. split.
  - destruct s as [cs st b]. cbn in Hb. subst b.
    destruct e as [sv|th| |th| |bu|bu| | |mc up dn key|mc up dn key]; try reflexivity.
    + unfold handle, onStart, bindService. cbn [isServiceBound].
      destruct (isServiceRunning sv); reflexivity.
    + exfalso. exact (Hstop th eq_refl).
    + unfold handle, onReceive, bindService. cbn. destruct st; reflexivity.
    + contradiction.
  - intros Hin. destruct (handle_binds s e Hin) as (Hf & _). congruence.
Qed.

Lemma handle_unbinds (s : ConduitServiceInteractor.t) (e : Event Bundle)
    (outstanding : bool) (rest : list (Call Bundle)) :
  (isServiceBound s = true -> outstanding = true) ->
  exists outstanding',
    unbinds_matched outstanding ((handle s e).2 ++ rest)
    = unbinds_matched outstanding' rest /\
    (isServiceBound (handle s e).1 = true -> outstanding' = true).
Proof.
  intros Ho. destruct s as [cs st b]. cbn [isServiceBound] in Ho.
  destruct e as [sv|th| |th| |bu|bu| | |mc up dn key|mc up dn key];
    unfold handle, onStart, onStop, onReceive, onServiceConnected,
      onServiceDisconnected, onProxyStateUpdated, onProxyActivityStatsUpdated,
      ping, onDestroy, toggleInProxy, paramsChanged, bindService;
    cbn [isStopped isServiceBound conduitService negb];
    try destruct (isServiceRunning sv); try destruct th;
    destruct cs, st, b; try (rewrite (Ho eq_refl)); cbn;
    eexists; (split; [reflexivity|]); intros H; try discriminate;
    try reflexivity; auto.
Qed.

Lemma run_unbinds (es : list (Event Bundle)) (s : ConduitServiceInteractor.t)
    (outstanding : bool) :
  (isServiceBound s = true -> outstanding = true) ->
  unbinds_matched outstanding (run s es).2 = true.
Proof.
  revert s outstanding. induction es as [|e es IH]; intros s o Ho; [reflexivity|].
  rewrite run_cons. cbn [snd].
  destruct (handle_unbinds s e o (run (handle s e).1 es).2 Ho) as (o' & -> & Ho').
  apply IH. exact Ho'.
Qed.

Lemma run_no_bind (P : ConduitServiceInteractor.t -> Prop)
    (allowed : Event Bundle -> Prop) :
  (forall s e, P s -> allowed e ->
               P (handle s e).1 /\ context_bindService ∉ (handle s e).2) ->
  forall es s, P s -> Forall allowed es -> context_bindService ∉ (run s es).2.
Proof.
  intros Hstep es. induction es as [|e es IH]; intros s Hs Hes.
  - cbn. apply not_elem_of_nil.
  - apply Forall_cons in Hes. destruct Hes as [He Hes].
    rewrite run_cons. cbn [snd].
    destruct (Hstep s e Hs He) as [Hs' Hno].
    rewrite elem_of_app. intros [Hin|Hin]; [exact (Hno Hin)|].
    exact (IH _ Hs' Hes Hin).
Qed.

End InteractorProofs.

(** X11.  No unbind without a bind.  In the calls that the interactor
    makes from its construction on, whatever the events, every
    [unbindService] comes after a [bindService] that no other
    [unbindService] has followed. *)
Theorem unbind_follows_bind (Bundle : Type)
    (es : list (ConduitServiceInteractor.Event Bundle)) :
  unbinds_matched false
    ((@ConduitServiceInteractor.init Bundle).2
     ++ (ConduitServiceInteractor.run (@ConduitServiceInteractor.init Bundle).1 es).2)
  = true.
Proof.
  cbn [ConduitServiceInteractor.init fst snd app unbinds_matched].
  apply run_unbinds. cbn. discriminate.
Qed.

(** X12.  A stopped interactor never binds.  From a state in which the
    interactor is stopped, as it is when constructed and after [onStop], no
    sequence of events without an [onStart] makes it call [bindService]:
    broadcasts of the service are ignored. *)
Theorem stopped_never_binds (Bundle : Type)
    (s : ConduitServiceInteractor.t)
    (es : list (ConduitServiceInteractor.Event Bundle)) :
  ConduitServiceInteractor.isStopped s = true ->
  Forall (fun e => forall services, e <> ConduitServiceInteractor.start services) es ->
  (ConduitServiceInteractor.context_bindService
     ∉ (ConduitServiceInteractor.run s es).2) /\
  ConduitServiceInteractor.isStopped (ConduitServiceInteractor.run s es).1 = true.
Proof.
  intros Hs Hes. split.
  - apply (run_no_bind (fun s => ConduitServiceInteractor.isStopped s = true)
             (fun e => forall services, e <> ConduitServiceInteractor.start services));
      [|assumption..].
    intros s' e Hs' He. apply handle_stopped; assumption.
  - revert s Hs. induction es as [|e es IH]; intros s Hs; [exact Hs|].
    apply Forall_cons in Hes. destruct Hes as [He Hes].
    rewrite run_cons. cbn [fst]. apply (IH Hes).
    apply handle_stopped; assumption.
Qed.

Lemma stopped_never_binds_witness :
  ConduitServiceInteractor.context_bindService
    ∉ (ConduitServiceInteractor.run (@ConduitServiceInteractor.init Z).1
         [ConduitServiceInteractor.broadcast;
          ConduitServiceInteractor.serviceConnected false;
          ConduitServiceInteractor.proxyStateUpdated 7;
          ConduitServiceInteractor.stop true;
          ConduitServiceInteractor.broadcast]).2.
Proof.
  apply (stopped_never_binds Z).
  - reflexivity.
  - repeat (apply Forall_cons; split; [intros services; discriminate|]).
    apply Forall_nil. exact I.
Defined.

(** X13.  A bound interactor does not bind again.  From a state in which
    the connection is marked bound, no sequence of events without [onStop]
    and without a disconnection of the service makes the interactor call
    [bindService]: repeated [onStart] calls and broadcasts keep the one
    binding. *)
Theorem bound_never_binds_again (Bundle : Type)
    (s : ConduitServiceInteractor.t)
    (es : list (ConduitServiceInteractor.Event Bundle)) :
  ConduitServiceInteractor.isServiceBound s = true ->
  Forall (fun e => (forall throws, e <> ConduitServiceInteractor.stop throws) /\
                   e <> ConduitServiceInteractor.serviceDisconnected) es ->
  ConduitServiceInteractor.context_bindService
    ∉ (ConduitServiceInteractor.run s es).2.
Proof.
  intros Hb Hes.
  apply (run_no_bind (fun s => ConduitServiceInteractor.isServiceBound s = true)
           (fun e => (forall throws, e <> ConduitServiceInteractor.stop throws) /\
                     e <> ConduitServiceInteractor.serviceDisconnected));
    [|assumption..].
  intros s' e Hb' [Hstop Hdis]. apply handle_rebind; assumption.
Qed.

Lemma bound_never_binds_again_witness :
  let running := Some ["ca.psiphon.conduit.nativemodule.ConduitService"] in
  let s := (@ConduitServiceInteractor.onStart Z
              (@ConduitServiceInteractor.init Z).1 running).1 in
  (@ConduitServiceInteractor.onStart Z
     (@ConduitServiceInteractor.init Z).1 running).2
  = [ConduitServiceInteractor.context_bindService] /\
  (@ConduitServiceInteractor.context_bindService Z
     ∉ (ConduitServiceInteractor.run s
          [ConduitServiceInteractor.broadcast;
           ConduitServiceInteractor.serviceConnected false;
           ConduitServiceInteractor.start running;
           ConduitServiceInteractor.broadcast]).2).
Proof.
  cbv zeta. split; [reflexivity|].
  apply (bound_never_binds_again Z).
  - reflexivity.
  - repeat (apply Forall_cons; split;
            [split; [intros throws; discriminate | discriminate]|]).
    apply Forall_nil. exact I.
Defined.


(** * Calls that trap *)

(** X14.  Series that cannot be built or updated.  [init] traps on a
    negative bucket count.  With a bucket count of 0 it returns a series
    whose channels are empty, and every [updateSeries] call on that series
    traps.  On any series whose period is 0, every [updateSeries] call
    traps. *)
Theorem degenerate_series_trap :
  (forall period n : Z, n < 0 -> ActivitySeries.init period n = None) /\
  (forall period ms bu bd cg cd : Z,
     ActivitySeries.init period 0 = Some (ActivitySeries.mk period 0 [] [] [] []) /\
     ActivitySeries.updateSeries (ActivitySeries.mk period 0 [] [] [] [])
       ms bu bd cg cd = None) /\
  (forall (s : ActivitySeries.t) (ms bu bd cg cd : Z),
     ActivitySeries.msBucketPeriod s = 0 ->
     ActivitySeries.updateSeries s ms bu bd cg cd = None).
Proof.
  split; [|split].
  - intros period n Hn. unfold ActivitySeries.init, Swift.Deque_repeating.
    rewrite decide_False by lia. reflexivity.
  - intros period ms bu bd cg cd. split; [reflexivity|].
    unfold ActivitySeries.updateSeries.
    destruct (ActivitySeries.elapsedBucketCount _ ms) as [e|] eqn:He;
      [|reflexivity].
    apply elapsedBucketCount_le in He. cbn in He.
    cbn [mbind option_bind]. rewrite decide_False by lia. reflexivity.
  - intros s ms bu bd cg cd Hp.
    unfold ActivitySeries.updateSeries, ActivitySeries.elapsedBucketCount,
      Swift.UInt64_div.
    rewrite decide_True by exact Hp. reflexivity.
Qed.

Lemma degenerate_series_trap_witness :
  ActivitySeries.init 1000 (-1) = None /\
  ActivitySeries.updateSeries (ActivitySeries.mk 0 2 [1; 2] [3; 4] [0; 0] [0; 0])
    5000 1 2 3 4 = None.
Proof.
  destruct degenerate_series_trap as (Hneg & _ & Hperiod). split.
  - apply Hneg. lia.
  - apply Hperiod. reflexivity.
Defined.

Section Returns.
Import Swift.
Local Open Scope Q_scope.



End Returns.



(** * The configuration given to the tunnel *)

Section Config.
Import ConduitManager.


End Config.


